(** * Price intelligence engine: currency normaliser, trend analyser, insights

  A shallow embedding of [src/analysis/currency_converter.py] and
  [src/analysis/price_analyzer.py], with the routines of [main.py] and
  [cli.py] that store scraped prices, and the retention job of
  [src/database/database.py].

  Modelling conventions.
  - A Python [float] is a binary64 value: Rocq's primitive [float], with
    the IEEE operations of the kernel.  [if x:] on a float is [Py.truthy].
    A rate read from a JSON answer is taken to be a number.
  - [Optional[float]] is [option float]; a Python exception is the
    [Raise] outcome of [Py.result].  A function of the source that has no
    [raise] and calls nothing that can raise is a plain Rocq function.
  - A [datetime] is a number of microseconds ([Z]); a call reads the
    clock once ([utcnow]).
  - The database session is a record of tables; rows keep insertion
    order, and a query without [order_by] returns them in that order.
    Database failures are not modelled.  HTTP providers are an oracle
    from requests to responses.
  - pandas and numpy operations are written out by their definitions
    (mean, minimum, maximum, standard deviation, least-squares slope);
    prices are taken not to be NaN, which pandas would skip.
  - Logging is not modelled. *)

From Stdlib Require Import ZArith List String Bool Lia Floats.
From Stdlib Require Import Sorting.Permutation Sorting.Sorted.
From stdpp Require Import base option list gmap strings.

Set Warnings "-inexact-float".
Local Open Scope Z_scope.
Local Open Scope string_scope.

(* ------------------------------------------------------------------ *)
(** ** Python values and control *)

Module Py.

(** [bool(x)] for a float: false exactly for [0.0] and [-0.0]. *)
Definition truthy (x : float) : bool := negb (x =? 0)%float.

(** [bool(x)] for an [Optional[float]]: [None] is false too. *)
Definition opt_truthy (o : option float) : bool :=
  match o with Some x => truthy x | None => false end.

Inductive exn : Type := ZeroDivisionError | AttributeError.

Inductive result (A : Type) : Type :=
| Ok (a : A)
| Raise (e : exn).
Arguments Ok {A} a.
Arguments Raise {A} e.

(** [x / y] on floats raises on a zero divisor. *)
Definition truediv (x y : float) : result float :=
  if (y =? 0)%float then Raise ZeroDivisionError else Ok (x / y)%float.

(** [max(a, b)] keeps [a] unless [b > a]; [min(a, b)] keeps [a] unless
    [b < a] (so a NaN second argument is dropped). *)
Definition max2 (a b : float) : float := if (a <? b)%float then b else a.
Definition min2 (a b : float) : float := if (b <? a)%float then b else a.

(** [float(n)] for a small non-negative integer. *)
Definition of_Z (n : Z) : float := PrimFloat.of_uint63 (Uint63.of_Z n).

End Py.

Import Py.

(* ------------------------------------------------------------------ *)
(** ** Currency normaliser ([currency_converter.py]) *)

Module Currency.

(** A row of the [exchange_rates] table. *)
Record ExchangeRate : Type := {
  from_currency : string;
  to_currency : string;
  rate : float;
  date : Z;
  source : string }.

(** The three external providers, by the request each one sends. *)
Inductive request : Type :=
| ExchangeRateApi (base : string)              (* /v4/latest/{from} *)
| FixerIo (access_key base symbols : string)   (* data.fixer.io/api/latest *)
| ExchangeRateHost (from to : string).         (* exchangerate.host/convert *)

(** What the code reads of a JSON answer: [data.get('success')],
    [data.get('rates', {})] and [data.get('result')]. *)
Record json_body : Type := {
  js_success : bool;
  js_rates : gmap string float;
  js_result : option float }.

(** [requests.get] followed by [raise_for_status] and [json()]: any
    failure there is an exception, which every provider swallows. *)
Inductive http_result : Type :=
| HttpFailed
| HttpJson (body : json_body).

(** The I/O a call performs, in order. *)
Inductive event : Type :=
| DbQuery (from to : string)
| HttpGet (rq : request)
| DbInsert (row : ExchangeRate).

(** The converter object together with the world it talks to. *)
Record Converter : Type := {
  utcnow : Z;
  requests_get : request -> http_result;
  exchange_rates : list ExchangeRate;
  api_key : option string;
  fallback_rates : gmap string float;
  trace : list event }.

Definition log (e : event) (c : Converter) : Converter :=
  {| utcnow := utcnow c; requests_get := requests_get c;
     exchange_rates := exchange_rates c; api_key := api_key c;
     fallback_rates := fallback_rates c; trace := trace c ++ [e] |}.

Definition add_row (row : ExchangeRate) (c : Converter) : Converter :=
  {| utcnow := utcnow c; requests_get := requests_get c;
     exchange_rates := exchange_rates c ++ [row]; api_key := api_key c;
     fallback_rates := fallback_rates c;
     trace := trace c ++ [DbInsert row] |}.

Definition set_fallback (cur : string) (r : float) (c : Converter) : Converter :=
  {| utcnow := utcnow c; requests_get := requests_get c;
     exchange_rates := exchange_rates c; api_key := api_key c;
     fallback_rates := <[cur := r]> (fallback_rates c); trace := trace c |}.

(** State and exception monad of the converter's methods. *)
Definition M (A : Type) : Type := Converter -> result A * Converter.

Definition ret {A} (a : A) : M A := fun c => (Ok a, c).

Definition bind {A B} (m : M A) (k : A -> M B) : M B :=
  fun c => match m c with
           | (Ok a, c') => k a c'
           | (Raise e, c') => (Raise e, c')
           end.

Definition lift {A} (r : result A) : M A := fun c => (r, c).

Declare Scope conv_scope.
Delimit Scope conv_scope with conv.
Notation "x <- m ;; k" := (bind m (fun x => k))
  (at level 62, m at next level, right associativity) : conv_scope.
Local Open Scope conv_scope.

(** The built-in table of [__init__]. *)
Definition initial_fallback_rates : gmap string float :=
  <["AUD" := 1.35%float]> (<["CAD" := 1.25%float]> (<["INR" := 75.0%float]>
  (<["JPY" := 110.0%float]> (<["GBP" := 0.73%float]> (<["EUR" := 0.85%float]>
  (<["USD" := 1.0%float]> ∅)))))).

Definition cache_duration_hours : Z := 24.
Definition timedelta_hours (h : Z) : Z := h * 3600 * 1000000.

(** [order_by(date.desc()).first()]: the newest row; among rows of one
    date the one stored first. *)
Fixpoint newest (rows : list ExchangeRate) : option ExchangeRate :=
  match rows with
  | [] => None
  | r :: rest =>
      match newest rest with
      | Some r' => if (date r <? date r')%Z then Some r' else Some r
      | None => Some r
      end
  end.

Definition pair_rows (from to : string) (rows : list ExchangeRate) : list ExchangeRate :=
  List.filter (fun e => String.eqb (from_currency e) from
                        && String.eqb (to_currency e) to) rows.

Definition _get_cached_rate (from to : string) : M (option float) :=
  fun c =>
    let cutoff_time := utcnow c - timedelta_hours cache_duration_hours in
    let fresh := List.filter (fun e => (cutoff_time <=? date e)%Z)
                             (pair_rows from to (exchange_rates c)) in
    (Ok (option_map rate (newest fresh)), log (DbQuery from to) c).

Definition _cache_rate (from to : string) (r : float) : M unit :=
  fun c =>
    (Ok tt, add_row {| from_currency := from; to_currency := to; rate := r;
                       date := utcnow c; source := "api" |} c).

Definition http (rq : request) : M http_result :=
  fun c => (Ok (requests_get c rq), log (HttpGet rq) c).

Definition _fetch_from_exchangerate_api (from to : string) : M (option float) :=
  resp <- http (ExchangeRateApi from) ;;
  match resp with
  | HttpFailed => ret None
  | HttpJson data => ret (js_rates data !! to)
  end.

Definition _fetch_from_fixer_io (from to : string) : M (option float) :=
  fun c =>
    match api_key c with
    | None => (Ok None, c)
    | Some key =>
        if String.eqb key "" then (Ok None, c)
        else (resp <- http (FixerIo key from to) ;;
              match resp with
              | HttpFailed => ret None
              | HttpJson data =>
                  if js_success data then ret (js_rates data !! to) else ret None
              end) c
    end.

Definition _fetch_from_free_forex_api (from to : string) : M (option float) :=
  resp <- http (ExchangeRateHost from to) ;;
  match resp with
  | HttpFailed => ret None
  | HttpJson data => if js_success data then ret (js_result data) else ret None
  end.

Definition apis : list (string -> string -> M (option float)) :=
  [_fetch_from_exchangerate_api; _fetch_from_fixer_io; _fetch_from_free_forex_api].

(** The [for api_func in apis] loop: the first truthy answer wins. *)
Fixpoint try_apis (fs : list (string -> string -> M (option float)))
         (from to : string) : M (option float) :=
  match fs with
  | [] => ret None
  | api_func :: rest =>
      r <- api_func from to ;;
      if opt_truthy r then ret r else try_apis rest from to
  end.

Definition _fetch_rate_from_api (from to : string) : M (option float) :=
  try_apis apis from to.

Definition _get_fallback_rate_in (table : gmap string float)
           (from to : string) : result (option float) :=
  if String.eqb from to then Ok (Some 1.0%float)
  else if negb (String.eqb to "USD") then
    let from_rate := table !! from in
    let to_rate := table !! to in
    match from_rate, to_rate with
    | Some fr, Some tr =>
        if truthy fr && truthy tr then
          match truediv tr fr with
          | Ok q => Ok (Some q)
          | Raise e => Raise e
          end
        else Ok None
    | _, _ => Ok None
    end
  else
    match table !! from with
    | Some fr =>
        if truthy fr then
          match truediv 1.0%float fr with
          | Ok q => Ok (Some q)
          | Raise e => Raise e
          end
        else Ok None
    | None => Ok None
    end.

Definition _get_fallback_rate (from to : string) : M (option float) :=
  fun c => (_get_fallback_rate_in (fallback_rates c) from to, c).

(** "Use fallback rate": the last tier of [get_exchange_rate]. *)
Definition use_fallback_tier (from to : string) : M (option float) :=
  fallback_rate <- _get_fallback_rate from to ;;
  if opt_truthy fallback_rate then ret fallback_rate else ret None.

(** "Try to fetch from API": the middle tier and what follows it. *)
Definition try_api_tier (from to : string) : M (option float) :=
  api_rate <- _fetch_rate_from_api from to ;;
  match api_rate with
  | Some r =>
      if truthy r then (_u <- _cache_rate from to r ;; ret api_rate)
      else use_fallback_tier from to
  | None => use_fallback_tier from to
  end.

Definition get_exchange_rate (from to : string) : M (option float) :=
  cached_rate <- _get_cached_rate from to ;;
  if opt_truthy cached_rate then ret cached_rate
  else try_api_tier from to.

Definition convert_to_usd (amount : float) (from : string) : M (option float) :=
  if String.eqb from "USD" then ret (Some amount)
  else
    rate <- get_exchange_rate from "USD" ;;
    match rate with
    | Some r =>
        if truthy r then (q <- lift (truediv amount r) ;; ret (Some q))
        else ret None
    | None => ret None
    end.

(** [update_fallback_rates]: the newest stored rate of each tracked
    currency, of any age, overwrites the table entry. *)
Definition tracked_currencies : list string :=
  ["EUR"; "GBP"; "JPY"; "INR"; "CAD"; "AUD"].

Definition update_one (currency : string) : M unit :=
  fun c =>
    let c1 := log (DbQuery currency "USD") c in
    match newest (pair_rows currency "USD" (exchange_rates c)) with
    | Some latest_rate => (Ok tt, set_fallback currency (rate latest_rate) c1)
    | None => (Ok tt, c1)
    end.

Fixpoint for_each {A} (f : A -> M unit) (l : list A) : M unit :=
  match l with
  | [] => ret tt
  | x :: rest => _u <- f x ;; for_each f rest
  end.

Definition update_fallback_rates : M unit :=
  for_each update_one tracked_currencies.

(** [bulk_convert_to_usd].  [currency_groups] is a dict: keys keep the
    order of their first insertion. *)
Fixpoint group_append (currency : string) (item : float * Z)
         (groups : list (string * list (float * Z))) : list (string * list (float * Z)) :=
  match groups with
  | [] => [(currency, [item])]
  | (k, items) :: rest =>
      if String.eqb k currency then (k, (items ++ [item])%list) :: rest
      else (k, items) :: group_append currency item rest
  end.

Definition group_by_currency (amounts_and_currencies : list (float * string * Z))
  : list (string * list (float * Z)) :=
  fold_left (fun groups '(amount, currency, index) =>
               group_append currency (amount, index) groups)
            amounts_and_currencies [].

(** The inner loop over one group, given the group's rate. *)
Fixpoint convert_items (currency : string) (rate : option float)
         (items : list (float * Z)) : result (list (Z * option float)) :=
  match items with
  | [] => Ok []
  | (amount, index) :: rest =>
      let here :=
        if opt_truthy rate then
          if negb (String.eqb currency "USD") then
            match rate with
            | Some r => match truediv amount r with
                        | Ok q => Ok (index, Some q)
                        | Raise e => Raise e
                        end
            | None => Ok (index, None)
            end
          else Ok (index, Some amount)
        else Ok (index, None) in
      match here with
      | Ok x => match convert_items currency rate rest with
                | Ok xs => Ok (x :: xs)
                | Raise e => Raise e
                end
      | Raise e => Raise e
      end
  end.

Fixpoint convert_groups (groups : list (string * list (float * Z)))
  : M (list (Z * option float)) :=
  match groups with
  | [] => ret []
  | (currency, items) :: rest =>
      rate <- (if negb (String.eqb currency "USD")
               then get_exchange_rate currency "USD"
               else ret (Some 1.0%float)) ;;
      here <- lift (convert_items currency rate items) ;;
      more <- convert_groups rest ;;
      ret (here ++ more)%list
  end.

(** [results.sort(key=lambda x: x[0])]: a stable sort on the index (an
    element goes in front of the later ones of the same index). *)
Fixpoint insert_by_index {A} (x : Z * A) (l : list (Z * A)) : list (Z * A) :=
  match l with
  | [] => [x]
  | y :: rest => if (fst y <? fst x)%Z
                 then y :: insert_by_index x rest
                 else x :: y :: rest
  end.

Definition sort_by_index {A} (l : list (Z * A)) : list (Z * A) :=
  fold_right insert_by_index [] l.

Definition bulk_convert_to_usd (amounts_and_currencies : list (float * string * Z))
  : M (list (option float)) :=
  results <- convert_groups (group_by_currency amounts_and_currencies) ;;
  ret (List.map snd (sort_by_index results)).

(** *** The caller that stores a normalised price

    [main.py] ([_save_price_data], lines 157-166) computes the
    [price_usd] column of a record it saves. *)

Definition main_price_usd (price : float) (currency : string) : M (option float) :=
  if negb (String.eqb currency "USD") then
    converted <- convert_to_usd price currency ;;
    if opt_truthy converted then ret converted else ret (Some price)
  else ret (Some price).

End Currency.


(* ------------------------------------------------------------------ *)
(** ** Trend analyser and insight generator ([price_analyzer.py]) *)

Module Analyzer.

(** Rows of [phone_models], [platforms] and [price_records]. *)
Record PhoneModel : Type := {
  brand : string;
  model_name : string;
  storage_capacity : string }.

Record Platform : Type := {
  name : string;
  region : string }.

Record PriceRecord : Type := {
  phone_model_id : Z;
  platform_id : Z;
  condition : string;
  price : float;
  currency : string;
  price_usd : option float;
  availability : bool;
  scrape_timestamp : Z }.

(** The database session: [query(T).get(id)] is a lookup by primary key. *)
Record Session : Type := {
  price_records : list PriceRecord;
  phone_models : gmap Z PhoneModel;
  platforms : gmap Z Platform;
  utcnow : Z }.

Record PriceAnalysis : Type := {
  pa_phone_model : string;
  pa_brand : string;
  pa_storage : string;
  pa_platform : string;
  pa_region : string;
  pa_condition : string;
  current_price : float;
  previous_price : option float;
  price_change_amount : float;
  price_change_percent : float;
  avg_price_7d : float;
  avg_price_30d : float;
  min_price_7d : float;
  max_price_7d : float;
  volatility : float;
  trend_direction : string;
  confidence_score : float }.

(** [description] is formatted text of the same numbers and is left out. *)
Record MarketInsight : Type := {
  insight_type : string;
  title : string;
  mi_phone_model : string;
  mi_platform : string;
  mi_region : string;
  value : float;
  confidence : float }.

Definition timedelta_days (d : Z) : Z := d * 86400 * 1000000.

(** A row of the data frame: [timestamp] and [price_usd]. *)
Definition frame : Type := list (Z * float).

(** *** Series operations of pandas and numpy, by their definitions *)

Definition fsum (l : list float) : float :=
  fold_left (fun acc x => (acc + x)%float) l 0%float.

Definition flen {A} (l : list A) : float := of_Z (Z.of_nat (length l)).

Definition mean (l : list float) : float := (fsum l / flen l)%float.

Definition series_min (l : list float) (default : float) : float :=
  match l with
  | [] => default
  | x :: rest => fold_left (fun m y => if (y <? m)%float then y else m) rest x
  end.

Definition series_max (l : list float) (default : float) : float :=
  match l with
  | [] => default
  | x :: rest => fold_left (fun m y => if (m <? y)%float then y else m) rest x
  end.

(** [Series.std(ddof)]: the root of the summed squared deviations from the
    mean over [n - ddof].  pandas' default is [ddof = 1]. *)
Definition std_ddof (ddof : Z) (l : list float) : float :=
  let m := mean l in
  let ss := fsum (List.map (fun x => ((x - m) * (x - m))%float) l) in
  PrimFloat.sqrt (ss / of_Z (Z.of_nat (length l) - ddof))%float.

Definition std (l : list float) : float := std_ddof 1 l.

(** Slope of [np.polyfit(np.arange(n), y, 1)]: the least-squares line. *)
Definition polyfit_slope (y : list float) : float :=
  let x := List.map (fun i => of_Z (Z.of_nat i)) (seq 0 (length y)) in
  let xm := mean x in
  let ym := mean y in
  let sxy := fsum (List.map (fun '(xi, yi) => ((xi - xm) * (yi - ym))%float)
                            (combine x y)) in
  let sxx := fsum (List.map (fun xi => ((xi - xm) * (xi - xm))%float) x) in
  (sxy / sxx)%float.

(** *** [_analyze_single_combination] *)

Definition in_combination (phone_model_id0 platform_id0 : Z) (condition0 : string)
           (p : PriceRecord) : bool :=
  (phone_model_id p =? phone_model_id0)%Z && (platform_id p =? platform_id0)%Z
  && String.eqb (condition p) condition0.

Definition has_price (p : PriceRecord) : bool :=
  match price_usd p with Some _ => true | None => false end.

(** The filter of [prices_query]. *)
Definition qualifying (s : Session) (phone_model_id0 platform_id0 : Z)
           (condition0 : string) (days_back : Z) : list PriceRecord :=
  let cutoff_date := utcnow s - timedelta_days days_back in
  List.filter (fun p => in_combination phone_model_id0 platform_id0 condition0 p
                        && (cutoff_date <=? scrape_timestamp p)%Z
                        && has_price p)
              (price_records s).

(** [sort_values('timestamp')], as a stable ascending sort. *)
Fixpoint insert_by_timestamp (x : Z * float) (l : frame) : frame :=
  match l with
  | [] => [x]
  | y :: rest => if (fst y <? fst x)%Z then y :: insert_by_timestamp x rest
                 else x :: y :: rest
  end.

Definition sort_values (df : frame) : frame :=
  fold_right insert_by_timestamp [] df.

(** [order_by(desc(scrape_timestamp))], stable as well. *)
Fixpoint insert_desc (x : PriceRecord) (l : list PriceRecord) : list PriceRecord :=
  match l with
  | [] => [x]
  | y :: rest => if (scrape_timestamp x <? scrape_timestamp y)%Z
                 then y :: insert_desc x rest
                 else x :: y :: rest
  end.

Definition order_by_desc (l : list PriceRecord) : list PriceRecord :=
  fold_right insert_desc [] l.

Definition to_frame (prices : list PriceRecord) : frame :=
  flat_map (fun p => match price_usd p with
                     | Some u => [(scrape_timestamp p, u)]
                     | None => []
                     end) prices.

Definition price_column (df : frame) : list float := List.map snd df.

Definition since (df : frame) (t : Z) : frame :=
  List.filter (fun r => (t <=? fst r)%Z) df.

Definition _determine_trend_direction (df : frame) : string :=
  if (length df <? 3)%nat then "stable"
  else
    let y := price_column df in
    let slope := polyfit_slope y in
    let avg_price := mean y in
    let normalized_slope := (slope / avg_price * 100)%float in
    if (0.5 <? normalized_slope)%float then "up"
    else if (normalized_slope <? -0.5)%float then "down"
    else "stable".

(** [(max - min).days] of a non-negative [timedelta]. *)
Definition days_between (df : frame) : Z :=
  match List.map fst df with
  | [] => 0
  | t :: ts => (fold_left Z.max ts t - fold_left Z.min ts t) / timedelta_days 1
  end.

(** The 0.4 / 0.4 / 0.2 blend of the three sub-scores. *)
Definition blended_confidence (df : frame) (volatility0 : float) : float :=
  let data_score := min2 (flen df / 20.0)%float 1.0%float in
  let avg_price := mean (price_column df) in
  let volatility_ratio :=
    if (0 <? avg_price)%float then (volatility0 / avg_price)%float else 1.0%float in
  let volatility_score := max2 0%float (1.0 - volatility_ratio * 2)%float in
  let days_span := days_between df in
  let recency_score := min2 (of_Z days_span / 30.0)%float 1.0%float in
  (data_score * 0.4 + volatility_score * 0.4 + recency_score * 0.2)%float.

Definition _calculate_confidence_score (df : frame) (volatility0 : float) : float :=
  if (length df <? 3)%nat then 0.3%float
  else max2 0.1%float (min2 1.0%float (blended_confidence df volatility0)).

Definition _analyze_single_combination (s : Session)
           (phone_model_id0 platform_id0 : Z) (condition0 : string) (days_back : Z)
  : option PriceAnalysis :=
  let prices := order_by_desc (qualifying s phone_model_id0 platform_id0 condition0 days_back) in
  if (length prices <? 2)%nat then None
  else
    match phone_models s !! phone_model_id0, platforms s !! platform_id0 with
    | Some phone_model, Some platform =>
        let df := sort_values (to_frame prices) in
        let col := price_column df in
        match rev col with
        | [] => None
        | current :: before =>
            let previous := if (1 <? length df)%nat then head before else None in
            let change_amount :=
              match previous with
              | Some p => if truthy p then (current - p)%float else 0%float
              | None => 0%float
              end in
            let change_percent :=
              match previous with
              | Some p => if truthy p then (change_amount / p * 100)%float else 0%float
              | None => 0%float
              end in
            let df_7d := since df (utcnow s - timedelta_days 7) in
            let df_30d := since df (utcnow s - timedelta_days 30) in
            let volatility0 := if (1 <? length df)%nat then std col else 0.0%float in
            Some {|
              pa_phone_model := model_name phone_model;
              pa_brand := brand phone_model;
              pa_storage := storage_capacity phone_model;
              pa_platform := name platform;
              pa_region := region platform;
              pa_condition := condition0;
              current_price := current;
              previous_price := previous;
              price_change_amount := change_amount;
              price_change_percent := change_percent;
              avg_price_7d :=
                if (0 <? length df_7d)%nat then mean (price_column df_7d) else current;
              avg_price_30d :=
                if (0 <? length df_30d)%nat then mean (price_column df_30d) else current;
              min_price_7d := series_min (price_column df_7d) current;
              max_price_7d := series_max (price_column df_7d) current;
              volatility := volatility0;
              trend_direction := _determine_trend_direction df;
              confidence_score := _calculate_confidence_score df volatility0 |}
        end
    | _, _ => None
    end.

(** *** [find_arbitrage_opportunities] *)

Definition same_combination (p q : PriceRecord) : bool :=
  in_combination (phone_model_id p) (platform_id p) (condition p) q.

(** The subquery: [max(scrape_timestamp)] of a record's
    (phone model, platform, condition). *)
Definition latest_timestamp (s : Session) (p : PriceRecord) : Z :=
  fold_left Z.max
            (List.map scrape_timestamp (List.filter (same_combination p) (price_records s)))
            (scrape_timestamp p).

(** The join: every record that carries its combination's latest timestamp. *)
Definition latest_prices (s : Session) : list PriceRecord :=
  List.filter (fun p => (scrape_timestamp p =? latest_timestamp s p)%Z) (price_records s).

Definition group_key : Type := (Z * string)%type.

Definition key_eqb (k1 k2 : group_key) : bool :=
  (fst k1 =? fst k2)%Z && String.eqb (snd k1) (snd k2).

(** [price_groups] is a dict: keys keep the order of their first insertion. *)
Fixpoint group_append (key : group_key) (p : PriceRecord)
         (groups : list (group_key * list PriceRecord)) : list (group_key * list PriceRecord) :=
  match groups with
  | [] => [(key, [p])]
  | (k, ps) :: rest =>
      if key_eqb k key then (k, (ps ++ [p])%list) :: rest
      else (k, ps) :: group_append key p rest
  end.

Definition price_groups (latest : list PriceRecord) : list (group_key * list PriceRecord) :=
  fold_left (fun groups p => group_append (phone_model_id p, condition p) p groups)
            latest [].

(** [p.price_usd or float('inf')] *)
Definition price_key (p : PriceRecord) : float :=
  match price_usd p with
  | Some u => if truthy u then u else infinity
  | None => infinity
  end.

(** [sorted(prices, key=...)]: stable, lowest key first. *)
Fixpoint insert_by_price (x : PriceRecord) (l : list PriceRecord) : list PriceRecord :=
  match l with
  | [] => [x]
  | y :: rest => if (price_key y <? price_key x)%float
                 then y :: insert_by_price x rest
                 else x :: y :: rest
  end.

Definition sorted_by_price (l : list PriceRecord) : list PriceRecord :=
  fold_right insert_by_price [] l.

(** [sorted(insights, key=lambda x: x.value, reverse=True)]: stable,
    highest value first. *)
Fixpoint insert_by_value (x : MarketInsight) (l : list MarketInsight) : list MarketInsight :=
  match l with
  | [] => [x]
  | y :: rest => if (value x <? value y)%float
                 then y :: insert_by_value x rest
                 else x :: y :: rest
  end.

Definition sorted_by_value_desc (l : list MarketInsight) : list MarketInsight :=
  fold_right insert_by_value [] l.

(** The body of the loop over [price_groups.items()]: the insight of one
    group, if it yields one. *)
Definition group_insight (s : Session) (min_profit_percent : float)
           (key : group_key) (prices : list PriceRecord) : result (option MarketInsight) :=
  if (length prices <? 2)%nat then Ok None
  else
    match phone_models s !! fst key with
    | None => Ok None
    | Some phone_model =>
        let prices_sorted := sorted_by_price prices in
        match head prices_sorted, last prices_sorted with
        | Some min_price, Some max_price =>
            match price_usd min_price, price_usd max_price with
            | Some lo, Some hi =>
                if truthy lo && truthy hi then
                  match truediv (hi - lo)%float lo with
                  | Raise e => Raise e
                  | Ok q =>
                      let profit_percent := (q * 100)%float in
                      if (min_profit_percent <=? profit_percent)%float then
                        match platforms s !! platform_id min_price,
                              platforms s !! platform_id max_price with
                        | Some min_platform, Some max_platform =>
                            Ok (Some {|
                              insight_type := "arbitrage";
                              title := "Arbitrage Opportunity: " ++ brand phone_model
                                       ++ " " ++ model_name phone_model;
                              mi_phone_model := brand phone_model ++ " "
                                                ++ model_name phone_model;
                              mi_platform := name min_platform ++ " → "
                                             ++ name max_platform;
                              mi_region := region min_platform ++ " → "
                                           ++ region max_platform;
                              value := profit_percent;
                              confidence := 0.8%float |})
                        | _, _ => Raise AttributeError
                        end
                      else Ok None
                  end
                else Ok None
            | _, _ => Ok None
            end
        | _, _ => Ok None
        end
    end.

Fixpoint collect_insights (s : Session) (min_profit_percent : float)
         (groups : list (group_key * list PriceRecord)) : result (list MarketInsight) :=
  match groups with
  | [] => Ok []
  | (key, prices) :: rest =>
      match group_insight s min_profit_percent key prices with
      | Raise e => Raise e
      | Ok here =>
          match collect_insights s min_profit_percent rest with
          | Raise e => Raise e
          | Ok more => Ok (match here with Some i => i :: more | None => more end)
          end
      end
  end.

Definition find_arbitrage_opportunities (s : Session) (min_profit_percent : float)
  : result (list MarketInsight) :=
  match collect_insights s min_profit_percent (price_groups (latest_prices s)) with
  | Raise e => Raise e
  | Ok insights => Ok (sorted_by_value_desc insights)
  end.

End Analyzer.


(* ------------------------------------------------------------------ *)
(** ** The other producers of [price_analyzer.py], and the retention job *)

Module Insights.
Import Analyzer.

(** *** [analyze_price_trends] *)

Definition combination_eqb (a b : Z * Z * string) : bool :=
  (fst (fst a) =? fst (fst b))%Z && (snd (fst a) =? snd (fst b))%Z
  && String.eqb (snd a) (snd b).

(** [.distinct()], in the order of first occurrence. *)
Fixpoint distinct (l : list (Z * Z * string)) : list (Z * Z * string) :=
  match l with
  | [] => []
  | x :: rest =>
      x :: List.filter (fun y => negb (combination_eqb x y)) (distinct rest)
  end.

Definition combinations (s : Session) : list (Z * Z * string) :=
  distinct (List.map (fun p => (phone_model_id p, platform_id p, condition p))
                     (price_records s)).

(** The loop appends every analysis that is not none. *)
Definition analyze_price_trends (s : Session) (days_back : Z) : list PriceAnalysis :=
  flat_map (fun '(phone_model_id0, platform_id0, condition0) =>
              match _analyze_single_combination
                      s phone_model_id0 platform_id0 condition0 days_back with
              | Some analysis => [analysis]
              | None => []
              end)
           (combinations s).

(** *** [find_significant_price_changes] *)

(** A row of [price_trends]. *)
Record PriceTrend : Type := {
  pt_phone_model_id : Z;
  pt_platform_id : Z;
  pt_condition : string;
  current_price_usd : option float;
  pt_price_change_percent : option float;
  trend_period : string;
  trend_date : option Z }.

(** [func.abs(price_change_percent)]; NULL stays NULL. *)
Definition abs_change (t : PriceTrend) : option float :=
  option_map PrimFloat.abs (pt_price_change_percent t).

(** The filter of the query; a comparison with NULL selects nothing. *)
Definition is_significant (s : Session) (min_change_percent : float)
           (t : PriceTrend) : bool :=
  match trend_date t with
  | Some d => (utcnow s - timedelta_days 7 <=? d)%Z
  | None => false
  end
  && String.eqb (trend_period t) "weekly"
  && match abs_change t with
     | Some a => (min_change_percent <=? a)%float
     | None => false
     end.

Definition change_key (t : PriceTrend) : float :=
  match abs_change t with Some a => a | None => 0%float end.

(** [order_by(desc(abs(price_change_percent)))], as a stable sort. *)
Fixpoint insert_by_change (x : PriceTrend) (l : list PriceTrend) : list PriceTrend :=
  match l with
  | [] => [x]
  | y :: rest => if (change_key x <? change_key y)%float
                 then y :: insert_by_change x rest
                 else x :: y :: rest
  end.

Definition recent_trends (s : Session) (price_trends : list PriceTrend)
           (min_change_percent : float) : list PriceTrend :=
  fold_right insert_by_change []
             (List.filter (is_significant s min_change_percent) price_trends).

(** The function returns its list, or raises [TypeError] where it
    compares or formats a NULL column. *)
Inductive outcome (A : Type) : Type :=
| Returned (a : A)
| TypeError.
Arguments Returned {A} a.
Arguments TypeError {A}.

Fixpoint change_insights (s : Session) (trends : list PriceTrend)
  : outcome (list MarketInsight) :=
  match trends with
  | [] => Returned []
  | trend :: rest =>
      match phone_models s !! pt_phone_model_id trend,
            platforms s !! pt_platform_id trend with
      | Some phone_model, Some platform =>
          match pt_price_change_percent trend, current_price_usd trend with
          | Some change, Some _ =>
              let change_type :=
                if (change <? 0)%float then "price_drop" else "price_increase" in
              match change_insights s rest with
              | Returned more =>
                  Returned ({| insight_type := change_type;
                               title := "Significant Price Change: "
                                        ++ brand phone_model ++ " "
                                        ++ model_name phone_model;
                               mi_phone_model := brand phone_model ++ " "
                                                 ++ model_name phone_model;
                               mi_platform := name platform;
                               mi_region := region platform;
                               value := PrimFloat.abs change;
                               confidence := 0.9%float |} :: more)
              | TypeError => TypeError
              end
          | _, _ => TypeError
          end
      | _, _ => change_insights s rest
      end
  end.

Definition find_significant_price_changes (s : Session)
           (price_trends : list PriceTrend) (min_change_percent : float)
  : outcome (list MarketInsight) :=
  change_insights s (recent_trends s price_trends min_change_percent).

(** *** [find_best_deals] *)

(** The rows the subquery aggregates: seen in the last 3 days, with a USD
    price, available. *)
Definition recent_available (s : Session) : list PriceRecord :=
  List.filter (fun p => (utcnow s - timedelta_days 3 <=? scrape_timestamp p)%Z
                        && has_price p && availability p)
              (price_records s).

Definition usd_prices (l : list PriceRecord) : list float :=
  flat_map (fun p => match price_usd p with Some u => [u] | None => [] end) l.

(** [func.min(price_usd)] of one (phone model, condition) group; the
    subquery has no row for a group without records. *)
Definition min_price (s : Session) (key : group_key) : option float :=
  match usd_prices (List.filter (fun p => key_eqb key (phone_model_id p, condition p))
                                (recent_available s)) with
  | [] => None
  | x :: rest => Some (fold_left (fun m y => if (y <? m)%float then y else m) rest x)
  end.

(** The join: any record, of whatever age, whose price equals the
    minimum of its group. *)
Definition is_best_deal (s : Session) (p : PriceRecord) : bool :=
  match min_price s (phone_model_id p, condition p), price_usd p with
  | Some m, Some u => (u =? m)%float
  | _, _ => false
  end.

Definition deal_price (p : PriceRecord) : float :=
  match price_usd p with Some u => u | None => 0%float end.

(** [order_by(price_usd)], as a stable ascending sort. *)
Fixpoint insert_by_usd (x : PriceRecord) (l : list PriceRecord) : list PriceRecord :=
  match l with
  | [] => [x]
  | y :: rest => if (deal_price y <? deal_price x)%float
                 then y :: insert_by_usd x rest
                 else x :: y :: rest
  end.

Definition best_deals (s : Session) (top_n : nat) : list PriceRecord :=
  firstn top_n
         (fold_right insert_by_usd [] (List.filter (is_best_deal s) (price_records s))).

(** [func.avg(price_usd)] over the group's last 30 days; NULL without
    rows. *)
Definition avg_price (s : Session) (deal : PriceRecord) : option float :=
  match usd_prices
          (List.filter (fun p => (phone_model_id p =? phone_model_id deal)%Z
                                 && String.eqb (condition p) (condition deal)
                                 && (utcnow s - timedelta_days 30 <=? scrape_timestamp p)%Z
                                 && has_price p)
                       (price_records s)) with
  | [] => None
  | prices => Some (mean prices)
  end.

Definition deal_insight (s : Session) (deal : PriceRecord) : list MarketInsight :=
  match phone_models s !! phone_model_id deal, platforms s !! platform_id deal with
  | Some phone_model, Some platform =>
      if opt_truthy (avg_price s deal) && opt_truthy (price_usd deal) then
        [ {| insight_type := "best_deal";
             title := "Best Deal: " ++ brand phone_model ++ " "
                      ++ model_name phone_model;
             mi_phone_model := brand phone_model ++ " " ++ model_name phone_model;
             mi_platform := name platform;
             mi_region := region platform;
             value := deal_price deal;
             confidence := 0.7%float |} ]
      else []
  | _, _ => []
  end.

Definition find_best_deals (s : Session) (top_n : nat) : list MarketInsight :=
  flat_map (deal_insight s) (best_deals s top_n).

(** *** [generate_market_summary] *)

(** [group_by(key)] with [count]: one row per key, counting its
    occurrences. *)
Fixpoint count_append {K} `{EqDecision K} (key : K) (groups : list (K * nat))
  : list (K * nat) :=
  match groups with
  | [] => [(key, 1%nat)]
  | (k, n) :: rest => if decide (k = key) then (k, S n) :: rest
                      else (k, n) :: count_append key rest
  end.

Definition group_count {K} `{EqDecision K} (keys : list K) : list (K * nat) :=
  fold_left (fun groups key => count_append key groups) keys [].

(** [order_by(desc('record_count'))]. *)
Fixpoint insert_by_count {K} (x : K * nat) (l : list (K * nat)) : list (K * nat) :=
  match l with
  | [] => [x]
  | y :: rest => if (snd x <? snd y)%nat then y :: insert_by_count x rest
                 else x :: y :: rest
  end.

Definition order_by_count_desc {K} (l : list (K * nat)) : list (K * nat) :=
  fold_right insert_by_count [] l.

(** [group_by(brand)] collecting the prices [avg] runs over. *)
Fixpoint price_append (key : string) (u : float) (groups : list (string * list float))
  : list (string * list float) :=
  match groups with
  | [] => [(key, [u])]
  | (k, prices) :: rest => if String.eqb k key then (k, (prices ++ [u])%list) :: rest
                           else (k, prices) :: price_append key u rest
  end.

(** The records of the last 7 days. *)
Definition last_week (s : Session) : list PriceRecord :=
  List.filter (fun p => (utcnow s - timedelta_days 7 <=? scrape_timestamp p)%Z)
              (price_records s).

Record MarketSummary : Type := {
  total_records : nat;
  recent_records : nat;
  brand_avg_prices : list (string * float);
  popular_models : list (string * string * nat);
  platform_activity : list (string * nat);
  last_updated : Z }.

(** The joins are inner joins: a record whose phone model (or platform)
    is not stored drops out of the query that joins it. *)
Definition generate_market_summary (s : Session) : MarketSummary :=
  let now := utcnow s in
  {| total_records := length (price_records s);
     recent_records := length (last_week s);
     brand_avg_prices :=
       List.map (fun g => (fst g, mean (snd g)))
         (fold_left
            (fun groups p =>
               match phone_models s !! phone_model_id p, price_usd p with
               | Some phone_model, Some u => price_append (brand phone_model) u groups
               | _, _ => groups
               end)
            (last_week s) []);
     popular_models :=
       firstn 5
         (order_by_count_desc
            (group_count
               (flat_map (fun p => match phone_models s !! phone_model_id p with
                                   | Some phone_model =>
                                       [(brand phone_model, model_name phone_model)]
                                   | None => []
                                   end)
                         (last_week s))));
     platform_activity :=
       order_by_count_desc
         (group_count
            (flat_map (fun p => match platforms s !! platform_id p with
                                | Some platform => [name platform]
                                | None => []
                                end)
                      (last_week s)));
     last_updated := now |}.

(** *** [DatabaseManager.cleanup_old_records] ([database.py]) *)

(** Deletes the records older than [keep_days]; returns the store and the
    number of deleted rows. *)
Definition cleanup_old_records (s : Session) (keep_days : Z) : Session * nat :=
  let cutoff_date := utcnow s - timedelta_days keep_days in
  let kept := List.filter (fun p => negb (scrape_timestamp p <? cutoff_date)%Z)
                          (price_records s) in
  let deleted := List.filter (fun p => (scrape_timestamp p <? cutoff_date)%Z)
                             (price_records s) in
  ({| price_records := kept; phone_models := phone_models s;
      platforms := platforms s; utcnow := utcnow s |}, length deleted).

End Insights.

(* ------------------------------------------------------------------ *)
(** ** Storing scraped prices ([main.py], [database.py]) *)

Module Ingest.
Import Currency Analyzer.
Local Open Scope conv_scope.

(** [PriceData], as a scraper yields it. *)
Record PriceData : Type := {
  pd_phone_model : string;
  pd_brand : string;
  pd_storage : string;
  pd_condition : string;
  pd_price : float;
  pd_currency : string;
  pd_platform : string;
  pd_region : string;
  pd_availability : bool }.

(** [query(T).filter_by(...).first()]: a row that matches, with its
    primary key; which one among several is the database's choice. *)
Definition first_row {T} (rows : gmap Z T) (matches : T -> bool) : option (Z * T) :=
  head (List.filter (fun kv => matches (snd kv)) (map_to_list rows)).

Definition find_phone_model (s : Session) (price_item : PriceData)
  : option (Z * PhoneModel) :=
  first_row (phone_models s)
            (fun m => String.eqb (brand m) (pd_brand price_item)
                      && String.eqb (model_name m) (pd_phone_model price_item)
                      && String.eqb (storage_capacity m) (pd_storage price_item)).

Definition find_platform (s : Session) (price_item : PriceData)
  : option (Z * Platform) :=
  first_row (platforms s)
            (fun f => String.eqb (name f) (pd_platform price_item)
                      && String.eqb (region f) (pd_region price_item)).

(** The loop of [_save_price_data]: one record per item whose phone
    model and platform are stored.  The columns [stock_count],
    [product_url] and [scrape_session_id] play no part in the analysis
    and are left out; [scrape_timestamp] is the column default, the time
    of the save. *)
Fixpoint build_records (s : Session) (price_data : list PriceData)
  : M (list PriceRecord) :=
  match price_data with
  | [] => ret []
  | price_item :: rest =>
      match find_phone_model s price_item, find_platform s price_item with
      | Some phone_model, Some platform =>
          price_usd0 <- main_price_usd (pd_price price_item) (pd_currency price_item) ;;
          records <- build_records s rest ;;
          ret ({| phone_model_id := fst phone_model;
                  platform_id := fst platform;
                  condition := pd_condition price_item;
                  price := pd_price price_item;
                  currency := pd_currency price_item;
                  price_usd := price_usd0;
                  availability := pd_availability price_item;
                  scrape_timestamp := Analyzer.utcnow s |} :: records)
      | _, _ => build_records s rest
      end
  end.

(** [DatabaseManager.save_price_records]: the rows are added in order. *)
Definition save_price_records (s : Session) (records : list PriceRecord) : Session :=
  {| price_records := (price_records s ++ records)%list;
     phone_models := phone_models s;
     platforms := platforms s;
     Analyzer.utcnow := Analyzer.utcnow s |}.

(** [SmartphonePriceTracker._save_price_data]: the store afterwards and
    the number of saved records. *)
Definition _save_price_data (s : Session) (price_data : list PriceData)
  : M (Session * nat) :=
  records <- build_records s price_data ;;
  match records with
  | [] => ret (s, 0%nat)
  | _ => ret (save_price_records s records, length records)
  end.

(** [cli.py] has a [_save_price_data] of its own. *)
Module Cli.

(** How a call ends: with the result of [save_price_records], or with
    the [NameError] that leaves the function. *)
Inductive outcome : Type :=
| Returned (success : bool)
| NameError.

(** For the first item the query names [db_manager.PhoneModel] (line
    164), an attribute the manager object does not have; the handler of
    that exception names [logger] (line 199), which the module does not
    define.  So [NameError] leaves the function before a price is
    converted or a record is built, and the session is rolled back.
    Only an empty batch reaches [save_price_records], with no record. *)
Definition _save_price_data (s : Session) (price_data : list PriceData)
  : Session * outcome :=
  match price_data with
  | [] => (save_price_records s [], Returned true)
  | _ :: _ => (s, NameError)
  end.

End Cli.

End Ingest.

(* ------------------------------------------------------------------ *)
(** ** Specification vocabulary and sample states *)

Module Spec.
Import Currency.

(** A computation that returns in every state. *)
Definition always_returns {A} (m : M A) : Prop :=
  forall c, exists a c', m c = (Ok a, c').

(** The answers a computation can give all pass [if rate:]. *)
Definition answers_truthy (m : M (option float)) : Prop :=
  forall c o c', m c = (Ok o, c') -> forall r, o = Some r -> truthy r = true.

(** [x / r] for the resolved rate, none when no rate resolved. *)
Definition apply_rate (amount : float) (rate : option float) : option float :=
  match rate with
  | Some r => Some (amount / r)%float
  | None => None
  end.

(** The normalised price [main.py] stores for a price in a currency
    other than USD, given what the resolution of its rate gave: the
    quotient when a rate resolved and the quotient is nonzero, the raw
    price otherwise. *)
Definition stored_usd (price : float) (rate : option float) : float :=
  match rate with
  | Some r => if truthy (price / r)%float then (price / r)%float else price
  | None => price
  end.

(** Neither the cache nor a provider gave a usable rate for the pair;
    [c2] is the state after both were asked. *)
Definition unanswered (from to : string) (c c2 : Converter) : Prop :=
  exists cached c1 api,
    _get_cached_rate from to c = (Ok cached, c1) /\ opt_truthy cached = false /\
    _fetch_rate_from_api from to c1 = (Ok api, c2) /\ opt_truthy api = false.

(** What every table the converter can hold satisfies: USD is present
    with rate 1.0, and no entry is zero. *)
Definition table_ok (table : gmap string float) : Prop :=
  table !! "USD" = Some 1.0%float /\
  forall cur r, table !! cur = Some r -> truthy r = true.

Definition rows_ok (rows : list ExchangeRate) : Prop :=
  Forall (fun e => truthy (rate e) = true) rows.

(** What resolution leaves alone: the fallback table; what it keeps: a
    cache without zero rates; and the I/O trace only grows. *)
Definition framed {A} (m : M A) : Prop :=
  forall c r c', m c = (r, c') ->
    fallback_rates c' = fallback_rates c /\
    (rows_ok (exchange_rates c) -> rows_ok (exchange_rates c')) /\
    exists rest, trace c' = (trace c ++ rest)%list.

(** *** Vocabulary of [bulk_convert_to_usd] *)

(** What one element of a batch becomes, given its group's rate. *)
Definition item_result (currency : string) (rate : option float) (amount : float)
  : option float :=
  if opt_truthy rate then
    if negb (String.eqb currency "USD") then apply_rate amount rate else Some amount
  else None.

(** One resolution per listed currency, in order; USD needs none. *)
Fixpoint resolve_currencies (curs : list string) : M (list (string * option float)) :=
  match curs with
  | [] => ret []
  | cur :: rest =>
      bind (if negb (String.eqb cur "USD")
            then get_exchange_rate cur "USD" else ret (Some 1.0%float))
           (fun rate => bind (resolve_currencies rest)
                             (fun more => ret ((cur, rate) :: more)))
  end.

Fixpoint rate_of (table : list (string * option float)) (cur : string) : option float :=
  match table with
  | [] => None
  | (k, r) :: rest => if String.eqb k cur then r else rate_of rest cur
  end.

Definition element_result (table : list (string * option float))
           (x : float * string * Z) : Z * option float :=
  let '(amount, currency, index) := x in
  (index, item_result currency (rate_of table currency) amount).

Definition index_le {A} (x y : Z * A) : Prop := (fst x <= fst y)%Z.
Definition index_lt {A} (x y : Z * A) : Prop := (fst x < fst y)%Z.

(** The batch read back from its groups, group after group. *)
Definition ungroup (groups : list (string * list (float * Z))) : list (float * string * Z) :=
  flat_map (fun '(cur, items) => List.map (fun '(a, i) => (a, cur, i)) items) groups.

(** The results that carry the index [i], and the elements of the
    currency [cur], each in the order of the list. *)
Definition with_index {A} (i : Z) (l : list (Z * A)) : list (Z * A) :=
  List.filter (fun x => (fst x =? i)%Z) l.

Definition in_currency (cur : string) (l : list (float * string * Z))
  : list (float * string * Z) :=
  List.filter (fun x => String.eqb (snd (fst x)) cur) l.

(** The currencies of a batch in the order of their first appearance,
    and the batch grouped by them: every currency with its elements in
    the order of the input. *)
Fixpoint first_seen (l : list string) : list string :=
  match l with
  | [] => []
  | x :: rest => x :: List.filter (fun y => negb (String.eqb x y)) (first_seen rest)
  end.

Definition grouped (l : list (float * string * Z)) : list (float * string * Z) :=
  flat_map (fun cur => in_currency cur l)
           (first_seen (List.map (fun x => snd (fst x)) l)).

(** A converter whose cache holds a fresh EUR rate of zero. *)
Definition zero_cached : Converter :=
  {| utcnow := 1700000000000000;
     requests_get := fun _ => HttpFailed;
     exchange_rates :=
       [ {| from_currency := "EUR"; to_currency := "USD"; rate := 0%float;
            date := 1700000000000000 - timedelta_hours 1; source := "api" |} ];
     api_key := None;
     fallback_rates := initial_fallback_rates;
     trace := [] |}.

(** A converter whose cache holds a fresh USD to USD rate of 2. *)
Definition usd_cached : Converter :=
  {| utcnow := 1700000000000000;
     requests_get := fun _ => HttpFailed;
     exchange_rates :=
       [ {| from_currency := "USD"; to_currency := "USD"; rate := 2%float;
            date := 1700000000000000 - timedelta_hours 1; source := "api" |} ];
     api_key := None;
     fallback_rates := initial_fallback_rates;
     trace := [] |}.

(** A converter whose cache holds one stored EUR rate, a week old. *)
Definition eur_stored : Converter :=
  {| utcnow := 1700000000000000;
     requests_get := fun _ => HttpFailed;
     exchange_rates :=
       [ {| from_currency := "EUR"; to_currency := "USD"; rate := 0.92%float;
            date := 1700000000000000 - timedelta_hours 168; source := "api" |} ];
     api_key := None;
     fallback_rates := initial_fallback_rates;
     trace := [] |}.

(** *** Vocabulary of the analyser *)

(** The foreign keys of [price_records]: every record names a stored
    phone model and a stored platform. *)
Definition referential_integrity (s : Analyzer.Session) : Prop :=
  forall p, In p (Analyzer.price_records s) ->
    is_Some (Analyzer.phone_models s !! Analyzer.phone_model_id p) /\
    is_Some (Analyzer.platforms s !! Analyzer.platform_id p).

(** An observation that counts for an analysis: a record of the
    combination, with a USD price that is not null, inside the lookback
    window. *)
Definition is_observation (s : Analyzer.Session) (phone_model_id platform_id : Z)
           (condition : string) (days_back : Z) (p : Analyzer.PriceRecord) : Prop :=
  Analyzer.phone_model_id p = phone_model_id /\
  Analyzer.platform_id p = platform_id /\
  Analyzer.condition p = condition /\
  is_Some (Analyzer.price_usd p) /\
  (Analyzer.utcnow s - Analyzer.timedelta_days days_back
   <= Analyzer.scrape_timestamp p)%Z.

#[global] Instance is_observation_dec s phone_model_id platform_id condition days_back p :
  Decision (is_observation s phone_model_id platform_id condition days_back p) :=
  ltac:(unfold is_observation; exact _).

(** The number of stored observations that count for an analysis. *)
Definition observation_count (s : Analyzer.Session) (phone_model_id platform_id : Z)
           (condition : string) (days_back : Z) : nat :=
  length (List.filter
            (fun p => bool_decide
                        (is_observation s phone_model_id platform_id condition days_back p))
            (Analyzer.price_records s)).

(** The three sub-scores of the confidence, their blend with the
    weights 0.4, 0.4 and 0.2, and the clamp. *)
Definition data_density_score (point_count : nat) : float :=
  min2 (of_Z (Z.of_nat point_count) / 20.0)%float 1.0%float.

Definition volatility_score (volatility mean_price : float) : float :=
  max2 0%float
       (1.0 - (if (0 <? mean_price)%float then volatility / mean_price else 1.0) * 2)%float.

Definition recency_score (day_span : Z) : float :=
  min2 (of_Z day_span / 30.0)%float 1.0%float.

Definition weighted_blend (data volatility recency : float) : float :=
  (data * 0.4 + volatility * 0.4 + recency * 0.2)%float.

Definition clamp (low high x : float) : float := max2 low (min2 high x).

(** The data frame [df] of [_analyze_single_combination]. *)
Definition frame_of (s : Analyzer.Session) (phone_model_id platform_id : Z)
           (condition : string) (days_back : Z) : Analyzer.frame :=
  Analyzer.sort_values
    (Analyzer.to_frame
       (Analyzer.order_by_desc
          (Analyzer.qualifying s phone_model_id platform_id condition days_back))).

(** A converter fresh from [__init__], with no network and an empty cache. *)
Definition offline : Converter :=
  {| utcnow := 1700000000000000;
     requests_get := fun _ => HttpFailed;
     exchange_rates := [];
     api_key := None;
     fallback_rates := initial_fallback_rates;
     trace := [] |}.

(** *** Vocabulary of the arbitrage insights *)

(** [x] may stand in front of [y] in a list ordered by value, highest
    first. *)
Definition value_ge (x y : Analyzer.MarketInsight) : Prop :=
  (Analyzer.value y <=? Analyzer.value x)%float = true.

(** The (phone model, platform, condition) of a record. *)
Definition combination (p : Analyzer.PriceRecord) : Z * Z * string :=
  (Analyzer.phone_model_id p, Analyzer.platform_id p, Analyzer.condition p).

Definition group_of (p : Analyzer.PriceRecord) : Analyzer.group_key :=
  (Analyzer.phone_model_id p, Analyzer.condition p).




Definition day : Z := Analyzer.timedelta_days 1.

Definition iphone : Analyzer.PhoneModel :=
  {| Analyzer.brand := "Apple"; Analyzer.model_name := "iPhone 16";
     Analyzer.storage_capacity := "128GB" |}.

Definition swappa : Analyzer.Platform :=
  {| Analyzer.name := "Swappa"; Analyzer.region := "US" |}.

Definition back_market : Analyzer.Platform :=
  {| Analyzer.name := "Back Market"; Analyzer.region := "EU" |}.

(** An observation of phone model 1 in condition Good. *)
Definition observed (platform_id timestamp : Z) (usd : float) : Analyzer.PriceRecord :=
  {| Analyzer.phone_model_id := 1; Analyzer.platform_id := platform_id;
     Analyzer.condition := "Good"; Analyzer.price := usd;
     Analyzer.currency := "USD"; Analyzer.price_usd := Some usd;
     Analyzer.availability := true; Analyzer.scrape_timestamp := timestamp |}.

Definition session_with (records : list Analyzer.PriceRecord) : Analyzer.Session :=
  {| Analyzer.price_records := records;
     Analyzer.phone_models := {[ 1 := iphone ]};
     Analyzer.platforms := {[ 1 := swappa; 2 := back_market ]};
     Analyzer.utcnow := 105 * day |}.

(** Five daily observations falling from 1000 to 800. *)
Definition falling : Analyzer.Session :=
  session_with [observed 1 (100 * day) 1000; observed 1 (101 * day) 950;
                observed 1 (102 * day) 900; observed 1 (103 * day) 850;
                observed 1 (104 * day) 800].

(** Two observations of phone model 99, which is not stored. *)
Definition unlisted (timestamp : Z) (usd : float) : Analyzer.PriceRecord :=
  {| Analyzer.phone_model_id := 99; Analyzer.platform_id := 1;
     Analyzer.condition := "Good"; Analyzer.price := usd;
     Analyzer.currency := "USD"; Analyzer.price_usd := Some usd;
     Analyzer.availability := true; Analyzer.scrape_timestamp := timestamp |}.

Definition orphaned : Analyzer.Session :=
  session_with [unlisted (100 * day) 500; unlisted (101 * day) 510].

(** Two observations, at 1 and at 3. *)
Definition two_prices : Analyzer.Session :=
  session_with [observed 1 (100 * day) 1; observed 1 (101 * day) 3].

(** A single observation: too few for an analysis. *)
Definition one_price : Analyzer.Session :=
  session_with [observed 1 (100 * day) 500].


(** Two listings of one marketplace stored with the same timestamp. *)
Definition tied_listings : Analyzer.Session :=
  session_with [observed 1 (100 * day) 500; observed 1 (100 * day) 600].

End Spec.

(* ------------------------------------------------------------------ *)
(** ** Further vocabulary: the cache, the providers, the table refresh *)

Module CacheSpec.
Import Currency.

(** The same converter and database at a later reading of the clock. *)
Definition at_time (t : Z) (c : Converter) : Converter :=
  {| utcnow := t; requests_get := requests_get c;
     exchange_rates := exchange_rates c; api_key := api_key c;
     fallback_rates := fallback_rates c; trace := trace c |}.

(** A row of the pair, and a row young enough for the cache tier. *)
Definition of_pair (from to : string) (e : ExchangeRate) : Prop :=
  from_currency e = from /\ to_currency e = to.

Definition fresh (c : Converter) (e : ExchangeRate) : Prop :=
  (utcnow c - timedelta_hours cache_duration_hours <= date e)%Z.

(** The row [_cache_rate] stores. *)
Definition api_row (from to : string) (r : float) (c : Converter) : ExchangeRate :=
  {| from_currency := from; to_currency := to; rate := r;
     date := utcnow c; source := "api" |}.

(** A request to fixer.io carries the configured, non-empty key. *)
Definition allowed_event (key : option string) (e : event) : Prop :=
  match e with
  | HttpGet (FixerIo k _ _) => key = Some k /\ k <> ""
  | _ => True
  end.

(** A computation that changes nothing but the trace, and adds only
    allowed events to it. *)
Definition quiet {A} (m : M A) : Prop :=
  forall c r c', m c = (r, c') ->
    utcnow c' = utcnow c /\ requests_get c' = requests_get c /\
    api_key c' = api_key c /\ fallback_rates c' = fallback_rates c /\
    exchange_rates c' = exchange_rates c /\
    exists rest, trace c' = (trace c ++ rest)%list /\
                 List.Forall (allowed_event (api_key c)) rest.

(** What a provider reads off the response to its request. *)
Definition answer (c : Converter) (to : string) (rq : request) : option float :=
  match requests_get c rq with
  | HttpFailed => None
  | HttpJson data =>
      match rq with
      | ExchangeRateApi _ => js_rates data !! to
      | FixerIo _ _ _ => if js_success data then js_rates data !! to else None
      | ExchangeRateHost _ _ => if js_success data then js_result data else None
      end
  end.

(** The requests of the providers in their order of priority; fixer.io
    takes part only with a configured, non-empty key. *)
Definition provider_requests (c : Converter) (from to : string) : list request :=
  (ExchangeRateApi from ::
   match api_key c with
   | Some key => if String.eqb key "" then [] else [FixerIo key from to]
   | None => []
   end ++ [ExchangeRateHost from to])%list.

(** The first nonzero answer to a list of requests sent in order, with
    the requests sent to get it. *)
Fixpoint first_answer (c : Converter) (to : string) (reqs : list request)
  : option float * list request :=
  match reqs with
  | [] => (None, [])
  | rq :: rest =>
      if opt_truthy (answer c to rq) then (answer c to rq, [rq])
      else (fst (first_answer c to rest), rq :: snd (first_answer c to rest))
  end.

(** The converter after the requests [sent]. *)
Definition after_requests (sent : list request) (c : Converter) : Converter :=
  fold_left (fun c0 rq => log (HttpGet rq) c0) sent c.

(** [CurrencyConverter(session)]: a new converter over a database. *)
Definition new_converter (now : Z) (net : request -> http_result)
           (rows : list ExchangeRate) (key : option string) : Converter :=
  {| utcnow := now; requests_get := net; exchange_rates := rows;
     api_key := key; fallback_rates := initial_fallback_rates; trace := [] |}.

(** A converter whose first provider knows the EUR rates. *)
Definition online : Converter :=
  {| utcnow := 1700000000000000;
     requests_get := fun rq =>
       match rq with
       | ExchangeRateApi "EUR" =>
           HttpJson {| js_success := true;
                       js_rates := <["USD" := 1.08%float]> ∅;
                       js_result := None |}
       | _ => HttpFailed
       end;
     exchange_rates := [];
     api_key := None;
     fallback_rates := initial_fallback_rates;
     trace := [] |}.

(** Membership in [currencies], as the loop of [update_fallback_rates]
    visits them. *)
Definition tracked (cur : string) : bool :=
  existsb (String.eqb cur) tracked_currencies.

(** [BaseScraper.get_currency_for_region] ([base_scraper.py]). *)
Definition get_currency_for_region (region : string) : string :=
  let currency_map : gmap string string :=
    <["India" := "INR"]> (<["Japan" := "JPY"]> (<["Europe" := "EUR"]>
    (<["US" := "USD"]> ∅))) in
  default "USD" (currency_map !! region).

End CacheSpec.

(* ------------------------------------------------------------------ *)
(** ** Further vocabulary: the producers of insights, retention *)

Module InsightsSpec.
Import Analyzer Insights Ingest.

(** The analysis of a (phone model, platform, condition). *)
Definition analysis_of (s : Session) (days_back : Z) (k : Z * Z * string)
  : option PriceAnalysis :=
  _analyze_single_combination s (fst (fst k)) (snd (fst k)) (snd k) days_back.

(** The number of observations of a combination that count for a
    window. *)
Definition observations (s : Session) (days_back : Z) (k : Z * Z * string) : nat :=
  length (qualifying s (fst (fst k)) (snd (fst k)) (snd k) days_back).

(** A float that is not NaN. *)
Definition is_number (x : float) : Prop := (x <=? x)%float = true.

(** [x] may stand in front of [y] in a list ordered by value, lowest
    first. *)
Definition value_le (x y : MarketInsight) : Prop :=
  (value x <=? value y)%float = true.

(** Both [query(...).get(id)] of a loop body find their row. *)
Definition references_stored (s : Session) (phone_model_id0 platform_id0 : Z) : bool :=
  match phone_models s !! phone_model_id0, platforms s !! platform_id0 with
  | Some _, Some _ => true
  | _, _ => false
  end.

(** The insight [find_significant_price_changes] builds from a trend. *)
Definition reports_change (s : Session) (t : PriceTrend) (i : MarketInsight) : Prop :=
  exists change phone_model platform,
    pt_price_change_percent t = Some change /\
    phone_models s !! pt_phone_model_id t = Some phone_model /\
    platforms s !! pt_platform_id t = Some platform /\
    insight_type i = (if (change <? 0)%float then "price_drop" else "price_increase") /\
    mi_phone_model i = (brand phone_model ++ " " ++ model_name phone_model) /\
    mi_platform i = name platform /\
    mi_region i = region platform /\
    value i = PrimFloat.abs change /\
    confidence i = 0.9%float.

(** The records of a (phone model, condition) group that the subquery
    of [find_best_deals] aggregates. *)
Definition recent_offers (s : Session) (key : group_key) : list PriceRecord :=
  List.filter (fun p => key_eqb key (phone_model_id p, condition p))
              (recent_available s).

(** The insight [find_best_deals] builds from a record. *)
Definition reports_deal (s : Session) (deal : PriceRecord) (i : MarketInsight) : Prop :=
  exists phone_model platform,
    phone_models s !! phone_model_id deal = Some phone_model /\
    platforms s !! platform_id deal = Some platform /\
    insight_type i = "best_deal" /\
    mi_phone_model i = (brand phone_model ++ " " ++ model_name phone_model) /\
    mi_platform i = name platform /\
    mi_region i = region platform /\
    price_usd deal = Some (value i) /\
    confidence i = 0.7%float.

(** [x] may stand in front of [y] in a frame ordered by timestamp. *)
Definition ts_le (x y : Z * float) : Prop := (fst x <= fst y)%Z.

(** [x] may stand in front of [y] among trends ordered by the size of
    their change, largest first. *)
Definition change_ge (x y : PriceTrend) : Prop :=
  (change_key y <=? change_key x)%float = true.

(** The trends [find_significant_price_changes] turns into insights. *)
Definition is_reported_change (s : Session) (min_change_percent : float)
           (t : PriceTrend) : bool :=
  is_significant s min_change_percent t
  && references_stored s (pt_phone_model_id t) (pt_platform_id t).

(** [x] may stand in front of [y] among records ordered by USD price,
    lowest first. *)
Definition usd_le (x y : PriceRecord) : Prop :=
  (deal_price x <=? deal_price y)%float = true.

(** The joined rows [find_best_deals] turns into insights. *)
Definition is_reported_deal (s : Session) (deal : PriceRecord) : bool :=
  references_stored s (phone_model_id deal) (platform_id deal)
  && opt_truthy (avg_price s deal) && opt_truthy (price_usd deal).

(** The records a list of counted groups accounts for. *)
Definition counted {K} (groups : list (K * nat)) : nat :=
  fold_right (fun g total => (snd g + total)%nat) 0%nat groups.

(** [x] may stand in front of [y] among groups ordered by count,
    largest first. *)
Definition count_ge {K} (x y : K * nat) : Prop := (snd y <= snd x)%nat.

(** An item whose phone model and platform are both found. *)
Definition is_known (s : Session) (price_item : PriceData) : bool :=
  match find_phone_model s price_item, find_platform s price_item with
  | Some _, Some _ => true
  | _, _ => false
  end.

(** The record [_save_price_data] stores for an item: it names the rows
    found for the item, and its USD price is never null. *)
Definition stored_for (s : Session) (price_item : PriceData) (p : PriceRecord) : Prop :=
  (exists m, find_phone_model s price_item = Some (phone_model_id p, m)) /\
  (exists f, find_platform s price_item = Some (platform_id p, f)) /\
  condition p = pd_condition price_item /\
  price p = pd_price price_item /\
  currency p = pd_currency price_item /\
  availability p = pd_availability price_item /\
  exists usd, price_usd p = Some usd /\
              (Py.truthy (pd_price price_item) = true -> Py.truthy usd = true) /\
              (pd_currency price_item = "USD" -> usd = pd_price price_item).


(** A listing of phone model 1 on platform 1, condition Good. *)
Definition listing (timestamp : Z) (usd : float) (available : bool) : PriceRecord :=
  {| phone_model_id := 1; platform_id := 1; condition := "Good"; price := usd;
     currency := "USD"; price_usd := Some usd; availability := available;
     scrape_timestamp := timestamp |}.

(** A listing of 60 days ago, no longer available, at the price of
    today's only offer. *)
Definition stale_listing : Session :=
  Spec.session_with [listing (45 * Spec.day) 500 false;
                     listing (104 * Spec.day) 500 true].

(** A weekly trend of phone model 1 on platform 1. *)
Definition weekly (change : float) (usd : option float) : PriceTrend :=
  {| pt_phone_model_id := 1; pt_platform_id := 1; pt_condition := "Good";
     current_price_usd := usd; pt_price_change_percent := Some change;
     trend_period := "weekly"; trend_date := Some (104 * Spec.day) |}.

End InsightsSpec.

(* ------------------------------------------------------------------ *)
(** ** Facts about the currency normaliser *)

Module CurrencyFacts.
Import Currency Spec.
Local Open Scope conv_scope.

Lemma truediv_truthy (x r : float) :
  truthy r = true -> truediv x r = Ok (x / r)%float.
Proof.
  unfold truthy, truediv. destruct (r =? 0)%float; simpl; congruence.
Qed.

Lemma bind_Ok {A B} (m : M A) (k : A -> M B) c a c' :
  m c = (Ok a, c') -> bind m k c = k a c'.
Proof. unfold bind. intros ->. reflexivity. Qed.

Lemma returns_bind {A B} (m : M A) (k : A -> M B) :
  always_returns m -> (forall a, always_returns (k a)) -> always_returns (bind m k).
Proof.
  intros Hm Hk c. destruct (Hm c) as (a & c1 & E).
  rewrite (bind_Ok _ _ _ _ _ E). apply Hk.
Qed.

Lemma returns_ret {A} (a : A) : always_returns (ret a).
Proof. intros c. exists a, c. reflexivity. Qed.

Lemma returns_http rq : always_returns (http rq).
Proof. intros c. unfold http. eauto. Qed.

Lemma returns_exchangerate_api from to : always_returns (_fetch_from_exchangerate_api from to).
Proof.
  apply returns_bind; [apply returns_http|]. intros [|data]; apply returns_ret.
Qed.

Lemma returns_fixer_io from to : always_returns (_fetch_from_fixer_io from to).
Proof.
  intros c. unfold _fetch_from_fixer_io.
  destruct (api_key c) as [key|]; [|eauto].
  destruct (String.eqb key ""); [eauto|].
  apply returns_bind; [apply returns_http|].
  intros [|data]; [apply returns_ret|]. destruct (js_success data); apply returns_ret.
Qed.

Lemma returns_free_forex_api from to : always_returns (_fetch_from_free_forex_api from to).
Proof.
  apply returns_bind; [apply returns_http|].
  intros [|data]; [apply returns_ret|]. destruct (js_success data); apply returns_ret.
Qed.

Lemma apis_return :
  Forall (fun f => forall from to, always_returns (f from to)) apis.
Proof.
  repeat constructor; intros from to.
  - apply returns_exchangerate_api.
  - apply returns_fixer_io.
  - apply returns_free_forex_api.
Qed.

(** The provider loop returns, and never hands back a rate that is zero. *)
Lemma try_apis_spec fs from to :
  Forall (fun f => forall from to, always_returns (f from to)) fs ->
  always_returns (try_apis fs from to) /\ answers_truthy (try_apis fs from to).
Proof.
  induction 1 as [|f fs Hf Hfs [IHt IHa]]; simpl.
  - split; [apply returns_ret|]. intros c o c' E r ->. discriminate.
  - split.
    + apply returns_bind; [apply Hf|]. intros o.
      destruct (opt_truthy o); [apply returns_ret | apply IHt].
    + intros c o c' E r ->. unfold bind in E.
      destruct (Hf from to c) as (o1 & c1 & E1). rewrite E1 in E.
      destruct (opt_truthy o1) eqn:T.
      * unfold ret in E. injection E as Eo _. subst o1. exact T.
      * eapply IHa; eauto.
Qed.

Lemma fallback_rate_in_ok table from to :
  exists o, _get_fallback_rate_in table from to = Ok o.
Proof.
  unfold _get_fallback_rate_in.
  destruct (String.eqb from to); [eauto|].
  destruct (negb (String.eqb to "USD")).
  - destruct (table !! from) as [fr|]; [|eauto].
    destruct (table !! to) as [tr|]; [|eauto].
    destruct (truthy fr) eqn:Tf; simpl; [|eauto].
    destruct (truthy tr); [|eauto].
    rewrite (truediv_truthy _ _ Tf). eauto.
  - destruct (table !! from) as [fr|]; [|eauto].
    destruct (truthy fr) eqn:Tf; [|eauto].
    rewrite (truediv_truthy _ _ Tf). eauto.
Qed.

Lemma use_fallback_tier_spec from to :
  always_returns (use_fallback_tier from to) /\ answers_truthy (use_fallback_tier from to).
Proof.
  unfold use_fallback_tier, _get_fallback_rate, bind, ret. split.
  - intros c. destruct (fallback_rate_in_ok (fallback_rates c) from to) as (o & ->).
    destruct (opt_truthy o); eauto.
  - intros c o c' E r ->.
    destruct (fallback_rate_in_ok (fallback_rates c) from to) as (o & Eo).
    rewrite Eo in E. destruct (opt_truthy o) eqn:T.
    + injection E as Eo' _. subst o. exact T.
    + discriminate.
Qed.

Lemma try_api_tier_spec from to :
  always_returns (try_api_tier from to) /\ answers_truthy (try_api_tier from to).
Proof.
  destruct (try_apis_spec apis from to apis_return) as [Ht Ha].
  destruct (use_fallback_tier_spec from to) as [Ft Fa].
  unfold try_api_tier, _fetch_rate_from_api. split.
  - apply returns_bind; [exact Ht|]. intros [r|]; [|exact Ft].
    destruct (truthy r); [|exact Ft].
    apply returns_bind; [intros c; unfold _cache_rate; eauto | intros; apply returns_ret].
  - intros c o c' E r ->. unfold bind in E.
    destruct (Ht c) as (o1 & c1 & E1). rewrite E1 in E.
    destruct o1 as [r1|]; [|eapply Fa; eauto].
    destruct (truthy r1) eqn:T; [|eapply Fa; eauto].
    unfold _cache_rate, ret in E. injection E as Er _. subst r1. exact T.
Qed.

(** Resolution returns in every state, and a rate it returns is never zero. *)
Lemma get_exchange_rate_spec from to :
  always_returns (get_exchange_rate from to) /\ answers_truthy (get_exchange_rate from to).
Proof.
  destruct (try_api_tier_spec from to) as [At Aa].
  unfold get_exchange_rate. split.
  - apply returns_bind; [intros c; unfold _get_cached_rate; eauto|].
    intros o. destruct (opt_truthy o); [apply returns_ret | exact At].
  - intros c o c' E r ->. unfold bind, _get_cached_rate in E.
    match type of E with context [opt_truthy ?x] => destruct (opt_truthy x) eqn:T end.
    + unfold ret in E. injection E as Eo _. rewrite Eo in T. exact T.
    + eapply Aa; eauto.
Qed.

(** Conversion of a non-USD amount: one resolution, then one division
    that cannot fail. *)
Lemma convert_after_resolution
      (amount : float) (cur : string) (c c' : Converter) (rate : option float) :
  cur <> "USD" ->
  get_exchange_rate cur "USD" c = (Ok rate, c') ->
  convert_to_usd amount cur c = (Ok (apply_rate amount rate), c').
Proof.
  intros Hcur E.
  destruct (get_exchange_rate_spec cur "USD") as [_ Ha].
  unfold convert_to_usd.
  destruct (String.eqb_spec cur "USD") as [->|_]; [congruence|].
  rewrite (bind_Ok _ _ _ _ _ E).
  destruct rate as [r|]; [|reflexivity].
  rewrite (Ha _ _ _ E r eq_refl).
  unfold bind, lift, ret. rewrite (truediv_truthy _ _ (Ha _ _ _ E r eq_refl)).
  reflexivity.
Qed.

(** Against C1 as stated.  For USD the amount is not divided by the rate
    that resolves: with a fresh USD to USD row of 2 in the cache the
    resolution gives 2 and the conversion of 100 is 100.  And a
    normalised price that is filled in need not be a quotient: for a
    currency no tier resolves, [main.py] stores the raw price. *)
Lemma normalised_price_is_not_always_a_quotient :
  fst (get_exchange_rate "USD" "USD" usd_cached) = Ok (Some 2%float) /\
  fst (convert_to_usd 100%float "USD" usd_cached) = Ok (Some 100%float) /\
  fst (get_exchange_rate "XYZ" "USD" offline) = Ok None /\
  fst (convert_to_usd 75000%float "XYZ" offline) = Ok None /\
  fst (main_price_usd 75000%float "XYZ" offline) = Ok (Some 75000%float).
Proof. repeat split; reflexivity. Qed.

(** C1, as the code has it.  For USD [convert_to_usd] returns the amount
    itself and resolves no rate, and [main.py] stores the price as it
    is.  For every other currency the result of [convert_to_usd] is the
    amount divided by the rate [get_exchange_rate] resolves to USD in the
    same state, and none (a normal return, no exception) when no rate
    resolves; the only effects are those of the resolution; and the
    normalised price [main.py] stores is that quotient when a rate
    resolved and the quotient is nonzero, and the raw price otherwise. *)
Theorem convert_to_usd_divides_by_resolved_rate
        (amount : float) (cur : string) (c : Converter) :
  (cur = "USD" ->
   convert_to_usd amount cur c = (Ok (Some amount), c) /\
   main_price_usd amount cur c = (Ok (Some amount), c)) /\
  (cur <> "USD" ->
   exists rate c',
     get_exchange_rate cur "USD" c = (Ok rate, c') /\
     convert_to_usd amount cur c = (Ok (apply_rate amount rate), c') /\
     main_price_usd amount cur c = (Ok (Some (stored_usd amount rate)), c')).
Proof.
  split.
  - intros ->. split; reflexivity.
  - intros Hcur.
    destruct (get_exchange_rate_spec cur "USD") as [Ht _].
    destruct (Ht c) as (rate & c' & E).
    pose proof (convert_after_resolution amount cur c c' rate Hcur E) as Hconv.
    exists rate, c'. split; [exact E|]. split; [exact Hconv|].
    unfold main_price_usd. apply String.eqb_neq in Hcur. rewrite Hcur. simpl.
    rewrite (bind_Ok _ _ _ _ _ Hconv).
    destruct rate as [r|]; simpl; [|reflexivity].
    destruct (truthy (amount / r)%float); reflexivity.
Qed.

(** Offline, 100 EUR are divided by the fallback rate, and the quotient
    is what [main.py] stores. *)
Lemma convert_to_usd_divides_by_resolved_rate_witness :
  exists rate c',
    get_exchange_rate "EUR" "USD" offline = (Ok (Some rate), c') /\
    convert_to_usd 100%float "EUR" offline = (Ok (Some (100 / rate)%float), c') /\
    main_price_usd 100%float "EUR" offline = (Ok (Some (100 / rate)%float), c').
Proof.
  destruct (proj2 (convert_to_usd_divides_by_resolved_rate 100%float "EUR" offline))
    as (rate & c' & E & Hconv & Hmain).
  - intros H. discriminate H.
  - destruct rate as [r|]; [|vm_compute in E; discriminate E].
    exists r, c'. split; [exact E|]. split; [exact Hconv|].
    rewrite Hmain. unfold stored_usd.
    assert (T : truthy (100 / r)%float = true).
    { vm_compute in E. injection E as <- _. reflexivity. }
    rewrite T. reflexivity.
Defined.

(** C10.  A rate that is exactly zero is never used: resolution returns
    in every state and the rate it returns is nonzero; a zero from the
    cache is handled as a miss (the external tier is tried), a zero from a
    provider moves on to the next provider, a zero from the fallback
    tier gives none; and [convert_to_usd] returns normally in every
    state, so its division never meets a zero divisor. *)
Theorem zero_rate_is_unresolved
        (amount : float) (cur from to : string) (c : Converter) :
  (exists o c', get_exchange_rate from to c = (Ok o, c') /\
                forall r, o = Some r -> (r =? 0)%float = false) /\
  (exists o c', convert_to_usd amount cur c = (Ok o, c')) /\
  (forall z c1, _get_cached_rate from to c = (Ok (Some z), c1) ->
                (z =? 0)%float = true ->
                get_exchange_rate from to c = try_api_tier from to c1) /\
  (forall f fs z c1, f from to c = (Ok (Some z), c1) ->
                     (z =? 0)%float = true ->
                     try_apis (f :: fs) from to c = try_apis fs from to c1) /\
  (forall z, _get_fallback_rate from to c = (Ok (Some z), c) ->
             (z =? 0)%float = true ->
             use_fallback_tier from to c = (Ok None, c)).
Proof.
  destruct (get_exchange_rate_spec from to) as [Ht Ha].
  repeat split.
  - destruct (Ht c) as (o & c' & E). exists o, c'. split; [exact E|].
    intros r Hr. generalize (Ha _ _ _ E r Hr). unfold truthy.
    destruct (r =? 0)%float; [discriminate | reflexivity].
  - destruct (String.eqb_spec cur "USD") as [->|Hne].
    + exists (Some amount), c. reflexivity.
    + destruct (get_exchange_rate_spec cur "USD") as [Hu _].
      destruct (Hu c) as (rate & c' & E).
      rewrite (convert_after_resolution amount cur c c' rate Hne E). eauto.
  - intros z c1 E Hz. unfold get_exchange_rate.
    rewrite (bind_Ok _ _ _ _ _ E). simpl. unfold truthy. rewrite Hz. reflexivity.
  - intros f fs z c1 E Hz. simpl. rewrite (bind_Ok _ _ _ _ _ E).
    simpl. unfold truthy. rewrite Hz. reflexivity.
  - intros z E Hz. unfold use_fallback_tier. rewrite (bind_Ok _ _ _ _ _ E).
    simpl. unfold truthy. rewrite Hz. reflexivity.
Qed.

(** A cached zero is passed over: the providers are asked, and the
    fallback tier answers. *)
Lemma zero_rate_is_unresolved_witness :
  get_exchange_rate "EUR" "USD" zero_cached
  = try_api_tier "EUR" "USD" (log (DbQuery "EUR" "USD") zero_cached) /\
  fst (try_api_tier "EUR" "USD" (log (DbQuery "EUR" "USD") zero_cached))
  = Ok (Some (1.0 / 0.85)%float) /\
  fst (convert_to_usd 100%float "EUR" zero_cached) = Ok (Some 85%float).
Proof.
  destruct (zero_rate_is_unresolved 100%float "EUR" "EUR" "USD" zero_cached)
    as (_ & _ & Hcache & _).
  split; [|split; reflexivity].
  exact (Hcache 0%float _ eq_refl eq_refl).
Defined.

(** *** What resolution changes *)

Lemma framed_ret {A} (a : A) : framed (ret a).
Proof.
  intros c r c' E. injection E as _ <-.
  repeat split; auto. exists []. symmetry. apply app_nil_r.
Qed.

Lemma framed_bind {A B} (m : M A) (k : A -> M B) :
  framed m -> (forall a, framed (k a)) -> framed (bind m k).
Proof.
  intros Hm Hk c r c' E. unfold bind in E.
  destruct (m c) as [[a|e] c1] eqn:E1.
  - destruct (Hm _ _ _ E1) as (T1 & R1 & rest1 & L1).
    destruct (Hk a _ _ _ E) as (T2 & R2 & rest2 & L2).
    repeat split; [congruence | auto |].
    exists (rest1 ++ rest2)%list. rewrite L2, L1. symmetry. apply app_assoc.
  - injection E as _ <-. exact (Hm _ _ _ E1).
Qed.

Lemma framed_log {A} (a : A) (e : event) : framed (fun c => (Ok a, log e c)).
Proof.
  intros c r c' E. injection E as _ <-. repeat split; auto. exists [e]. reflexivity.
Qed.

Lemma framed_http rq : framed (http rq).
Proof.
  intros c r c' E. injection E as _ <-. repeat split; auto.
  exists [HttpGet rq]. reflexivity.
Qed.

Lemma framed_pure {A} (f : Converter -> result A) : framed (fun c => (f c, c)).
Proof.
  intros c r c' E. injection E as _ <-.
  repeat split; auto. exists []. symmetry. apply app_nil_r.
Qed.

Lemma framed_exchangerate_api from to : framed (_fetch_from_exchangerate_api from to).
Proof.
  apply framed_bind; [apply framed_http|].
  intros [|data]; apply framed_ret.
Qed.

Lemma framed_fixer_io from to : framed (_fetch_from_fixer_io from to).
Proof.
  intros c r c' E. unfold _fetch_from_fixer_io in E.
  destruct (api_key c) as [key|]; [|exact (framed_pure (fun _ => Ok None) _ _ _ E)].
  destruct (String.eqb key ""); [exact (framed_pure (fun _ => Ok None) _ _ _ E)|].
  revert c r c' E. apply framed_bind; [apply framed_http|].
  intros [|data]; [apply framed_ret|]. destruct (js_success data); apply framed_ret.
Qed.

Lemma framed_free_forex_api from to : framed (_fetch_from_free_forex_api from to).
Proof.
  apply framed_bind; [apply framed_http|].
  intros [|data]; [apply framed_ret|]. destruct (js_success data); apply framed_ret.
Qed.

Lemma framed_fetch_rate_from_api from to : framed (_fetch_rate_from_api from to).
Proof.
  assert (H : Forall (fun f => forall from to, framed (f from to)) apis).
  { unfold apis.
    constructor; [|constructor; [|constructor; [|constructor]]]; intros f t.
    - apply framed_exchangerate_api.
    - apply framed_fixer_io.
    - apply framed_free_forex_api. }
  unfold _fetch_rate_from_api. induction H as [|f fs Hf _ IH]; simpl.
  - apply framed_ret.
  - apply framed_bind; [apply Hf|]. intros o.
    destruct (opt_truthy o); [apply framed_ret | exact IH].
Qed.

Lemma framed_use_fallback_tier from to : framed (use_fallback_tier from to).
Proof.
  apply framed_bind; [apply framed_pure|].
  intros o. destruct (opt_truthy o); apply framed_ret.
Qed.

Lemma framed_cached_rate from to : framed (_get_cached_rate from to).
Proof.
  intros c r c' E. unfold _get_cached_rate in E. revert E. apply framed_log.
Qed.

Lemma framed_try_api_tier from to : framed (try_api_tier from to).
Proof.
  apply framed_bind; [apply framed_fetch_rate_from_api|].
  intros [r|]; [|apply framed_use_fallback_tier].
  destruct (truthy r) eqn:T; [|apply framed_use_fallback_tier].
  apply framed_bind; [|intros; apply framed_ret].
  intros c r0 c' E. injection E as _ <-. simpl. repeat split.
  - intros H. apply Forall_app. split; [exact H|]. constructor; [exact T|constructor].
  - eexists. reflexivity.
Qed.

(** X5.  Resolution never touches the fallback table, the rows it adds
    to the cache have nonzero rates, and the I/O trace only grows. *)
Lemma framed_get_exchange_rate from to : framed (get_exchange_rate from to).
Proof.
  apply framed_bind; [apply framed_cached_rate|].
  intros cached. destruct (opt_truthy cached); [apply framed_ret|].
  apply framed_try_api_tier.
Qed.

Lemma newest_In (rows : list ExchangeRate) (r : ExchangeRate) :
  newest rows = Some r -> In r rows.
Proof.
  revert r. induction rows as [|x rows IH]; simpl; intros r H; [discriminate|].
  destruct (newest rows) as [r'|].
  - destruct (date x <? date r')%Z; injection H as <-; auto.
  - injection H as <-. auto.
Qed.

(** X4.  [update_fallback_rates] keeps the table well formed: it writes stored
    rates, which are nonzero, and never the USD entry. *)
Lemma update_fallback_rates_table_ok (c c' : Converter) (r : result unit) :
  rows_ok (exchange_rates c) -> table_ok (fallback_rates c) ->
  update_fallback_rates c = (r, c') ->
  table_ok (fallback_rates c') /\ exchange_rates c' = exchange_rates c.
Proof.
  unfold update_fallback_rates.
  assert (Hcur : Forall (fun cur => cur <> "USD") tracked_currencies)
    by (repeat constructor; discriminate).
  revert c r c'. induction Hcur as [|cur curs Hne _ IH]; intros c r c' Hrows Hok E.
  - simpl in E. injection E as _ <-. auto.
  - simpl in E. unfold bind, update_one in E.
    destruct (newest (pair_rows cur "USD" (exchange_rates c))) as [latest|] eqn:N.
    + apply IH in E; simpl; [exact E|exact Hrows|].
      destruct Hok as [Husd Hnz]. split.
      * rewrite lookup_insert_ne; [exact Husd|exact Hne].
      * intros k v Hk. apply lookup_insert_Some in Hk.
        destruct Hk as [[_ <-]|[_ Hk]]; [|exact (Hnz _ _ Hk)].
        apply newest_In in N. unfold pair_rows in N. apply filter_In in N.
        destruct N as [N _]. unfold rows_ok in Hrows.
        rewrite Forall_forall in Hrows. apply Hrows.
        apply list_elem_of_In. exact N.
    + apply IH in E; simpl; auto.
Qed.

(** *** The fallback tier *)

Lemma initial_table_ok : table_ok initial_fallback_rates.
Proof.
  split; [reflexivity|]. intros cur r H. unfold initial_fallback_rates in H.
  repeat (apply lookup_insert_Some in H;
          destruct H as [[_ <-]|[_ H]]; [reflexivity|]).
  rewrite lookup_empty in H. discriminate H.
Qed.

Lemma update_fallback_rates_table_ok_witness :
  table_ok (fallback_rates (snd (update_fallback_rates eur_stored))) /\
  exchange_rates (snd (update_fallback_rates eur_stored)) = exchange_rates eur_stored.
Proof.
  apply (update_fallback_rates_table_ok
           eur_stored (snd (update_fallback_rates eur_stored))
           (fst (update_fallback_rates eur_stored))).
  - repeat constructor.
  - exact initial_table_ok.
  - apply surjective_pairing.
Defined.

(** The refresh takes a stored rate of any age into the table. *)
Lemma update_fallback_rates_example :
  fallback_rates (snd (update_fallback_rates eur_stored)) !! "EUR" = Some 0.92%float /\
  fst (get_exchange_rate "EUR" "USD" eur_stored) = Ok (Some (1.0 / 0.85)%float).
Proof. split; reflexivity. Qed.

Lemma unanswered_resolution (from to : string) (c c2 : Converter) :
  unanswered from to c c2 ->
  get_exchange_rate from to c = use_fallback_tier from to c2.
Proof.
  intros (cached & c1 & api & E1 & T1 & E2 & T2).
  unfold get_exchange_rate. rewrite (bind_Ok _ _ _ _ _ E1), T1.
  unfold try_api_tier. rewrite (bind_Ok _ _ _ _ _ E2).
  destruct api as [r|]; [|reflexivity]. simpl in T2. rewrite T2. reflexivity.
Qed.

Lemma offline_unanswered (from to : string) :
  unanswered from to offline
    {| utcnow := utcnow offline; requests_get := requests_get offline;
       exchange_rates := []; api_key := None;
       fallback_rates := initial_fallback_rates;
       trace := [DbQuery from to; HttpGet (ExchangeRateApi from);
                 HttpGet (ExchangeRateHost from to)] |}.
Proof.
  exists None, (log (DbQuery from to) offline), None.
  repeat split; reflexivity.
Qed.

(** C3.  The fallback tier, for a pair of different currencies and a
    table as the converter holds it (USD present, no zero entry): to USD
    the rate is [1 / fallback[from]]; to another currency it is
    [fallback[to] / fallback[from]]; with either currency absent it is
    none.  When neither the cache nor a provider answered, resolution
    returns what the fallback tier gives (none for none). *)
Theorem fallback_tier_rates (table : gmap string float) (from to : string) :
  table_ok table -> from <> to ->
  (to = "USD" -> forall fr, table !! from = Some fr ->
     _get_fallback_rate_in table from to = Ok (Some (1.0 / fr)%float)) /\
  (to <> "USD" -> forall fr tr, table !! from = Some fr -> table !! to = Some tr ->
     _get_fallback_rate_in table from to = Ok (Some (tr / fr)%float)) /\
  (table !! from = None \/ table !! to = None ->
     _get_fallback_rate_in table from to = Ok None) /\
  (forall c c2 o, fallback_rates c = table -> unanswered from to c c2 ->
     _get_fallback_rate_in table from to = Ok o ->
     get_exchange_rate from to c = (Ok (if opt_truthy o then o else None), c2)).
Proof.
  intros [Husd Hnz] Hne.
  assert (Eft : String.eqb from to = false) by (apply String.eqb_neq; exact Hne).
  unfold _get_fallback_rate_in. rewrite Eft. repeat split.
  - intros -> fr Hfr. simpl. rewrite Hfr, (Hnz _ _ Hfr).
    rewrite (truediv_truthy _ _ (Hnz _ _ Hfr)). reflexivity.
  - intros Hto fr tr Hfr Htr.
    apply String.eqb_neq in Hto. rewrite Hto. simpl.
    rewrite Hfr, Htr, (Hnz _ _ Hfr), (Hnz _ _ Htr). simpl.
    rewrite (truediv_truthy _ _ (Hnz _ _ Hfr)). reflexivity.
  - intros [Hfr|Htr].
    + rewrite Hfr. destruct (negb (String.eqb to "USD")); reflexivity.
    + destruct (String.eqb_spec to "USD") as [->|_]; [congruence|]. simpl.
      rewrite Htr. destruct (table !! from); reflexivity.
  - intros c c2 o Htable Hun Ho.
    rewrite (unanswered_resolution _ _ _ _ Hun).
    assert (Htable2 : fallback_rates c2 = table).
    { destruct Hun as (cached & c1 & api & E1 & _ & E2 & _).
      rewrite <- Htable.
      destruct (framed_fetch_rate_from_api _ _ _ _ _ E2) as (-> & _).
      unfold _get_cached_rate in E1. injection E1 as _ <-. reflexivity. }
    unfold use_fallback_tier, _get_fallback_rate, bind, ret.
    rewrite Htable2. unfold _get_fallback_rate_in. rewrite Eft, Ho.
    destruct (opt_truthy o); reflexivity.
Qed.

(** The scenario of C3: EUR at 0.85 in the table, no cache, no provider. *)
Lemma fallback_tier_rates_witness :
  get_exchange_rate "EUR" "USD" offline =
  (Ok (Some (1.0 / 0.85)%float),
   {| utcnow := utcnow offline; requests_get := requests_get offline;
      exchange_rates := []; api_key := None;
      fallback_rates := initial_fallback_rates;
      trace := [DbQuery "EUR" "USD"; HttpGet (ExchangeRateApi "EUR");
                HttpGet (ExchangeRateHost "EUR" "USD")] |}).
Proof.
  destruct (fallback_tier_rates initial_fallback_rates "EUR" "USD" initial_table_ok)
    as (Husd & _ & _ & Hres).
  - intros H. discriminate H.
  - exact (Hres offline _ _ eq_refl (offline_unanswered "EUR" "USD")
                (Husd eq_refl _ eq_refl)).
Defined.

(** *** The identity rate *)

(** Against C4 as stated: with an empty cache and no provider reachable,
    [get_exchange_rate("EUR", "EUR")] does return 1.0, but only after it
    queried the cache and sent two provider requests. *)
Lemma same_currency_consults_tiers :
  fst (get_exchange_rate "EUR" "EUR" offline) = Ok (Some 1.0%float) /\
  trace (snd (get_exchange_rate "EUR" "EUR" offline)) =
    [DbQuery "EUR" "EUR"; HttpGet (ExchangeRateApi "EUR");
     HttpGet (ExchangeRateHost "EUR" "EUR")] /\
  snd (get_exchange_rate "EUR" "EUR" offline) <> offline.
Proof.
  repeat split. intros H. apply (f_equal trace) in H. discriminate H.
Qed.

(** C4, as the code has it.  The identity rate 1.0 belongs to the
    fallback tier, which gives it for every currency without reading its
    table.  [get_exchange_rate(c, c)] queries the cache first, and returns
    1.0 when neither the cache nor a provider answered.
    [convert_to_usd(x, "USD")] returns [x] and does nothing else. *)
Theorem identity_rate_comes_last
        (table : gmap string float) (cur : string) (amount : float) (c : Converter) :
  _get_fallback_rate_in table cur cur = Ok (Some 1.0%float) /\
  convert_to_usd amount "USD" c = (Ok (Some amount), c) /\
  exists rate c',
    get_exchange_rate cur cur c = (Ok rate, c') /\
    (exists rest, trace c' = (trace c ++ DbQuery cur cur :: rest)%list) /\
    (forall c2, unanswered cur cur c c2 -> rate = Some 1.0%float /\ c' = c2).
Proof.
  split; [|split].
  - unfold _get_fallback_rate_in. rewrite String.eqb_refl. reflexivity.
  - reflexivity.
  - destruct (get_exchange_rate_spec cur cur) as [Ht _].
    destruct (Ht c) as (rate & c' & E). exists rate, c'.
    split; [exact E|]. split.
    + unfold get_exchange_rate, bind in E. simpl in E.
      match type of E with context [opt_truthy ?x] => destruct (opt_truthy x) end.
      * injection E as _ <-. exists []. reflexivity.
      * destruct (framed_try_api_tier _ _ _ _ _ E) as (_ & _ & rest & L).
        exists rest. rewrite L. simpl. rewrite <- app_assoc. reflexivity.
    + intros c2 Hun. rewrite (unanswered_resolution _ _ _ _ Hun) in E.
      unfold use_fallback_tier, _get_fallback_rate, bind, ret in E.
      unfold _get_fallback_rate_in in E. rewrite String.eqb_refl in E. simpl in E.
      injection E as <- <-. auto.
Qed.

Lemma identity_rate_comes_last_witness :
  _get_fallback_rate_in initial_fallback_rates "EUR" "EUR" = Ok (Some 1.0%float) /\
  convert_to_usd 100%float "USD" offline = (Ok (Some 100%float), offline) /\
  exists rate c',
    get_exchange_rate "EUR" "EUR" offline = (Ok rate, c') /\
    (exists rest, trace c' = (trace offline ++ DbQuery "EUR" "EUR" :: rest)%list) /\
    (forall c2, unanswered "EUR" "EUR" offline c2 -> rate = Some 1.0%float /\ c' = c2).
Proof.
  exact (identity_rate_comes_last initial_fallback_rates "EUR" 100%float offline).
Defined.

End CurrencyFacts.

(* ------------------------------------------------------------------ *)
(** ** Facts about bulk conversion *)

Module BulkFacts.
Import Currency Spec CurrencyFacts.

(** *** The stable sort on the index *)

Section SortByIndex.
Context {A : Type}.
Implicit Types (x : Z * A) (l : list (Z * A)).

Lemma insert_by_index_perm x l : Permutation (insert_by_index x l) (x :: l).
Proof.
  induction l as [|y l IH]; simpl; [reflexivity|].
  destruct (fst y <? fst x)%Z; [|reflexivity].
  rewrite IH. apply perm_swap.
Qed.

Lemma sort_by_index_perm l : Permutation (sort_by_index l) l.
Proof.
  induction l as [|x l IH]; simpl; [reflexivity|].
  unfold sort_by_index in *. simpl. rewrite insert_by_index_perm.
  apply perm_skip. exact IH.
Qed.

Lemma insert_by_index_sorted x l :
  StronglySorted index_le l -> StronglySorted index_le (insert_by_index x l).
Proof.
  induction 1 as [|y l Hl IH Hy]; simpl.
  - constructor; constructor.
  - destruct (fst y <? fst x)%Z eqn:E.
    + apply Z.ltb_lt in E. constructor; [exact IH|].
      apply (Permutation_Forall (Permutation_sym (insert_by_index_perm x l))).
      constructor; [|exact Hy]. unfold index_le. lia.
    + apply Z.ltb_ge in E. constructor; [constructor; assumption|].
      constructor; [unfold index_le; lia|].
      eapply List.Forall_impl; [|exact Hy]. unfold index_le. intros z Hz. lia.
Qed.

Lemma sort_by_index_sorted l : StronglySorted index_le (sort_by_index l).
Proof.
  induction l as [|x l IH]; [constructor|].
  apply insert_by_index_sorted. exact IH.
Qed.

(** A list in strictly increasing index order is the only sorted
    arrangement of its elements. *)
Lemma sorted_perm_unique l1 l2 :
  StronglySorted index_le l1 -> StronglySorted index_lt l2 ->
  Permutation l1 l2 -> l1 = l2.
Proof.
  intros H1. revert l2. induction H1 as [|x1 t1 Ht1 IH Hx1]; intros l2 H2 HP.
  - apply Permutation_nil in HP. auto.
  - destruct H2 as [|x2 t2 Ht2 Hx2].
    + apply Permutation_sym, Permutation_nil in HP. discriminate HP.
    + assert (Ex : x1 = x2).
      { assert (I1 : In x1 (x2 :: t2))
          by (apply (Permutation_in _ HP); left; reflexivity).
        assert (I2 : In x2 (x1 :: t1))
          by (apply (Permutation_in _ (Permutation_sym HP)); left; reflexivity).
        destruct I1 as [I1|I1]; [auto|]. destruct I2 as [I2|I2]; [auto|].
        rewrite List.Forall_forall in Hx1, Hx2.
        specialize (Hx1 _ I2). specialize (Hx2 _ I1).
        unfold index_le, index_lt in *. lia. }
      subst x2. f_equal. apply IH; [exact Ht2|].
      eapply Permutation_cons_inv. exact HP.
Qed.

End SortByIndex.

(** *** Grouping by currency *)

Lemma group_append_keys cur item groups k :
  In k (List.map fst (group_append cur item groups)) <->
  k = cur \/ In k (List.map fst groups).
Proof.
  induction groups as [|[k0 items] rest IH]; simpl.
  - intuition (subst; auto).
  - destruct (String.eqb_spec k0 cur) as [->|Hne]; simpl.
    + intuition (subst; auto).
    + rewrite IH. intuition (subst; auto).
Qed.

Lemma group_append_NoDup cur item groups :
  List.NoDup (List.map fst groups) ->
  List.NoDup (List.map fst (group_append cur item groups)).
Proof.
  induction groups as [|[k0 items] rest IH]; simpl; intros H.
  - constructor; [intros []|constructor].
  - destruct (String.eqb_spec k0 cur) as [->|Hne]; simpl; [exact H|].
    inversion H as [|? ? Hnotin Hrest]; subst. constructor.
    + intros Hin. apply group_append_keys in Hin.
      destruct Hin as [->|Hin]; [congruence|contradiction].
    + apply IH. exact Hrest.
Qed.

Lemma group_append_ungroup cur a i groups :
  Permutation (ungroup (group_append cur (a, i) groups))
              (ungroup groups ++ [(a, cur, i)]).
Proof.
  induction groups as [|[k0 items] rest IH]; simpl; [reflexivity|].
  destruct (String.eqb_spec k0 cur) as [->|Hne]; simpl.
  - rewrite List.map_app. simpl. rewrite <- !List.app_assoc.
    apply Permutation_app_head. apply Permutation_app_comm.
  - fold (ungroup (group_append cur (a, i) rest)). fold (ungroup rest).
    rewrite <- List.app_assoc. apply Permutation_app_head. exact IH.
Qed.

Lemma group_fold (l : list (float * string * Z)) :
  forall groups,
    List.NoDup (List.map fst groups) ->
    List.NoDup (List.map fst
      (fold_left (fun groups '(amount, currency, index) =>
                    group_append currency (amount, index) groups) l groups)) /\
    Permutation
      (ungroup (fold_left (fun groups '(amount, currency, index) =>
                             group_append currency (amount, index) groups) l groups))
      (ungroup groups ++ l).
Proof.
  induction l as [|[[a cur] i] l IH]; intros groups H; simpl.
  - rewrite List.app_nil_r. split; [exact H|reflexivity].
  - destruct (IH (group_append cur (a, i) groups) (group_append_NoDup _ _ _ H))
      as [HN HP].
    split; [exact HN|]. rewrite HP, group_append_ungroup.
    rewrite <- List.app_assoc. reflexivity.
Qed.

Lemma group_by_currency_spec (l : list (float * string * Z)) :
  List.NoDup (List.map fst (group_by_currency l)) /\
  Permutation (ungroup (group_by_currency l)) l.
Proof.
  destruct (group_fold l [] ltac:(constructor)) as [HN HP]. split; assumption.
Qed.

(** *** One rate per group *)

Lemma convert_items_spec cur rate items :
  convert_items cur rate items =
  Ok (List.map (fun '(a, i) => (i, item_result cur rate a)) items).
Proof.
  induction items as [|[a i] items IH]; [reflexivity|].
  simpl. rewrite IH. unfold item_result.
  destruct (opt_truthy rate) eqn:T; [|reflexivity].
  destruct (negb (String.eqb cur "USD")); [|reflexivity].
  destruct rate as [r|]; [|discriminate T]. simpl in T.
  rewrite (truediv_truthy _ _ T). reflexivity.
Qed.

Lemma returns_resolve_currencies curs : always_returns (resolve_currencies curs).
Proof.
  induction curs as [|cur curs IH]; simpl; [apply returns_ret|].
  apply returns_bind.
  - destruct (negb (String.eqb cur "USD")); [|apply returns_ret].
    apply get_exchange_rate_spec.
  - intros rate. apply returns_bind; [exact IH|]. intros more. apply returns_ret.
Qed.

Lemma ungroup_currency_in groups a cur i :
  In (a, cur, i) (ungroup groups) -> In cur (List.map fst groups).
Proof.
  induction groups as [|[k items] rest IH]; simpl; [auto|].
  intros H. apply List.in_app_or in H. destruct H as [H|H]; [|auto].
  apply List.in_map_iff in H. destruct H as ([a' i'] & E & _).
  injection E as _ -> _. auto.
Qed.

Lemma element_result_skip cur rate table l :
  (forall a k i, In (a, k, i) l -> k <> cur) ->
  List.map (element_result ((cur, rate) :: table)) l = List.map (element_result table) l.
Proof.
  intros H. apply List.map_ext_in. intros [[a k] i] Hin. simpl.
  destruct (String.eqb_spec cur k) as [->|_]; [|reflexivity].
  exfalso. exact (H _ _ _ Hin eq_refl).
Qed.

Lemma convert_groups_spec groups :
  forall c table c',
    List.NoDup (List.map fst groups) ->
    resolve_currencies (List.map fst groups) c = (Ok table, c') ->
    convert_groups groups c =
    (Ok (List.map (element_result table) (ungroup groups)), c').
Proof.
  induction groups as [|[cur items] rest IH]; intros c table c' HN E; simpl in *.
  - injection E as <- <-. reflexivity.
  - inversion HN as [|? ? Hnotin Hrest]; subst.
    unfold bind in E |- *.
    destruct ((if negb (String.eqb cur "USD")
               then get_exchange_rate cur "USD" else ret (Some 1.0%float)) c)
      as [[rate|e] c1]; [|discriminate E].
    destruct (resolve_currencies (List.map fst rest) c1) as [[more|e] c2] eqn:E2;
      [|discriminate E].
    injection E as <- <-. unfold lift. rewrite convert_items_spec.
    rewrite (IH c1 more c2 Hrest E2). unfold ret. f_equal. f_equal.
    rewrite List.map_app. f_equal.
    + rewrite List.map_map. apply List.map_ext. intros [a i]. simpl.
      rewrite String.eqb_refl. reflexivity.
    + symmetry. apply element_result_skip. intros a k i Hin ->.
      apply Hnotin. eapply ungroup_currency_in. exact Hin.
Qed.

Lemma sorted_by_index_of_map {A} (f : A -> Z * option float) (l : list A) :
  StronglySorted Z.lt (List.map (fun x => fst (f x)) l) ->
  StronglySorted index_lt (List.map f l).
Proof.
  induction l as [|x l IH]; simpl; intros H; [constructor|].
  inversion H as [|? ? Hl Hx]; subst. constructor; [auto|].
  rewrite List.Forall_forall in *. intros y Hy.
  apply List.in_map_iff in Hy. destruct Hy as (z & <- & Hz).
  apply Hx. apply List.in_map_iff. exists z. auto.
Qed.

(** *** The sort is stable, and a group keeps the order of the input *)

Lemma insert_by_index_stable {A} (i : Z) (x : Z * A) (l : list (Z * A)) :
  with_index i (insert_by_index x l) = with_index i (x :: l).
Proof.
  unfold with_index. induction l as [|y l IH]; [reflexivity|].
  cbn [insert_by_index].
  destruct (Z.ltb_spec (fst y) (fst x)) as [Hlt|Hge]; [|reflexivity].
  cbn [List.filter] in *. rewrite IH.
  destruct (Z.eqb_spec (fst y) i), (Z.eqb_spec (fst x) i); try reflexivity. lia.
Qed.

Lemma sort_by_index_stable {A} (i : Z) (l : list (Z * A)) :
  with_index i (sort_by_index l) = with_index i l.
Proof.
  induction l as [|x l IH]; [reflexivity|].
  unfold sort_by_index in *. cbn [fold_right]. rewrite insert_by_index_stable.
  unfold with_index in *. cbn [List.filter]. rewrite IH. reflexivity.
Qed.

Lemma in_currency_group cur k (items : list (float * Z)) :
  in_currency cur (List.map (fun '(a, i) => (a, k, i)) items)
  = if String.eqb k cur then List.map (fun '(a, i) => (a, k, i)) items else [].
Proof.
  unfold in_currency. induction items as [|[a i] items IH]; simpl.
  - destruct (String.eqb k cur); reflexivity.
  - rewrite IH. destruct (String.eqb k cur); reflexivity.
Qed.

Lemma in_currency_other cur (groups : list (string * list (float * Z))) :
  ~ In cur (List.map fst groups) -> in_currency cur (ungroup groups) = [].
Proof.
  induction groups as [|[k items] rest IH]; intros Hnot; [reflexivity|].
  unfold ungroup in *. cbn [flat_map]. unfold in_currency in *.
  rewrite List.filter_app. fold (in_currency cur (List.map (fun '(a, i) => (a, k, i)) items)).
  rewrite in_currency_group.
  destruct (String.eqb_spec k cur) as [->|_];
    [exfalso; apply Hnot; left; reflexivity|].
  apply IH. intros Hin. apply Hnot. right. exact Hin.
Qed.

Lemma group_append_in_currency cur k a i groups :
  List.NoDup (List.map fst groups) ->
  in_currency cur (ungroup (group_append k (a, i) groups))
  = (in_currency cur (ungroup groups) ++ in_currency cur [(a, k, i)])%list.
Proof.
  induction groups as [|[k0 items] rest IH]; intros Hnd.
  - reflexivity.
  - apply List.NoDup_cons_iff in Hnd. destruct Hnd as [Hk0 Hnd].
    cbn [group_append]. unfold ungroup in *.
    destruct (String.eqb_spec k0 k) as [->|Hne]; cbn [flat_map];
      unfold in_currency in *; rewrite !List.filter_app.
    + rewrite List.map_app, List.filter_app, <- !List.app_assoc. f_equal.
      cbn [List.map].
      fold (in_currency cur (flat_map (fun '(cur0, items0) =>
              List.map (fun '(a0, i0) => (a0, cur0, i0)) items0) rest)).
      fold (ungroup rest).
      destruct (String.eqb_spec k cur) as [->|Hcur].
      * rewrite (in_currency_other cur rest Hk0). rewrite List.app_nil_r. reflexivity.
      * cbn [List.filter snd fst]. apply String.eqb_neq in Hcur. rewrite Hcur.
        rewrite List.app_nil_r. reflexivity.
    + rewrite (IH Hnd), <- List.app_assoc. reflexivity.
Qed.

Lemma group_fold_in_currency cur (l : list (float * string * Z)) :
  forall groups,
    List.NoDup (List.map fst groups) ->
    in_currency cur
      (ungroup (fold_left (fun groups '(amount, currency, index) =>
                             group_append currency (amount, index) groups) l groups))
    = (in_currency cur (ungroup groups) ++ in_currency cur l)%list.
Proof.
  induction l as [|[[a k] i] l IH]; intros groups Hnd; cbn [fold_left].
  - unfold in_currency at 3. cbn [List.filter]. rewrite List.app_nil_r. reflexivity.
  - rewrite (IH _ (group_append_NoDup _ _ _ Hnd)), group_append_in_currency by exact Hnd.
    rewrite <- List.app_assoc. f_equal.
    unfold in_currency. cbn [List.filter fst snd].
    destruct (String.eqb k cur); reflexivity.
Qed.

(** *** The groups come in the order of first appearance *)

Lemma filter_and {A} (h f g : A -> bool) (l : list A) :
  (forall x, h x = f x && g x) ->
  List.filter h l = List.filter f (List.filter g l).
Proof.
  intros H. induction l as [|x l IH]; [reflexivity|]. simpl.
  rewrite H. destruct (g x); simpl.
  - rewrite Bool.andb_true_r. destruct (f x); rewrite IH; reflexivity.
  - rewrite Bool.andb_false_r. exact IH.
Qed.

Lemma group_append_key_list k item (groups : list (string * list (float * Z))) :
  List.map fst (group_append k item groups)
  = if existsb (String.eqb k) (List.map fst groups)
    then List.map fst groups
    else (List.map fst groups ++ [k])%list.
Proof.
  induction groups as [|[k0 items] rest IH]; [reflexivity|].
  cbn [group_append List.map fst existsb].
  rewrite (String.eqb_sym k k0).
  destruct (String.eqb k0 k); [reflexivity|].
  cbn [List.map fst orb]. rewrite IH.
  destruct (existsb (String.eqb k) (List.map fst rest)); reflexivity.
Qed.

Lemma group_fold_keys (l : list (float * string * Z)) :
  forall groups,
    List.map fst
      (fold_left (fun groups '(amount, currency, index) =>
                    group_append currency (amount, index) groups) l groups)
    = (List.map fst groups
       ++ List.filter (fun k => negb (existsb (String.eqb k) (List.map fst groups)))
                      (first_seen (List.map (fun x => snd (fst x)) l)))%list.
Proof.
  induction l as [|[[a k] i] l IH]; intros groups; cbn [fold_left].
  - cbn. rewrite List.app_nil_r. reflexivity.
  - rewrite IH, group_append_key_list.
    cbn [List.map fst snd first_seen List.filter].
    destruct (existsb (String.eqb k) (List.map fst groups)) eqn:Ek; cbn [negb].
    + f_equal. rewrite <- (filter_and _ _ _ _ (fun x => eq_refl)).
      apply List.filter_ext_in. intros y _.
      destruct (existsb (String.eqb y) (List.map fst groups)) eqn:Ey;
        [reflexivity|]. cbn [negb andb].
      destruct (String.eqb_spec k y) as [->|_]; [congruence|reflexivity].
    + rewrite <- List.app_assoc. cbn [app]. f_equal. f_equal.
      rewrite <- (filter_and _ _ _ _ (fun x => eq_refl)).
      apply List.filter_ext. intros y.
      rewrite List.existsb_app. cbn [existsb]. rewrite Bool.orb_false_r.
      rewrite Bool.negb_orb, (String.eqb_sym y k). reflexivity.
Qed.

Lemma flat_map_in_currency_skip k (items : list (float * Z)) tail keys :
  ~ In k keys ->
  flat_map (fun cur => in_currency cur
                         (List.map (fun '(a, i) => (a, k, i)) items ++ tail)%list) keys
  = flat_map (fun cur => in_currency cur tail) keys.
Proof.
  induction keys as [|cur keys IH]; intros Hnot; [reflexivity|].
  cbn [flat_map]. rewrite IH by (intros H; apply Hnot; right; exact H).
  f_equal. unfold in_currency. rewrite List.filter_app.
  fold (in_currency cur (List.map (fun '(a, i) => (a, k, i)) items)).
  rewrite in_currency_group.
  destruct (String.eqb_spec k cur) as [->|_];
    [exfalso; apply Hnot; left; reflexivity|reflexivity].
Qed.

Lemma ungroup_by_keys (groups : list (string * list (float * Z))) :
  List.NoDup (List.map fst groups) ->
  ungroup groups
  = flat_map (fun cur => in_currency cur (ungroup groups)) (List.map fst groups).
Proof.
  induction groups as [|[k items] rest IH]; intros Hnd; [reflexivity|].
  apply List.NoDup_cons_iff in Hnd. destruct Hnd as [Hk Hnd].
  change (ungroup ((k, items) :: rest))
    with (List.map (fun '(a, i) => (a, k, i)) items ++ ungroup rest)%list.
  change (List.map fst ((k, items) :: rest)) with (k :: List.map fst rest).
  set (f := fun cur => in_currency cur
                         (List.map (fun '(a, i) => (a, k, i)) items ++ ungroup rest)%list).
  change (flat_map f (k :: List.map fst rest))
    with (f k ++ flat_map f (List.map fst rest))%list.
  subst f. cbv beta.
  rewrite (flat_map_in_currency_skip k items (ungroup rest) (List.map fst rest) Hk),
    <- (IH Hnd).
  f_equal. unfold in_currency. rewrite List.filter_app.
  fold (in_currency k (List.map (fun '(a, i) => (a, k, i)) items)).
  fold (in_currency k (ungroup rest)).
  rewrite in_currency_group, String.eqb_refl, (in_currency_other k rest Hk).
  rewrite List.app_nil_r. reflexivity.
Qed.

(** C5, as the code has it.  [bulk_convert_to_usd] groups the batch by
    currency, the currencies in the order of their first appearance and
    each group in the order of the input, resolves one rate per distinct
    currency, returns one result per element, and orders the results by
    the index each element carries, not by the position in the input;
    the sort is stable: results of one index come out in the order of
    the grouped batch.  When the indices increase strictly along the
    input, as positions do, the output is in input order. *)
Theorem bulk_convert_orders_by_index
        (l : list (float * string * Z)) (c : Converter) :
  exists table c' out,
    (List.NoDup (List.map fst (group_by_currency l)) /\
     Permutation (ungroup (group_by_currency l)) l /\
     ungroup (group_by_currency l) = grouped l) /\
    resolve_currencies (List.map fst (group_by_currency l)) c = (Ok table, c') /\
    bulk_convert_to_usd l c = (Ok out, c') /\
    length out = length l /\
    (exists results,
        out = List.map snd results /\
        Permutation results (List.map (element_result table) l) /\
        StronglySorted index_le results /\
        forall i, with_index i results
                  = with_index i (List.map (element_result table) (grouped l))) /\
    (StronglySorted Z.lt (List.map snd l) ->
     out = List.map (fun x => snd (element_result table x)) l).
Proof.
  destruct (group_by_currency_spec l) as [HN HP].
  destruct (returns_resolve_currencies (List.map fst (group_by_currency l)) c)
    as (table & c' & E).
  assert (HG : ungroup (group_by_currency l) = grouped l).
  { assert (Hkeys : List.map fst (group_by_currency l)
                    = first_seen (List.map (fun x => snd (fst x)) l)).
    { unfold group_by_currency. rewrite (group_fold_keys l []). cbn [List.map app].
      generalize (first_seen (List.map (fun x => snd (fst x)) l)).
      intros fs. induction fs as [|k fs IH]; [reflexivity|].
      simpl in *. f_equal. exact IH. }
    transitivity (flat_map (fun cur => in_currency cur (ungroup (group_by_currency l)))
                           (List.map fst (group_by_currency l)));
      [exact (ungroup_by_keys _ HN)|].
    rewrite Hkeys. unfold grouped. apply List.flat_map_ext. intros cur.
    unfold group_by_currency.
    rewrite (group_fold_in_currency cur l [] ltac:(constructor)). reflexivity. }
  pose (results := List.map (element_result table) (ungroup (group_by_currency l))).
  assert (HR : Permutation (sort_by_index results)
                           (List.map (element_result table) l)).
  { rewrite sort_by_index_perm. apply Permutation_map. exact HP. }
  exists table, c', (List.map snd (sort_by_index results)).
  split; [|split; [exact E|split; [|split; [|split]]]].
  - split; [exact HN|]. split; [exact HP|exact HG].
  - unfold bulk_convert_to_usd. rewrite (bind_Ok _ _ _ _ _ (convert_groups_spec _ _ _ _ HN E)).
    reflexivity.
  - rewrite List.length_map, (Permutation_length HR). apply List.length_map.
  - exists (sort_by_index results). split; [reflexivity|].
    split; [exact HR|]. split; [apply sort_by_index_sorted|].
    intros i. rewrite <- HG. apply sort_by_index_stable.
  - intros Hinc.
    transitivity (List.map snd (List.map (element_result table) l));
      [|apply List.map_map].
    f_equal. apply sorted_perm_unique; [apply sort_by_index_sorted| |exact HR].
    apply sorted_by_index_of_map.
    erewrite List.map_ext; [exact Hinc|]. intros [[a k] i]. reflexivity.
Qed.

(** A batch whose indices are the positions comes back in input order. *)
Lemma bulk_convert_orders_by_index_witness :
  exists table c' out,
    bulk_convert_to_usd
      [(10%float, "USD", 0); (100%float, "EUR", 1); (30%float, "USD", 2)] offline
    = (Ok out, c') /\
    out = List.map (fun x => snd (element_result table x))
            [(10%float, "USD", 0); (100%float, "EUR", 1); (30%float, "USD", 2)].
Proof.
  destruct (bulk_convert_orders_by_index
              [(10%float, "USD", 0); (100%float, "EUR", 1); (30%float, "USD", 2)]
              offline)
    as (table & c' & out & _ & _ & E & _ & _ & Hin).
  exists table, c', out. split; [exact E|].
  apply Hin. simpl. repeat constructor.
Defined.

(** Against C5 as stated: two USD amounts handed over with indices 1 and
    0 come back in index order, the reverse of the input order. *)
Lemma bulk_convert_follows_index_not_position :
  fst (bulk_convert_to_usd [(10%float, "USD", 1); (20%float, "USD", 0)] offline)
  = Ok [Some 20%float; Some 10%float] /\
  fst (bulk_convert_to_usd [(10%float, "USD", 1); (20%float, "USD", 0)] offline)
  <> Ok [Some 10%float; Some 20%float].
Proof.
  split; [reflexivity|]. intros H. vm_compute in H. discriminate H.
Qed.

End BulkFacts.

(* ------------------------------------------------------------------ *)
(** ** Facts about floats *)

Module FloatFacts.

Lemma ltb_leb (x y : float) : (x <? y)%float = true -> (x <=? y)%float = true.
Proof.
  rewrite ltb_spec, leb_spec. unfold SFltb, SFleb.
  destruct (SFcompare (Prim2SF x) (Prim2SF y)) as [[ | | ]|]; congruence.
Qed.

(** The order of binary64 values, read off their decoded form. *)
Lemma SFcompare_antisym (a b : spec_float) :
  SFcompare b a =
  match SFcompare a b with Some c => Some (CompOpp c) | None => None end.
Proof.
  destruct a as [sa|sa| |sa ma ea], b as [sb|sb| |sb mb eb]; simpl;
    try destruct sa; try destruct sb; try reflexivity;
    rewrite (Z.compare_antisym ea eb);
    destruct (ea ?= eb)%Z; simpl; try reflexivity;
    change (PosDef.Pos.compare_cont Eq mb ma) with (Pos.compare mb ma);
    change (PosDef.Pos.compare_cont Eq ma mb) with (Pos.compare ma mb);
    rewrite (Pos.compare_antisym ma mb);
    try rewrite CompOpp_involutive; reflexivity.
Qed.

(** Whatever is above a threshold is not NaN. *)
Lemma leb_refl_right (t x : float) :
  (t <=? x)%float = true -> (x <=? x)%float = true.
Proof.
  rewrite !leb_spec. unfold SFleb.
  destruct (Prim2SF t) as [s|s| |s m e], (Prim2SF x) as [s'|s'| |s' m' e']; simpl;
    try discriminate; try reflexivity; try (destruct s'; reflexivity);
    intros _; destruct s'; rewrite Z.compare_refl, Pos.compare_cont_refl; reflexivity.
Qed.

(** Between two values that are not NaN, "not less" is "at least". *)
Lemma not_ltb_leb (x y : float) :
  (x <=? x)%float = true -> (y <=? y)%float = true ->
  (x <? y)%float = false -> (y <=? x)%float = true.
Proof.
  rewrite ltb_spec, !leb_spec. unfold SFltb, SFleb.
  rewrite (SFcompare_antisym (Prim2SF x) (Prim2SF y)).
  destruct (Prim2SF x) as [s|s| |s m e], (Prim2SF y) as [s'|s'| |s' m' e']; simpl;
    try discriminate; try congruence;
    try (destruct s; destruct s'; simpl; congruence);
    try (destruct s; simpl; congruence); try (destruct s'; simpl; congruence).
  intros _ _. destruct s, s'; simpl; try congruence;
    destruct (e ?= e')%Z; simpl; try congruence;
    destruct (PosDef.Pos.compare_cont Eq m m'); simpl; congruence.
Qed.

Lemma leb_trans (x y z : float) :
  (x <=? y)%float = true -> (y <=? z)%float = true -> (x <=? z)%float = true.
Proof.
  rewrite !leb_spec. unfold SFleb.
  destruct (Prim2SF x) as [s|s| |s m e], (Prim2SF y) as [s'|s'| |s' m' e'],
           (Prim2SF z) as [s''|s''| |s'' m'' e'']; simpl;
    try discriminate; try reflexivity;
    try destruct s; try destruct s'; try destruct s''; simpl;
    try discriminate; try reflexivity.
  all: change (PosDef.Pos.compare_cont Eq) with Pos.compare.
  all: destruct (Z.compare_spec e e'); simpl; try discriminate;
       destruct (Z.compare_spec e' e''); simpl; try discriminate;
       destruct (Z.compare_spec e e''); simpl; try reflexivity; try lia.
  all: destruct (Pos.compare_spec m m'); simpl; try discriminate;
       destruct (Pos.compare_spec m' m''); simpl; try discriminate;
       destruct (Pos.compare_spec m m''); simpl; try reflexivity; try lia.
Qed.

(** [max(0.1, min(1.0, x))] lies in [0.1, 1.0] for every float, NaN
    included. *)
Lemma clamp_bounds (x : float) :
  (0.1 <=? max2 0.1 (min2 1.0 x))%float = true /\
  (max2 0.1 (min2 1.0 x) <=? 1.0)%float = true.
Proof.
  unfold max2, min2.
  destruct (x <? 1.0)%float eqn:Hhi.
  - destruct (0.1 <? x)%float eqn:Hlo.
    + split; apply ltb_leb; assumption.
    + split; reflexivity.
  - split; reflexivity.
Qed.

End FloatFacts.

(* ------------------------------------------------------------------ *)
(** ** Facts about the trend analyser *)

Module AnalyzerFacts.
Import Analyzer Spec FloatFacts.

Lemma insert_desc_perm x l : Permutation (insert_desc x l) (x :: l).
Proof.
  induction l as [|y l IH]; simpl; [reflexivity|].
  destruct (scrape_timestamp x <? scrape_timestamp y)%Z; [|reflexivity].
  rewrite IH. apply perm_swap.
Qed.

Lemma order_by_desc_perm l : Permutation (order_by_desc l) l.
Proof.
  induction l as [|x l IH]; [reflexivity|].
  unfold order_by_desc in *. simpl. rewrite insert_desc_perm.
  apply perm_skip. exact IH.
Qed.

Lemma insert_by_timestamp_perm x df : Permutation (insert_by_timestamp x df) (x :: df).
Proof.
  induction df as [|y df IH]; simpl; [reflexivity|].
  destruct (fst y <? fst x)%Z; [|reflexivity].
  rewrite IH. apply perm_swap.
Qed.

Lemma sort_values_perm df : Permutation (sort_values df) df.
Proof.
  induction df as [|x df IH]; [reflexivity|].
  unfold sort_values in *. simpl. rewrite insert_by_timestamp_perm.
  apply perm_skip. exact IH.
Qed.

Lemma qualifying_In s pm pf cond days p :
  In p (qualifying s pm pf cond days) ->
  In p (price_records s) /\ phone_model_id p = pm /\ platform_id p = pf /\
  has_price p = true.
Proof.
  unfold qualifying. rewrite List.filter_In. intros [Hin Hb].
  apply andb_prop in Hb. destruct Hb as [Hb Hprice].
  apply andb_prop in Hb. destruct Hb as [Hcomb _].
  unfold in_combination in Hcomb.
  apply andb_prop in Hcomb. destruct Hcomb as [Hcomb _].
  apply andb_prop in Hcomb. destruct Hcomb as [Hpm Hpf].
  apply Z.eqb_eq in Hpm, Hpf. auto.
Qed.

Lemma to_frame_length l :
  (forall p, In p l -> has_price p = true) -> length (to_frame l) = length l.
Proof.
  induction l as [|p l IH]; intros H; [reflexivity|].
  simpl. assert (Hp := H p (or_introl eq_refl)). unfold has_price in Hp.
  destruct (price_usd p); [|discriminate Hp].
  simpl. f_equal. apply IH. intros q Hq. apply H. right. exact Hq.
Qed.

(** The frame has one row per qualifying observation. *)
Lemma frame_length s pm pf cond days :
  length (frame_of s pm pf cond days) = length (qualifying s pm pf cond days).
Proof.
  unfold frame_of. rewrite (Permutation_length (sort_values_perm _)).
  rewrite to_frame_length.
  - apply Permutation_length, order_by_desc_perm.
  - intros p Hp. apply (Permutation_in _ (order_by_desc_perm _)) in Hp.
    apply qualifying_In in Hp. tauto.
Qed.

(** What an analysis that was produced is made of. *)
Lemma analysis_inv s pm pf cond days a :
  _analyze_single_combination s pm pf cond days = Some a ->
  (2 <= length (qualifying s pm pf cond days))%nat /\
  is_Some (phone_models s !! pm) /\ is_Some (platforms s !! pf) /\
  volatility a = std (price_column (frame_of s pm pf cond days)) /\
  confidence_score a =
    _calculate_confidence_score (frame_of s pm pf cond days) (volatility a) /\
  trend_direction a = _determine_trend_direction (frame_of s pm pf cond days) /\
  Some (current_price a) = last (price_column (frame_of s pm pf cond days)).
Proof.
  unfold _analyze_single_combination. fold (frame_of s pm pf cond days).
  rewrite (Permutation_length (order_by_desc_perm _)).
  destruct (length (qualifying s pm pf cond days) <? 2)%nat eqn:Hn; [discriminate|].
  apply Nat.ltb_ge in Hn.
  destruct (phone_models s !! pm) as [phone_model|]; [|discriminate].
  destruct (platforms s !! pf) as [platform|]; [|discriminate].
  destruct (rev (price_column (frame_of s pm pf cond days))) as [|current before]
    eqn:Hrev; [discriminate|].
  assert (Hlen : (1 <? length (frame_of s pm pf cond days))%nat = true).
  { apply Nat.ltb_lt. rewrite frame_length. lia. }
  rewrite Hlen. intros [= <-]. simpl. repeat split; eauto.
  rewrite <- (rev_involutive (price_column (frame_of s pm pf cond days))), Hrev.
  simpl. rewrite last_snoc. reflexivity.
Qed.

(** A combination with at least two qualifying observations and stored
    reference rows is analysed. *)
Lemma analysis_exists s pm pf cond days :
  (2 <= length (qualifying s pm pf cond days))%nat ->
  is_Some (phone_models s !! pm) -> is_Some (platforms s !! pf) ->
  is_Some (_analyze_single_combination s pm pf cond days).
Proof.
  intros Hn [phone_model Hpm] [platform Hpf].
  unfold _analyze_single_combination. fold (frame_of s pm pf cond days).
  rewrite (Permutation_length (order_by_desc_perm _)).
  destruct (Nat.ltb_spec (length (qualifying s pm pf cond days)) 2) as [|_]; [lia|].
  rewrite Hpm, Hpf.
  destruct (rev (price_column (frame_of s pm pf cond days))) as [|current before] eqn:Hrev.
  - apply (f_equal (@length _)) in Hrev. rewrite List.length_rev in Hrev.
    unfold price_column in Hrev. rewrite List.length_map, frame_length in Hrev.
    simpl in Hrev. lia.
  - eauto.
Qed.

Lemma session_with_integrity records :
  (forall p, In p records ->
     phone_model_id p = 1 /\ (platform_id p = 1 \/ platform_id p = 2)) ->
  referential_integrity (session_with records).
Proof.
  intros H p Hp. destruct (H p Hp) as [-> Hpf]. split.
  - exists iphone. reflexivity.
  - destruct Hpf as [-> | ->]; eexists; reflexivity.
Qed.

Lemma to_frame_In (l : list PriceRecord) (t : Z) (u : float) :
  In (t, u) (to_frame l) <->
  exists q, In q l /\ scrape_timestamp q = t /\ price_usd q = Some u.
Proof.
  unfold to_frame. rewrite List.in_flat_map. split.
  - intros (q & Hq & Hu). exists q. split; [exact Hq|].
    destruct (price_usd q) as [v|]; [|destruct Hu].
    destruct Hu as [[= <- <-]|[]]. auto.
  - intros (q & Hq & <- & Hu). exists q. split; [exact Hq|]. rewrite Hu.
    left. reflexivity.
Qed.

Lemma frame_perm s pm pf cond days :
  Permutation (frame_of s pm pf cond days) (to_frame (qualifying s pm pf cond days)).
Proof.
  unfold frame_of. rewrite sort_values_perm. unfold to_frame.
  apply Permutation_flat_map, order_by_desc_perm.
Qed.

(** The filter of the query selects exactly the observations that
    count. *)
Lemma qualifying_spec s pm pf cond days p :
  In p (qualifying s pm pf cond days) <->
  In p (price_records s) /\ is_observation s pm pf cond days p.
Proof.
  unfold qualifying, is_observation, in_combination, has_price.
  rewrite List.filter_In, !andb_true_iff, !Z.eqb_eq, String.eqb_eq, Z.leb_le.
  destruct (price_usd p) as [u|]; split.
  - intros (Hin & (((Hpm & Hpf) & Hcond) & Hts) & _). repeat split; eauto.
  - intros (Hin & Hpm & Hpf & Hcond & _ & Hts). repeat split; auto.
  - intros (_ & _ & H). discriminate H.
  - intros (_ & _ & _ & _ & [u Hu] & _). discriminate Hu.
Qed.

Lemma qualifying_count s pm pf cond days :
  length (qualifying s pm pf cond days) = observation_count s pm pf cond days.
Proof.
  unfold observation_count.
  assert (H : forall l : list PriceRecord,
            (forall p, In p l -> In p (price_records s)) ->
            List.filter (fun p => in_combination pm pf cond p
                                  && (utcnow s - timedelta_days days <=? scrape_timestamp p)%Z
                                  && has_price p) l
            = List.filter (fun p => bool_decide (is_observation s pm pf cond days p)) l).
  { induction l as [|p l IH]; intros Hl; [reflexivity|]. simpl.
    rewrite IH by (intros q Hq; apply Hl; right; exact Hq).
    assert (Hp : In p (price_records s)) by (apply Hl; left; reflexivity).
    pose proof (qualifying_spec s pm pf cond days p) as Hspec.
    unfold qualifying in Hspec. rewrite List.filter_In in Hspec.
    destruct (in_combination pm pf cond p
              && (utcnow s - timedelta_days days <=? scrape_timestamp p)%Z
              && has_price p) eqn:E.
    - rewrite bool_decide_eq_true_2 by (apply Hspec; auto). reflexivity.
    - rewrite bool_decide_eq_false_2; [reflexivity|].
      intros Hobs. assert (H : In p (price_records s) /\ false = true)
        by (apply Hspec; auto). destruct H as [_ H]. discriminate H. }
  unfold qualifying. rewrite H by auto. reflexivity.
Qed.

(** Against C2 as stated: two observations of a phone model that is not
    stored fall inside the window, with a USD price each, and the
    analysis is none all the same. *)
Lemma unstored_model_hides_two_observations :
  observation_count orphaned 99 1 "Good" 30 = 2%nat /\
  _analyze_single_combination orphaned 99 1 "Good" 30 = None.
Proof. split; reflexivity. Qed.

(** C2, as the code has it.  For every combination and lookback window
    the analysis is none exactly when fewer than 2 observations of the
    combination with a USD price fall inside the window, or the phone
    model or the platform of the request is not stored; in a store whose
    records name stored phone models and platforms (the foreign keys of
    the schema) the first case is the only one.  The function has no
    exceptional outcome, and an analysis that is produced rests on at
    least 2 such observations. *)
Theorem analysis_none_iff_sparse
        (s : Session) (pm pf : Z) (cond : string) (days : Z) :
  (_analyze_single_combination s pm pf cond days = None <->
   (observation_count s pm pf cond days < 2)%nat \/
   phone_models s !! pm = None \/ platforms s !! pf = None) /\
  (referential_integrity s ->
   (_analyze_single_combination s pm pf cond days = None <->
    (observation_count s pm pf cond days < 2)%nat)) /\
  (forall a, _analyze_single_combination s pm pf cond days = Some a ->
             (2 <= observation_count s pm pf cond days)%nat).
Proof.
  rewrite <- qualifying_count.
  assert (Hsparse : (length (qualifying s pm pf cond days) < 2)%nat ->
                    _analyze_single_combination s pm pf cond days = None).
  { intros Hlt. unfold _analyze_single_combination.
    rewrite (Permutation_length (order_by_desc_perm _)).
    apply Nat.ltb_lt in Hlt. rewrite Hlt. reflexivity. }
  assert (Hunknown : phone_models s !! pm = None \/ platforms s !! pf = None ->
                     _analyze_single_combination s pm pf cond days = None).
  { intros H. unfold _analyze_single_combination.
    destruct (length (order_by_desc (qualifying s pm pf cond days)) <? 2)%nat;
      [reflexivity|].
    destruct H as [-> | H]; [reflexivity|]. rewrite H.
    destruct (phone_models s !! pm); reflexivity. }
  assert (Hnone : _analyze_single_combination s pm pf cond days = None ->
                  (length (qualifying s pm pf cond days) < 2)%nat \/
                  phone_models s !! pm = None \/ platforms s !! pf = None).
  { intros E.
    destruct (Nat.ltb_spec (length (qualifying s pm pf cond days)) 2) as [|Hge];
      [left; assumption|right].
    destruct (phone_models s !! pm) as [phone_model|] eqn:Epm; [|left; reflexivity].
    destruct (platforms s !! pf) as [platform|] eqn:Epf; [|right; reflexivity].
    assert (Hsome : is_Some (_analyze_single_combination s pm pf cond days))
      by (apply analysis_exists; [exact Hge|rewrite Epm; eauto|rewrite Epf; eauto]).
    rewrite E in Hsome. destruct Hsome as [a Ha]. discriminate Ha. }
  split; [|split].
  - split; [exact Hnone|]. intros [H|H]; [exact (Hsparse H)|exact (Hunknown H)].
  - intros Href. split; [|exact Hsparse]. intros E.
    destruct (Hnone E) as [H|H]; [exact H|].
    destruct (Nat.ltb_spec (length (qualifying s pm pf cond days)) 2) as [|Hge];
      [assumption|exfalso].
    destruct (qualifying s pm pf cond days) as [|p rest] eqn:Eq;
      [simpl in Hge; lia|].
    assert (Hp : In p (qualifying s pm pf cond days)) by (rewrite Eq; left; reflexivity).
    apply qualifying_In in Hp. destruct Hp as (Hin & <- & <- & _).
    destruct (Href p Hin) as [[m Hpm] [f Hpf]].
    destruct H as [H|H]; congruence.
  - intros a Ha. apply analysis_inv in Ha. tauto.
Qed.

(** Five observations give an analysis, a single one gives none. *)
Lemma analysis_none_iff_sparse_witness :
  observation_count falling 1 1 "Good" 30 = 5%nat /\
  _analyze_single_combination falling 1 1 "Good" 30 <> None /\
  observation_count one_price 1 1 "Good" 30 = 1%nat /\
  _analyze_single_combination one_price 1 1 "Good" 30 = None.
Proof.
  split; [reflexivity|]. split; [|split; [reflexivity|]].
  - intros E.
    apply (proj1 (analysis_none_iff_sparse falling 1 1 "Good" 30)) in E.
    destruct E as [E|[E|E]]; vm_compute in E; [lia|discriminate E|discriminate E].
  - apply (proj1 (analysis_none_iff_sparse one_price 1 1 "Good" 30)).
    left. vm_compute. lia.
Defined.

(** The rows of the frame are the observations that count. *)
Lemma frame_In s pm pf cond days t u :
  In (t, u) (frame_of s pm pf cond days) <->
  exists q, In q (price_records s) /\ is_observation s pm pf cond days q /\
            scrape_timestamp q = t /\ price_usd q = Some u.
Proof.
  split.
  - intros H. apply (Permutation_in _ (frame_perm s pm pf cond days)) in H.
    apply to_frame_In in H. destruct H as (q & Hq & Ht & Hu).
    apply qualifying_spec in Hq. exists q. tauto.
  - intros (q & Hq & Hobs & Ht & Hu).
    apply (Permutation_in _ (Permutation_sym (frame_perm s pm pf cond days))).
    apply to_frame_In. exists q. split; [apply qualifying_spec; auto|auto].
Qed.

Lemma fold_Zmax_spec (ts : list Z) (t : Z) :
  In (fold_left Z.max ts t) (t :: ts) /\
  forall x, In x (t :: ts) -> (x <= fold_left Z.max ts t)%Z.
Proof.
  revert t. induction ts as [|y ts IH]; intros t; simpl.
  - split; [left; reflexivity|]. intros x [->|[]]. lia.
  - destruct (IH (Z.max t y)) as [Hin Hmax]. split.
    + destruct Hin as [Hin|Hin]; [|right; right; exact Hin].
      rewrite <- Hin. destruct (Z.max_spec t y) as [[_ ->]|[_ ->]]; auto.
    + intros x Hx.
      assert (Hm : (Z.max t y <= fold_left Z.max ts (Z.max t y))%Z)
        by (apply Hmax; left; reflexivity).
      destruct Hx as [->|[->|Hx]]; [lia|lia|]. apply Hmax. right. exact Hx.
Qed.

Lemma fold_Zmin_spec (ts : list Z) (t : Z) :
  In (fold_left Z.min ts t) (t :: ts) /\
  forall x, In x (t :: ts) -> (fold_left Z.min ts t <= x)%Z.
Proof.
  revert t. induction ts as [|y ts IH]; intros t; simpl.
  - split; [left; reflexivity|]. intros x [->|[]]. lia.
  - destruct (IH (Z.min t y)) as [Hin Hmin]. split.
    + destruct Hin as [Hin|Hin]; [|right; right; exact Hin].
      rewrite <- Hin. destruct (Z.min_spec t y) as [[_ ->]|[_ ->]]; auto.
    + intros x Hx.
      assert (Hm : (fold_left Z.min ts (Z.min t y) <= Z.min t y)%Z)
        by (apply Hmin; left; reflexivity).
      destruct Hx as [->|[->|Hx]]; [lia|lia|]. apply Hmin. right. exact Hx.
Qed.

(** C6.  Every analysis that is produced has its confidence in
    [0.1, 1.0].  It is 0.3 when fewer than 3 observations count.
    Otherwise it is the clamp to [0.1, 1.0] of the blend, with weights
    0.4, 0.4 and 0.2, of the data-density score of the number of
    observations, the volatility score of the analysis' volatility
    against the mean price of the window, and the recency score of the
    whole days between the oldest and the newest observation. *)
Theorem confidence_in_range
        (s : Session) (pm pf : Z) (cond : string) (days : Z) (a : PriceAnalysis) :
  _analyze_single_combination s pm pf cond days = Some a ->
  ((0.1 <=? confidence_score a)%float = true /\
   (confidence_score a <=? 1.0)%float = true) /\
  ((observation_count s pm pf cond days < 3)%nat ->
     confidence_score a = 0.3%float) /\
  ((3 <= observation_count s pm pf cond days)%nat ->
   exists oldest newest,
     (In oldest (price_records s) /\ is_observation s pm pf cond days oldest) /\
     (In newest (price_records s) /\ is_observation s pm pf cond days newest) /\
     (forall q, In q (price_records s) -> is_observation s pm pf cond days q ->
                (scrape_timestamp oldest <= scrape_timestamp q
                 <= scrape_timestamp newest)%Z) /\
     confidence_score a =
       clamp 0.1 1.0
         (weighted_blend
            (data_density_score (observation_count s pm pf cond days))
            (volatility_score (volatility a)
                              (mean (price_column (frame_of s pm pf cond days))))
            (recency_score
               ((scrape_timestamp newest - scrape_timestamp oldest)
                / timedelta_days 1)))).
Proof.
  intros Ha. apply analysis_inv in Ha. destruct Ha as (_ & _ & _ & _ & -> & _).
  rewrite <- qualifying_count, <- frame_length.
  unfold _calculate_confidence_score.
  destruct (Nat.ltb_spec (length (frame_of s pm pf cond days)) 3) as [Hlt|Hge].
  - repeat split; try reflexivity. intros. lia.
  - split; [apply clamp_bounds|]. split; [intros; lia|]. intros _.
    unfold blended_confidence, days_between, flen.
    destruct (frame_of s pm pf cond days) as [|[t0 u0] rows] eqn:Edf;
      [simpl in Hge; lia|].
    cbn [List.map fst].
    destruct (fold_Zmax_spec (List.map fst rows) t0) as [Hmax_in Hmax].
    destruct (fold_Zmin_spec (List.map fst rows) t0) as [Hmin_in Hmin].
    assert (Hrow : forall t, In t (t0 :: List.map fst rows) ->
              exists q, In q (price_records s) /\ is_observation s pm pf cond days q /\
                        scrape_timestamp q = t).
    { intros t Ht.
      assert (Ht' : In t (List.map fst (frame_of s pm pf cond days)))
        by (rewrite Edf; exact Ht).
      apply List.in_map_iff in Ht'. destruct Ht' as ([t' u] & Et & Hin).
      simpl in Et. subst t'. apply frame_In in Hin.
      destruct Hin as (q & Hq & Hobs & Hts & _). eauto. }
    destruct (Hrow _ Hmin_in) as (oldest & Hold & Hold_obs & Eold).
    destruct (Hrow _ Hmax_in) as (newest & Hnew & Hnew_obs & Enew).
    exists oldest, newest. split; [auto|]. split; [auto|]. split.
    + intros q Hq Hobs.
      assert (Hu : is_Some (price_usd q)) by apply Hobs.
      destruct Hu as [u Hu].
      assert (Hin : In (scrape_timestamp q, u) (frame_of s pm pf cond days))
        by (apply frame_In; eauto).
      rewrite Edf in Hin.
      assert (Ht : In (scrape_timestamp q) (t0 :: List.map fst rows)).
      { change (t0 :: List.map fst rows) with (List.map fst ((t0, u0) :: rows)).
        apply List.in_map_iff. exists (scrape_timestamp q, u). auto. }
      rewrite Eold, Enew. split; [apply Hmin|apply Hmax]; exact Ht.
    + rewrite Eold, Enew. reflexivity.
Qed.

(** The five falling observations: a blend of about 0.456. *)
Lemma confidence_in_range_witness :
  exists a,
    _analyze_single_combination falling 1 1 "Good" 30 = Some a /\
    ((0.1 <=? confidence_score a)%float = true /\
     (confidence_score a <=? 1.0)%float = true) /\
    (0.45 <? confidence_score a)%float = true /\
    (confidence_score a <? 0.46)%float = true.
Proof.
  destruct (_analyze_single_combination falling 1 1 "Good" 30) as [a|] eqn:E;
    [|vm_compute in E; discriminate E].
  exists a. split; [reflexivity|].
  split; [exact (proj1 (confidence_in_range falling 1 1 "Good" 30 a E))|].
  vm_compute in E. injection E as <-. split; reflexivity.
Defined.

(** Against C7 as stated: a request for the unknown phone model 99 gets
    the same answer, none, as a request for a known combination with a
    single observation. *)
Lemma unknown_reference_looks_like_sparse_data :
  phone_models one_price !! 99 = None /\
  _analyze_single_combination one_price 99 1 "Good" 30 = None /\
  _analyze_single_combination one_price 1 1 "Good" 30 = None.
Proof. repeat split. Qed.

(** C7, as the code has it.  A request that names an unknown phone model
    or an unknown platform is answered with none, the value that also
    signals insufficient data; there is no separate error. *)
Theorem unknown_reference_yields_none
        (s : Session) (pm pf : Z) (cond : string) (days : Z) :
  phone_models s !! pm = None \/ platforms s !! pf = None ->
  _analyze_single_combination s pm pf cond days = None.
Proof.
  intros H.
  destruct (_analyze_single_combination s pm pf cond days) as [a|] eqn:E;
    [|reflexivity].
  apply analysis_inv in E. destruct E as (_ & [x Hx] & [y Hy] & _).
  destruct H as [H|H]; congruence.
Qed.

Lemma unknown_reference_yields_none_witness :
  _analyze_single_combination two_prices 1 7 "Good" 30 = None.
Proof.
  apply (unknown_reference_yields_none two_prices 1 7 "Good" 30).
  right. reflexivity.
Defined.

(** Against C8 as stated: for the prices 1 and 3 the analysis reports
    the square root of 2, where the population standard deviation is 1. *)
Lemma volatility_is_not_population_std :
  option_map volatility (_analyze_single_combination two_prices 1 1 "Good" 30)
  = Some 1.4142135623730951%float /\
  std_ddof 0 (price_column (frame_of two_prices 1 1 "Good" 30)) = 1%float /\
  option_map volatility (_analyze_single_combination two_prices 1 1 "Good" 30)
  <> Some (std_ddof 0 (price_column (frame_of two_prices 1 1 "Good" 30))).
Proof.
  split; [reflexivity|]. split; [reflexivity|].
  intros H. vm_compute in H. discriminate H.
Qed.

(** C8, as the code has it.  The volatility of an analysis is the sample
    standard deviation ([Series.std()], one delta degree of freedom) of
    the USD prices of the whole lookback window; the frame has at least
    2 rows, so the value 0.0 for a shorter frame is never used. *)
Theorem volatility_is_sample_std
        (s : Session) (pm pf : Z) (cond : string) (days : Z) (a : PriceAnalysis) :
  _analyze_single_combination s pm pf cond days = Some a ->
  volatility a = std_ddof 1 (price_column (frame_of s pm pf cond days)) /\
  (2 <= length (frame_of s pm pf cond days))%nat /\
  Permutation (frame_of s pm pf cond days)
              (to_frame (qualifying s pm pf cond days)).
Proof.
  intros Ha. apply analysis_inv in Ha. destruct Ha as (Hn & _ & _ & Hv & _).
  split; [exact Hv|]. split; [rewrite frame_length; exact Hn|].
  unfold frame_of. rewrite sort_values_perm.
  unfold to_frame. apply Permutation_flat_map, order_by_desc_perm.
Qed.

Lemma volatility_is_sample_std_witness :
  exists a,
    _analyze_single_combination falling 1 1 "Good" 30 = Some a /\
    volatility a = std_ddof 1 (price_column (frame_of falling 1 1 "Good" 30)).
Proof.
  destruct (_analyze_single_combination falling 1 1 "Good" 30) as [a|] eqn:E;
    [|vm_compute in E; discriminate E].
  exists a. split; [reflexivity|].
  exact (proj1 (volatility_is_sample_std falling 1 1 "Good" 30 a E)).
Defined.

(** X2.  With exactly 2 observations no slope is fitted: the direction is
    "stable" and the confidence is 0.3, whatever the two prices are. *)
Theorem two_points_are_stable
        (s : Session) (pm pf : Z) (cond : string) (days : Z) (a : PriceAnalysis) :
  _analyze_single_combination s pm pf cond days = Some a ->
  length (qualifying s pm pf cond days) = 2%nat ->
  trend_direction a = "stable" /\ confidence_score a = 0.3%float.
Proof.
  intros Ha Hlen. apply analysis_inv in Ha.
  destruct Ha as (_ & _ & _ & _ & Hc & Ht & _).
  rewrite Hc, Ht. unfold _determine_trend_direction, _calculate_confidence_score.
  rewrite frame_length, Hlen. split; reflexivity.
Qed.

Lemma two_points_are_stable_witness :
  exists a,
    _analyze_single_combination two_prices 1 1 "Good" 30 = Some a /\
    trend_direction a = "stable" /\ confidence_score a = 0.3%float.
Proof.
  destruct (_analyze_single_combination two_prices 1 1 "Good" 30) as [a|] eqn:E;
    [|vm_compute in E; discriminate E].
  exists a. split; [reflexivity|].
  exact (two_points_are_stable two_prices 1 1 "Good" 30 a E eq_refl).
Defined.

(** X3.  The scenario of five daily observations falling from 1000 to 800:
    direction "down", current price 800, a change of about -5.88 percent,
    and a confidence below 1.0. *)
Lemma falling_scenario :
  exists a,
    _analyze_single_combination falling 1 1 "Good" 30 = Some a /\
    trend_direction a = "down" /\
    current_price a = 800%float /\
    previous_price a = Some 850%float /\
    (-5.89 <? price_change_percent a)%float = true /\
    (price_change_percent a <? -5.88)%float = true /\
    (confidence_score a <? 1.0)%float = true.
Proof. eexists. split; [reflexivity|]. repeat split. Qed.

End AnalyzerFacts.

(* ------------------------------------------------------------------ *)
(** ** Facts about arbitrage insights *)

Module ArbitrageFacts.
Import Analyzer Spec FloatFacts.

(** *** Grouping by (phone model, condition) *)








(** *** Sorting by price and by value *)







(** *** First and last of a list without repetition *)







(** *** What an insight is made of *)







(** C9 at its failing input.  Two listings of the same marketplace that
    carry the same timestamp are both "latest"; the group then has two
    records of one marketplace, and an insight from Swappa to Swappa is
    returned. *)
Theorem tied_listings_give_one_marketplace_arbitrage :
  latest_prices tied_listings = price_records tied_listings /\
  List.map platform_id (latest_prices tied_listings) = [1; 1] /\
  find_arbitrage_opportunities tied_listings 10
  = Ok [ {| insight_type := "arbitrage";
            title := "Arbitrage Opportunity: Apple iPhone 16";
            mi_phone_model := "Apple iPhone 16";
            mi_platform := "Swappa → Swappa";
            mi_region := "US → US";
            value := 20;
            confidence := 0.8 |} ].
Proof. repeat split. Qed.

End ArbitrageFacts.

(* ------------------------------------------------------------------ *)
(** ** Facts about the cache tier and the providers *)

Module CacheFacts.
Import Currency Spec CacheSpec CurrencyFacts.
Local Open Scope conv_scope.

Lemma newest_spec (rows : list ExchangeRate) :
  match newest rows with
  | Some r => In r rows /\ forall x, In x rows -> (date x <= date r)%Z
  | None => rows = []
  end.
Proof.
  induction rows as [|a rows IH]; simpl; [reflexivity|].
  destruct (newest rows) as [r'|].
  - destruct IH as [Hin Hmax]. destruct (Z.ltb_spec (date a) (date r')).
    + split; [right; exact Hin|]. intros x [<-|Hx]; [lia|auto].
    + split; [left; reflexivity|]. intros x [<-|Hx]; [lia|].
      specialize (Hmax x Hx). lia.
  - subst rows. split; [left; reflexivity|]. intros x [<-|[]]. lia.
Qed.

Lemma pair_rows_In from to rows e :
  In e (pair_rows from to rows) <-> In e rows /\ of_pair from to e.
Proof.
  unfold pair_rows, of_pair. rewrite List.filter_In, andb_true_iff.
  rewrite !String.eqb_eq. reflexivity.
Qed.

(** X7.  The cache tier answers with the rate of the newest row of the
    pair that is at most 24 hours old, and with none exactly when the
    pair has no such row; it performs one database query and changes
    nothing else. *)
Theorem cached_rate_is_newest_fresh (from to : string) (c : Converter) :
  exists o,
    _get_cached_rate from to c = (Ok o, log (DbQuery from to) c) /\
    (o = None <->
     forall e, In e (exchange_rates c) -> of_pair from to e -> ~ fresh c e) /\
    (forall r, o = Some r ->
       exists e, In e (exchange_rates c) /\ of_pair from to e /\ fresh c e /\
                 rate e = r /\
                 forall e', In e' (exchange_rates c) -> of_pair from to e' ->
                            (date e' <= date e)%Z).
Proof.
  unfold _get_cached_rate.
  set (cutoff := (utcnow c - timedelta_hours cache_duration_hours)%Z).
  set (young := List.filter (fun e => (cutoff <=? date e)%Z)
                            (pair_rows from to (exchange_rates c))).
  assert (Hyoung : forall e, In e young <->
                     In e (exchange_rates c) /\ of_pair from to e /\ fresh c e).
  { intros e. unfold young. rewrite List.filter_In, pair_rows_In, Z.leb_le.
    unfold fresh. fold cutoff. tauto. }
  eexists. split; [reflexivity|].
  pose proof (newest_spec young) as Hn.
  destruct (newest young) as [e|]; simpl.
  - destruct Hn as [Hin Hmax]. apply Hyoung in Hin. destruct Hin as (Hin & Hp & Hf).
    split.
    + split; [discriminate|]. intros H. exfalso. exact (H e Hin Hp Hf).
    + intros r [= <-]. exists e. repeat split; try assumption; try apply Hp.
      intros e' Hin' Hp'.
      destruct (Z.le_gt_cases cutoff (date e')) as [Hy|Hold].
      * apply Hmax. apply Hyoung. auto.
      * unfold fresh in Hf. fold cutoff in Hf. lia.
  - split.
    + split; [|reflexivity]. intros _ e Hin Hp Hf.
      assert (He : In e young) by (apply Hyoung; auto).
      rewrite Hn in He. exact He.
    + discriminate.
Qed.

(** *** Quiet computations *)

Lemma quiet_pure {A} (f : Converter -> result A) : quiet (fun c => (f c, c)).
Proof.
  intros c r c' E. injection E as _ <-. repeat split; auto.
  exists []. split; [symmetry; apply List.app_nil_r|constructor].
Qed.

Lemma quiet_ret {A} (a : A) : quiet (ret a).
Proof. apply (quiet_pure (fun _ => Ok a)). Qed.

Lemma quiet_bind {A B} (m : M A) (k : A -> M B) :
  quiet m -> (forall a, quiet (k a)) -> quiet (bind m k).
Proof.
  intros Hm Hk c r c' E. unfold bind in E.
  destruct (m c) as [[a|e] c1] eqn:E1.
  - destruct (Hm _ _ _ E1) as (T1 & N1 & K1 & F1 & R1 & rest1 & L1 & A1).
    destruct (Hk a _ _ _ E) as (T2 & N2 & K2 & F2 & R2 & rest2 & L2 & A2).
    repeat split; try congruence.
    exists (rest1 ++ rest2)%list. split.
    + rewrite L2, L1. symmetry. apply List.app_assoc.
    + apply List.Forall_app. split; [exact A1|]. rewrite <- K1. exact A2.
  - injection E as _ <-. exact (Hm _ _ _ E1).
Qed.

Lemma quiet_log {A} (f : Converter -> A) (e : event) :
  (forall key, allowed_event key e) -> quiet (fun c => (Ok (f c), log e c)).
Proof.
  intros He c r c' E. injection E as _ <-. repeat split; auto.
  exists [e]. split; [reflexivity|]. constructor; [apply He|constructor].
Qed.

Lemma quiet_exchangerate_api from to : quiet (_fetch_from_exchangerate_api from to).
Proof.
  apply quiet_bind.
  - apply (quiet_log _ (HttpGet (ExchangeRateApi from))). intros key. exact I.
  - intros [|data]; apply quiet_ret.
Qed.

Lemma quiet_free_forex_api from to : quiet (_fetch_from_free_forex_api from to).
Proof.
  apply quiet_bind.
  - apply (quiet_log _ (HttpGet (ExchangeRateHost from to))). intros key. exact I.
  - intros [|data]; [apply quiet_ret|]. destruct (js_success data); apply quiet_ret.
Qed.

Lemma quiet_fixer_io from to : quiet (_fetch_from_fixer_io from to).
Proof.
  intros c r c' E. unfold _fetch_from_fixer_io in E.
  destruct (api_key c) as [key|] eqn:K;
    [|rewrite <- K; exact (quiet_pure (fun _ => Ok None) _ _ _ E)].
  destruct (String.eqb_spec key "") as [->|Hkey];
    [rewrite <- K; exact (quiet_pure (fun _ => Ok None) _ _ _ E)|].
  unfold bind, http in E.
  assert (Hc : c' = log (HttpGet (FixerIo key from to)) c).
  { destruct (requests_get c (FixerIo key from to)) as [|data].
    - injection E as _ <-. reflexivity.
    - destruct (js_success data); injection E as _ <-; reflexivity. }
  subst c'. simpl. repeat split; auto.
  exists [HttpGet (FixerIo key from to)]. split; [reflexivity|].
  constructor; [|constructor]. simpl. auto.
Qed.

Lemma quiet_fetch_rate_from_api from to : quiet (_fetch_rate_from_api from to).
Proof.
  assert (H : List.Forall (fun f => forall from to, quiet (f from to)) apis).
  { unfold apis.
    constructor; [|constructor; [|constructor; [|constructor]]]; intros f t.
    - apply quiet_exchangerate_api.
    - apply quiet_fixer_io.
    - apply quiet_free_forex_api. }
  unfold _fetch_rate_from_api. induction H as [|f fs Hf _ IH]; simpl.
  - apply quiet_ret.
  - apply quiet_bind; [apply Hf|]. intros o.
    destruct (opt_truthy o); [apply quiet_ret | exact IH].
Qed.

Lemma quiet_cached_rate from to : quiet (_get_cached_rate from to).
Proof.
  unfold _get_cached_rate.
  apply (quiet_log
           (fun c => option_map rate
              (newest (List.filter
                 (fun e => (utcnow c - timedelta_hours cache_duration_hours <=? date e)%Z)
                 (pair_rows from to (exchange_rates c)))))
           (DbQuery from to)).
  intros key. exact I.
Qed.

Lemma quiet_use_fallback_tier from to : quiet (use_fallback_tier from to).
Proof.
  apply quiet_bind; [apply quiet_pure|].
  intros o. destruct (opt_truthy o); apply quiet_ret.
Qed.

(** X8.  Resolution leaves the clock, the providers, the API key and the
    fallback table alone.  It stores at most one row, and only a row for
    the pair that carries the nonzero rate it returns.  It queries the
    cache first, and a request to fixer.io is sent only with the
    configured, non-empty key. *)
Theorem resolution_effects
        (from to : string) (c c1 : Converter) (o : option float) :
  get_exchange_rate from to c = (Ok o, c1) ->
  (utcnow c1 = utcnow c /\ requests_get c1 = requests_get c /\
   api_key c1 = api_key c /\ fallback_rates c1 = fallback_rates c) /\
  (exchange_rates c1 = exchange_rates c \/
   exists r, o = Some r /\ truthy r = true /\
             exchange_rates c1 = (exchange_rates c ++ [api_row from to r c])%list) /\
  exists rest,
    trace c1 = (trace c ++ DbQuery from to :: rest)%list /\
    List.Forall (allowed_event (api_key c)) rest.
Proof.
  unfold get_exchange_rate, bind. intros E.
  destruct (_get_cached_rate from to c) as [[cached|e] c0] eqn:E0;
    [|discriminate E].
  assert (Hc0 : c0 = log (DbQuery from to) c)
    by (unfold _get_cached_rate in E0; injection E0 as _ <-; reflexivity).
  destruct (opt_truthy cached).
  { injection E as _ <-. subst c0. simpl. repeat split; auto.
    exists []. split; [reflexivity|constructor]. }
  unfold try_api_tier, bind in E.
  destruct (_fetch_rate_from_api from to c0) as [[api|e] c2] eqn:E2;
    [|discriminate E].
  destruct (quiet_fetch_rate_from_api _ _ _ _ _ E2)
    as (T2 & N2 & K2 & F2 & R2 & rest2 & L2 & A2).
  assert (Hfallback :
    use_fallback_tier from to c2 = (Ok o, c1) ->
    (utcnow c1 = utcnow c /\ requests_get c1 = requests_get c /\
     api_key c1 = api_key c /\ fallback_rates c1 = fallback_rates c) /\
    (exchange_rates c1 = exchange_rates c \/
     exists r, o = Some r /\ truthy r = true /\
               exchange_rates c1 = (exchange_rates c ++ [api_row from to r c])%list) /\
    exists rest,
      trace c1 = (trace c ++ DbQuery from to :: rest)%list /\
      List.Forall (allowed_event (api_key c)) rest).
  { intros E3.
    destruct (quiet_use_fallback_tier _ _ _ _ _ E3)
      as (T3 & N3 & K3 & F3 & R3 & rest3 & L3 & A3).
    subst c0. simpl in *. repeat split; try congruence.
    - left. congruence.
    - exists (rest2 ++ rest3)%list. split.
      + rewrite L3, L2, <- !List.app_assoc. reflexivity.
      + apply List.Forall_app. split; [exact A2|]. rewrite <- K2. exact A3. }
  destruct api as [r|]; [|exact (Hfallback E)].
  destruct (truthy r) eqn:Tr; [|exact (Hfallback E)].
  unfold _cache_rate, ret in E. injection E as <- <-.
  subst c0. simpl in *. repeat split; try congruence.
  - right. exists r. repeat split; [exact Tr|].
    unfold api_row. rewrite R2, T2. reflexivity.
  - exists (rest2 ++ [DbInsert (api_row from to r c)])%list. split.
    + unfold api_row. rewrite L2, T2, <- !List.app_assoc. reflexivity.
    + apply List.Forall_app. split; [exact A2|]. constructor; [exact I|constructor].
Qed.

Lemma resolution_effects_witness :
  exchange_rates (snd (get_exchange_rate "EUR" "USD" online))
  = [api_row "EUR" "USD" 1.08%float online] /\
  exists rest,
    trace (snd (get_exchange_rate "EUR" "USD" online))
    = (trace online ++ DbQuery "EUR" "USD" :: rest)%list /\
    List.Forall (allowed_event (api_key online)) rest.
Proof.
  destruct (resolution_effects "EUR" "USD" online
              (snd (get_exchange_rate "EUR" "USD" online)) (Some 1.08%float))
    as (_ & _ & Htrace).
  - reflexivity.
  - split; [reflexivity|exact Htrace].
Defined.

(** X9.  A rate fetched from a provider is served from the cache
    afterwards: when the stored rows of the pair are older than the call
    that stored the new row, any resolution of the same pair within the
    next 24 hours returns the same rate after one database query, with no
    HTTP request and no new row. *)
Theorem fetched_rate_is_served_from_cache
        (from to : string) (c c1 : Converter) (r : float) (later : Z) :
  (forall e, In e (exchange_rates c) -> of_pair from to e ->
             (date e < utcnow c)%Z) ->
  get_exchange_rate from to c = (Ok (Some r), c1) ->
  exchange_rates c1 <> exchange_rates c ->
  (utcnow c <= later <= utcnow c + timedelta_hours cache_duration_hours)%Z ->
  get_exchange_rate from to (at_time later c1)
  = (Ok (Some r), log (DbQuery from to) (at_time later c1)).
Proof.
  intros Hold E Hstored Hlater.
  destruct (resolution_effects _ _ _ _ _ E) as (_ & Hrows & _).
  destruct Hrows as [Hsame|(r' & [= <-] & Tr & Hrows)]; [contradiction|].
  destruct (cached_rate_is_newest_fresh from to (at_time later c1))
    as (o & E2 & Hnone & Hsome).
  assert (Hrow : In (api_row from to r c) (exchange_rates (at_time later c1)))
    by (simpl; rewrite Hrows; apply List.in_or_app; right; left; reflexivity).
  assert (Hpair : of_pair from to (api_row from to r c)) by (split; reflexivity).
  destruct o as [r2|].
  - destruct (Hsome r2 eq_refl) as (e & Hin & Hp & _ & Hr & Hmax).
    specialize (Hmax _ Hrow Hpair). simpl in Hin, Hmax. rewrite Hrows in Hin.
    apply List.in_app_or in Hin. destruct Hin as [Hin|[<-|[]]].
    + specialize (Hold e Hin Hp). lia.
    + simpl in Hr. subst r2. unfold get_exchange_rate.
      rewrite (bind_Ok _ _ _ _ _ E2). simpl. rewrite Tr. reflexivity.
  - exfalso. apply (proj1 Hnone eq_refl _ Hrow Hpair).
    unfold fresh. simpl. lia.
Qed.

Lemma fetched_rate_is_served_from_cache_witness :
  get_exchange_rate "EUR" "USD"
    (at_time (utcnow online + timedelta_hours 5)
             (snd (get_exchange_rate "EUR" "USD" online)))
  = (Ok (Some 1.08%float),
     log (DbQuery "EUR" "USD")
         (at_time (utcnow online + timedelta_hours 5)
                  (snd (get_exchange_rate "EUR" "USD" online)))).
Proof.
  apply (fetched_rate_is_served_from_cache "EUR" "USD" online).
  - intros e [].
  - reflexivity.
  - intros H. discriminate H.
  - split; vm_compute; discriminate.
Defined.

(** *** The table refresh *)

Lemma update_each (curs : list string) :
  forall c, exists c',
    for_each update_one curs c = (Ok tt, c') /\
    exchange_rates c' = exchange_rates c /\
    forall cur,
      fallback_rates c' !! cur =
      if existsb (String.eqb cur) curs then
        match newest (pair_rows cur "USD" (exchange_rates c)) with
        | Some latest_rate => Some (rate latest_rate)
        | None => fallback_rates c !! cur
        end
      else fallback_rates c !! cur.
Proof.
  induction curs as [|cur0 curs IH]; intros c; simpl.
  - exists c. auto.
  - unfold bind, update_one.
    destruct (newest (pair_rows cur0 "USD" (exchange_rates c))) as [latest|] eqn:N.
    + destruct (IH (set_fallback cur0 (rate latest) (log (DbQuery cur0 "USD") c)))
        as (c' & E & Hrows & Htable).
      exists c'. split; [exact E|]. split; [exact Hrows|].
      intros cur. rewrite Htable. simpl.
      destruct (String.eqb_spec cur cur0) as [->|Hne]; simpl.
      * rewrite N, lookup_insert_eq.
        destruct (existsb (String.eqb cur0) curs); reflexivity.
      * rewrite lookup_insert_ne by congruence. reflexivity.
    + destruct (IH (log (DbQuery cur0 "USD") c)) as (c' & E & Hrows & Htable).
      exists c'. split; [exact E|]. split; [exact Hrows|].
      intros cur. rewrite Htable. simpl.
      destruct (String.eqb_spec cur cur0) as [->|Hne]; simpl; [|reflexivity].
      rewrite N. destruct (existsb (String.eqb cur0) curs); reflexivity.
Qed.

Lemma update_fallback_rates_table_rows (c : Converter) :
  exists c',
    update_fallback_rates c = (Ok tt, c') /\ exchange_rates c' = exchange_rates c.
Proof.
  destruct (update_each tracked_currencies c) as (c' & E & Hrows & _). eauto.
Qed.

(** X10.  [update_fallback_rates] always returns normally and leaves the
    stored rows alone.  Afterwards each of the six tracked currencies
    that has a stored rate to USD, of whatever age, holds the rate of its
    newest stored row; every other entry of the table, USD included, is
    as before. *)
Theorem update_fallback_rates_takes_newest (c : Converter) :
  exists c',
    update_fallback_rates c = (Ok tt, c') /\
    exchange_rates c' = exchange_rates c /\
    forall cur,
      fallback_rates c' !! cur =
      if tracked cur then
        match newest (pair_rows cur "USD" (exchange_rates c)) with
        | Some latest_rate => Some (rate latest_rate)
        | None => fallback_rates c !! cur
        end
      else fallback_rates c !! cur.
Proof. exact (update_each tracked_currencies c). Qed.

(** *** Currencies of the built-in table *)

Lemma resolution_succeeds (from to : string) (c : Converter) (q : float) :
  _get_fallback_rate_in (fallback_rates c) from to = Ok (Some q) ->
  truthy q = true ->
  exists r c', get_exchange_rate from to c = (Ok (Some r), c').
Proof.
  intros Hq Tq.
  assert (Hapi : forall c0, fallback_rates c0 = fallback_rates c ->
            exists r c', try_api_tier from to c0 = (Ok (Some r), c')).
  { intros c0 F0. unfold try_api_tier, bind, _fetch_rate_from_api.
    destruct (try_apis_spec apis from to apis_return) as [Ht _].
    destruct (Ht c0) as (api & c2 & E2). rewrite E2.
    destruct (quiet_fetch_rate_from_api _ _ _ _ _ E2) as (_ & _ & _ & F2 & _).
    assert (Hfb : use_fallback_tier from to c2 = (Ok (Some q), c2)).
    { unfold use_fallback_tier, _get_fallback_rate, bind, ret.
      rewrite F2, F0, Hq. simpl. rewrite Tq. reflexivity. }
    destruct api as [r|]; [|eauto].
    destruct (truthy r) eqn:Tr; [|eauto].
    unfold _cache_rate, ret. eauto. }
  unfold get_exchange_rate, bind.
  destruct (_get_cached_rate from to c) as [[cached|e] c0] eqn:E0;
    [|unfold _get_cached_rate in E0; discriminate E0].
  destruct (quiet_cached_rate _ _ _ _ _ E0) as (_ & _ & _ & F0 & _).
  destruct cached as [r0|]; simpl; [|exact (Hapi c0 F0)].
  destruct (truthy r0) eqn:T0; [unfold ret; eauto | exact (Hapi c0 F0)].
Qed.

(** X11.  With the built-in fallback table every currency of that table
    converts in every state of the cache and of the providers: the result
    of [convert_to_usd] is never none.  In particular the currency that
    [get_currency_for_region] assigns to any region always converts. *)
Theorem builtin_currencies_always_convert
        (amount : float) (c : Converter) :
  fallback_rates c = initial_fallback_rates ->
  (forall cur, is_Some (initial_fallback_rates !! cur) ->
     exists usd c', convert_to_usd amount cur c = (Ok (Some usd), c')) /\
  (forall region,
     exists usd c',
       convert_to_usd amount (get_currency_for_region region) c = (Ok (Some usd), c')).
Proof.
  intros Htable.
  assert (Hcur : forall cur, is_Some (initial_fallback_rates !! cur) ->
            exists usd c', convert_to_usd amount cur c = (Ok (Some usd), c')).
  { intros cur [fr Hfr].
    destruct (String.eqb_spec cur "USD") as [->|Hne].
    { exists amount, c. reflexivity. }
    assert (Hq : exists q, _get_fallback_rate_in initial_fallback_rates cur "USD"
                           = Ok (Some q) /\ truthy q = true).
    { unfold initial_fallback_rates in Hfr.
      repeat (apply lookup_insert_Some in Hfr;
              destruct Hfr as [[<- _]|[_ Hfr]];
              [eexists; split; reflexivity|]).
      rewrite lookup_empty in Hfr. discriminate Hfr. }
    destruct Hq as (q & Hq & Tq). rewrite <- Htable in Hq.
    destruct (resolution_succeeds cur "USD" c q Hq Tq) as (r & c' & E).
    exists (amount / r)%float, c'.
    exact (convert_after_resolution amount cur c c' (Some r) Hne E). }
  split; [exact Hcur|].
  intros region. apply Hcur. unfold get_currency_for_region.
  repeat (rewrite lookup_insert;
          destruct (decide _); [eexists; reflexivity|]).
  rewrite lookup_empty. eexists. reflexivity.
Qed.

Lemma builtin_currencies_always_convert_witness :
  exists usd c',
    convert_to_usd 80000%float (get_currency_for_region "India") zero_cached
    = (Ok (Some usd), c').
Proof.
  exact (proj2 (builtin_currencies_always_convert 80000%float zero_cached eq_refl)
               "India").
Defined.

(** X12.  The refresh of [run_maintenance_tasks] ([main.py]) does not
    reach any conversion: it runs on a converter of its own and leaves
    the database rows as they are, and every converter is constructed
    with the built-in table, so a converter constructed afterwards
    behaves as one constructed before. *)
Theorem maintenance_refresh_is_local
        (now later : Z) (net : request -> http_result)
        (rows : list ExchangeRate) (key : option string) :
  exists c',
    update_fallback_rates (new_converter now net rows key) = (Ok tt, c') /\
    forall amount cur,
      convert_to_usd amount cur (new_converter later net (exchange_rates c') key)
      = convert_to_usd amount cur (new_converter later net rows key).
Proof.
  destruct (update_fallback_rates_table_rows (new_converter now net rows key))
    as (c' & E & Hrows).
  exists c'. split; [exact E|]. intros amount cur. rewrite Hrows. reflexivity.
Qed.

(** *** The order of the providers *)

Lemma exchangerate_api_answer from to c :
  _fetch_from_exchangerate_api from to c
  = (Ok (answer c to (ExchangeRateApi from)), log (HttpGet (ExchangeRateApi from)) c).
Proof.
  unfold _fetch_from_exchangerate_api, bind, http, answer.
  destruct (requests_get c (ExchangeRateApi from)); reflexivity.
Qed.

Lemma free_forex_api_answer from to c :
  _fetch_from_free_forex_api from to c
  = (Ok (answer c to (ExchangeRateHost from to)),
     log (HttpGet (ExchangeRateHost from to)) c).
Proof.
  unfold _fetch_from_free_forex_api, bind, http, answer.
  destruct (requests_get c (ExchangeRateHost from to)) as [|data]; [reflexivity|].
  destruct (js_success data); reflexivity.
Qed.

Lemma fixer_io_answer from to c key :
  api_key c = Some key -> String.eqb key "" = false ->
  _fetch_from_fixer_io from to c
  = (Ok (answer c to (FixerIo key from to)), log (HttpGet (FixerIo key from to)) c).
Proof.
  intros Hkey Hne. unfold _fetch_from_fixer_io, bind, http, answer.
  rewrite Hkey, Hne.
  destruct (requests_get c (FixerIo key from to)) as [|data]; [reflexivity|].
  destruct (js_success data); reflexivity.
Qed.

(** X21.  [_fetch_rate_from_api] asks exchangerate-api.com, then
    fixer.io (only with a configured, non-empty key), then
    exchangerate.host, in this order; it returns the first nonzero
    answer and sends no request after it; and it returns none, after all
    of these requests, when no answer is nonzero. *)
Theorem providers_are_asked_in_order (from to : string) (c : Converter) :
  _fetch_rate_from_api from to c
  = (Ok (fst (first_answer c to (provider_requests c from to))),
     after_requests (snd (first_answer c to (provider_requests c from to))) c).
Proof.
  unfold _fetch_rate_from_api, apis, provider_requests, after_requests.
  cbn [try_apis first_answer].
  rewrite (bind_Ok _ _ _ _ _ (exchangerate_api_answer from to c)).
  destruct (opt_truthy (answer c to (ExchangeRateApi from))); [reflexivity|].
  set (c1 := log (HttpGet (ExchangeRateApi from)) c).
  assert (Hlast : forall c2, requests_get c2 = requests_get c ->
            (r <- _fetch_from_free_forex_api from to ;;
             if opt_truthy r then ret r else ret None) c2
            = (Ok (fst (first_answer c to [ExchangeRateHost from to])),
               after_requests (snd (first_answer c to [ExchangeRateHost from to])) c2)).
  { intros c2 Hnet.
    rewrite (bind_Ok _ _ _ _ _ (free_forex_api_answer from to c2)).
    unfold after_requests. cbn [first_answer].
    assert (Ha : answer c2 to (ExchangeRateHost from to)
                 = answer c to (ExchangeRateHost from to))
      by (unfold answer; rewrite Hnet; reflexivity).
    rewrite Ha.
    destruct (opt_truthy (answer c to (ExchangeRateHost from to))); reflexivity. }
  destruct (api_key c) as [key|] eqn:Hkey;
    [destruct (String.eqb key "") eqn:Hne|].
  - assert (E : _fetch_from_fixer_io from to c1 = (Ok None, c1))
      by (unfold _fetch_from_fixer_io; cbn [api_key c1 log]; rewrite Hkey, Hne;
          reflexivity).
    rewrite (bind_Ok _ _ _ _ _ E). cbn [opt_truthy app].
    rewrite (Hlast c1 eq_refl). unfold after_requests. reflexivity.
  - rewrite (bind_Ok _ _ _ _ _ (fixer_io_answer from to c1 key Hkey Hne)).
    cbn [app first_answer].
    change (answer c1 to (FixerIo key from to)) with (answer c to (FixerIo key from to)).
    destruct (opt_truthy (answer c to (FixerIo key from to))); [reflexivity|].
    rewrite (Hlast (log (HttpGet (FixerIo key from to)) c1) eq_refl).
    unfold after_requests. reflexivity.
  - assert (E : _fetch_from_fixer_io from to c1 = (Ok None, c1))
      by (unfold _fetch_from_fixer_io; cbn [api_key c1 log]; rewrite Hkey;
          reflexivity).
    rewrite (bind_Ok _ _ _ _ _ E). cbn [opt_truthy app].
    rewrite (Hlast c1 eq_refl). unfold after_requests. reflexivity.
Qed.

End CacheFacts.

(* ------------------------------------------------------------------ *)
(** ** Facts about the other producers of insights and retention *)

Module InsightsFacts.
Import Analyzer Insights Spec InsightsSpec FloatFacts AnalyzerFacts.

(** *** [analyze_price_trends] *)

Lemma combination_eqb_eq (a b : Z * Z * string) : combination_eqb a b = true <-> a = b.
Proof.
  destruct a as [[a1 a2] a3], b as [[b1 b2] b3]. unfold combination_eqb. simpl.
  rewrite !andb_true_iff, !Z.eqb_eq, String.eqb_eq. split.
  - intros [[-> ->] ->]. reflexivity.
  - intros [= -> -> ->]. auto.
Qed.

Lemma distinct_In l x : In x (distinct l) <-> In x l.
Proof.
  induction l as [|y l IH]; simpl; [tauto|].
  rewrite List.filter_In, IH. split.
  - intros [->|[H _]]; auto.
  - intros [->|H]; auto. destruct (combination_eqb y x) eqn:E.
    + apply combination_eqb_eq in E. auto.
    + right. auto.
Qed.

Lemma distinct_NoDup l : List.NoDup (distinct l).
Proof.
  induction l as [|a l IH]; simpl; constructor.
  - rewrite List.filter_In. intros [_ H].
    rewrite (proj2 (combination_eqb_eq a a) eq_refl) in H. discriminate H.
  - apply List.NoDup_filter. exact IH.
Qed.

Lemma sparse_is_none s pm pf cond days :
  (length (qualifying s pm pf cond days) < 2)%nat ->
  _analyze_single_combination s pm pf cond days = None.
Proof.
  intros Hlt. unfold _analyze_single_combination.
  rewrite (Permutation_length (order_by_desc_perm _)).
  apply Nat.ltb_lt in Hlt. rewrite Hlt. reflexivity.
Qed.

Lemma analyses_of_combinations s days (l : list (Z * Z * string)) :
  referential_integrity s ->
  (forall k, In k l -> exists p, In p (price_records s) /\ combination p = k) ->
  List.map Some
    (flat_map (fun '(phone_model_id0, platform_id0, condition0) =>
                 match _analyze_single_combination
                         s phone_model_id0 platform_id0 condition0 days with
                 | Some analysis => [analysis]
                 | None => []
                 end) l)
  = List.map (analysis_of s days)
             (List.filter (fun k => (2 <=? observations s days k)%nat) l).
Proof.
  intros Href. induction l as [|[[pm pf] cond] l IH]; intros Hl; [reflexivity|].
  assert (IH' := IH (fun k Hk => Hl k (or_intror Hk))). clear IH.
  cbn [flat_map List.filter]. rewrite List.map_app, IH'.
  change (observations s days (pm, pf, cond))
    with (length (qualifying s pm pf cond days)).
  destruct (Nat.leb_spec 2 (length (qualifying s pm pf cond days))) as [Hge|Hlt].
  - destruct (Hl (pm, pf, cond)) as (p & Hp & Ek); [left; reflexivity|].
    injection Ek as <- <- <-.
    destruct (Href p Hp) as [Hpm Hpf].
    destruct (analysis_exists s _ _ _ days Hge Hpm Hpf) as [a Ha].
    rewrite Ha. cbn [List.map app]. f_equal.
    unfold analysis_of. cbn [fst snd]. symmetry. exact Ha.
  - rewrite (sparse_is_none _ _ _ _ _ Hlt). reflexivity.
Qed.

(** X13.  In a store whose records name stored phone models and
    platforms, [analyze_price_trends] visits every (phone model,
    platform, condition) that has a record exactly once and returns, in
    the order of the visit, the analyses of exactly the combinations
    with at least 2 observations that count for the window. *)
Theorem analyze_price_trends_covers_observed_combinations
        (s : Session) (days_back : Z) :
  referential_integrity s ->
  List.NoDup (combinations s) /\
  (forall k, In k (combinations s) <->
             exists p, In p (price_records s) /\ combination p = k) /\
  List.map Some (analyze_price_trends s days_back)
  = List.map (analysis_of s days_back)
             (List.filter (fun k => (2 <=? observations s days_back k)%nat)
                          (combinations s)).
Proof.
  intros Href.
  assert (Hin : forall k, In k (combinations s) <->
                          exists p, In p (price_records s) /\ combination p = k).
  { intros k. unfold combinations. rewrite distinct_In, List.in_map_iff.
    split; intros (p & H1 & H2); exists p; auto. }
  split; [apply distinct_NoDup|]. split; [exact Hin|].
  apply analyses_of_combinations; [exact Href|]. intros k Hk. apply Hin. exact Hk.
Qed.

Lemma analyze_price_trends_covers_observed_combinations_witness :
  List.NoDup (combinations falling) /\
  (forall k, In k (combinations falling) <->
             exists p, In p (price_records falling) /\ combination p = k) /\
  List.map Some (analyze_price_trends falling 30)
  = List.map (analysis_of falling 30)
             (List.filter (fun k => (2 <=? observations falling 30 k)%nat)
                          (combinations falling)).
Proof.
  apply (analyze_price_trends_covers_observed_combinations falling 30).
  apply session_with_integrity. simpl.
  intros p H. repeat (destruct H as [<-|H]; [split; [reflexivity|left; reflexivity]|]).
  destruct H.
Defined.

(** *** [cleanup_old_records] *)

Lemma filter_filter_implied {A} (f g : A -> bool) (l : list A) :
  (forall x, In x l -> f x = true -> g x = true) ->
  List.filter f (List.filter g l) = List.filter f l.
Proof.
  induction l as [|x l IH]; intros H; [reflexivity|]. simpl.
  destruct (g x) eqn:Eg; simpl.
  - rewrite IH by (intros y Hy; apply H; right; exact Hy). reflexivity.
  - rewrite IH by (intros y Hy; apply H; right; exact Hy).
    destruct (f x) eqn:Ef; [|reflexivity].
    rewrite (H x (or_introl eq_refl) Ef) in Eg. discriminate Eg.
Qed.

Lemma filter_split_length {A} (f : A -> bool) (l : list A) :
  (length (List.filter (fun x => negb (f x)) l) + length (List.filter f l)
   = length l)%nat.
Proof.
  induction l as [|x l IH]; [reflexivity|]. simpl.
  destruct (f x); simpl; lia.
Qed.

(** X16.  The retention job deletes exactly the records older than
    [keep_days] and reports their number; a second run at the same time
    deletes nothing; and no analysis over a window of at most
    [keep_days] days changes. *)
Theorem cleanup_keeps_recent_analyses
        (s : Session) (keep_days days_back : Z)
        (pm pf : Z) (cond : string) :
  (days_back <= keep_days)%Z ->
  let s' := fst (cleanup_old_records s keep_days) in
  let deleted_count := snd (cleanup_old_records s keep_days) in
  (length (price_records s') + deleted_count = length (price_records s))%nat /\
  (forall p, In p (price_records s') <->
             In p (price_records s) /\
             (utcnow s - timedelta_days keep_days <= scrape_timestamp p)%Z) /\
  cleanup_old_records s' keep_days = (s', 0%nat) /\
  _analyze_single_combination s' pm pf cond days_back
  = _analyze_single_combination s pm pf cond days_back.
Proof.
  intros Hdays. simpl.
  set (cutoff := (utcnow s - timedelta_days keep_days)%Z).
  set (kept := List.filter (fun p => negb (scrape_timestamp p <? cutoff)%Z)
                           (price_records s)).
  assert (Hkept : forall p, In p kept <->
                            In p (price_records s) /\ (cutoff <= scrape_timestamp p)%Z).
  { intros p. unfold kept. rewrite List.filter_In, negb_true_iff, Z.ltb_ge. tauto. }
  split; [apply (filter_split_length (fun p => (scrape_timestamp p <? cutoff)%Z))|].
  split; [exact Hkept|]. split.
  - unfold cleanup_old_records. simpl. fold cutoff. fold kept. f_equal.
    + f_equal. unfold kept at 1.
      apply filter_filter_implied. intros; assumption.
    + assert (E : List.filter (fun p => (scrape_timestamp p <? cutoff)%Z) kept = []).
      { destruct (List.filter _ kept) as [|q l] eqn:Eq; [reflexivity|exfalso].
        assert (Hq : In q (List.filter (fun p => (scrape_timestamp p <? cutoff)%Z) kept))
          by (rewrite Eq; left; reflexivity).
        apply List.filter_In in Hq. destruct Hq as [Hq Hlt].
        apply Hkept in Hq. apply Z.ltb_lt in Hlt. lia. }
      rewrite E. reflexivity.
  - unfold _analyze_single_combination.
    assert (Eq : qualifying
                   {| price_records := kept; phone_models := phone_models s;
                      platforms := platforms s; utcnow := utcnow s |}
                   pm pf cond days_back
                 = qualifying s pm pf cond days_back).
    { unfold qualifying. simpl. unfold kept. apply filter_filter_implied.
      intros p _ H. apply andb_prop in H. destruct H as [H _].
      apply andb_prop in H. destruct H as [_ H]. apply Z.leb_le in H.
      apply negb_true_iff, Z.ltb_ge. unfold cutoff, timedelta_days in *. lia. }
    rewrite Eq. reflexivity.
Qed.

(** *** Floats that are numbers *)

Lemma eqb_leb (x y : float) :
  (x =? y)%float = true -> (x <=? y)%float = true /\ (y <=? x)%float = true.
Proof.
  rewrite FloatAxioms.eqb_spec, !leb_spec. unfold SFeqb, SFleb.
  rewrite (SFcompare_antisym (Prim2SF x) (Prim2SF y)).
  destruct (SFcompare (Prim2SF x) (Prim2SF y)) as [[ | | ]|]; simpl;
    intros H; try discriminate H; auto.
Qed.

Lemma eqb_is_number (x y : float) : (x =? y)%float = true -> is_number x.
Proof.
  intros H. apply eqb_leb in H. destruct H as [_ H].
  exact (leb_refl_right _ _ H).
Qed.

Lemma leb_refl_left (x t : float) :
  (x <=? t)%float = true -> (x <=? x)%float = true.
Proof.
  rewrite !leb_spec. unfold SFleb.
  destruct (Prim2SF x) as [s|s| |s m e], (Prim2SF t) as [s'|s'| |s' m' e']; simpl;
    try discriminate; try reflexivity; try (destruct s; reflexivity);
    intros _; destruct s; rewrite Z.compare_refl, Pos.compare_cont_refl; reflexivity.
Qed.

(** Nothing is below NaN. *)
Lemma ltb_not_number (y m : float) :
  (m <=? m)%float = false -> (y <? m)%float = false.
Proof.
  intros Hm. destruct (y <? m)%float eqn:E; [|reflexivity].
  apply ltb_leb in E. apply leb_refl_right in E. congruence.
Qed.

(** *** Lists in order *)

Lemma filter_Permutation {A} (f : A -> bool) (l l' : list A) :
  Permutation l l' -> Permutation (List.filter f l) (List.filter f l').
Proof.
  induction 1 as [|x l l' _ IH|x y l|l1 l2 l3 _ IH1 _ IH2]; simpl.
  - constructor.
  - destruct (f x); [apply perm_skip|]; exact IH.
  - destruct (f x), (f y); try reflexivity. apply perm_swap.
  - etransitivity; eassumption.
Qed.

Lemma filter_StronglySorted {A} (R : A -> A -> Prop) (f : A -> bool) (l : list A) :
  StronglySorted R l -> StronglySorted R (List.filter f l).
Proof.
  induction 1 as [|x l _ IH Hx]; simpl; [constructor|].
  destruct (f x); [|exact IH]. constructor; [exact IH|].
  apply List.Forall_forall. intros y Hy. apply List.filter_In in Hy.
  rewrite List.Forall_forall in Hx. apply Hx. tauto.
Qed.

Lemma firstn_incl {A} (n : nat) (l : list A) (y : A) :
  In y (firstn n l) -> In y l.
Proof.
  revert n. induction l as [|x l IH]; intros [|n]; simpl; try tauto.
  intros [->|H]; [left; reflexivity|right; exact (IH n H)].
Qed.

Lemma firstn_StronglySorted {A} (R : A -> A -> Prop) (n : nat) (l : list A) :
  StronglySorted R l -> StronglySorted R (firstn n l).
Proof.
  intros H. revert n. induction H as [|x l _ IH Hx]; intros [|n]; simpl;
    try constructor; [apply IH|].
  apply List.Forall_forall. intros y Hy. apply firstn_incl in Hy.
  rewrite List.Forall_forall in Hx. auto.
Qed.

(** A list in order, relabelled, is in order. *)
Lemma Forall2_StronglySorted {A B} (R : A -> A -> Prop) (Q : B -> B -> Prop)
      (rel : A -> B -> Prop) (l : list A) (r : list B) :
  (forall a a' b b', rel a b -> rel a' b' -> R a a' -> Q b b') ->
  Forall2 rel l r -> StronglySorted R l -> StronglySorted Q r.
Proof.
  intros Hrel H. induction H as [|a b l r Hab H IH]; intros Hs; [constructor|].
  apply StronglySorted_inv in Hs. destruct Hs as [Hs Ha].
  constructor; [apply IH; exact Hs|].
  clear IH Hs. induction H as [|a' b' l r Hab' _ IH]; [constructor|].
  inversion Ha; subst. constructor; [|apply IH; assumption].
  eapply Hrel; eassumption.
Qed.

(** *** [find_significant_price_changes] *)

Lemma insert_by_change_perm x l : Permutation (insert_by_change x l) (x :: l).
Proof.
  induction l as [|y l IH]; simpl; [reflexivity|].
  destruct (change_key x <? change_key y)%float; [|reflexivity].
  rewrite IH. apply perm_swap.
Qed.

Lemma sort_by_change_perm l : Permutation (fold_right insert_by_change [] l) l.
Proof.
  induction l as [|x l IH]; [reflexivity|].
  simpl. rewrite insert_by_change_perm. apply perm_skip. exact IH.
Qed.

Lemma recent_trends_perm s price_trends min_change :
  Permutation (recent_trends s price_trends min_change)
              (List.filter (is_significant s min_change) price_trends).
Proof. apply sort_by_change_perm. Qed.

Lemma insert_by_change_sorted x l :
  is_number (change_key x) ->
  List.Forall (fun y => is_number (change_key y)) l ->
  StronglySorted change_ge l ->
  StronglySorted change_ge (insert_by_change x l).
Proof.
  intros Hx Hl Hs. induction Hs as [|y l Hs IH Hy]; simpl.
  - constructor; constructor.
  - inversion Hl as [|? ? Hyy Hl']; subst.
    destruct (change_key x <? change_key y)%float eqn:E.
    + constructor; [apply IH; exact Hl'|].
      apply (Permutation_Forall (Permutation_sym (insert_by_change_perm x l))).
      constructor; [|exact Hy]. unfold change_ge. apply ltb_leb. exact E.
    + assert (Hyx : change_ge x y) by (apply not_ltb_leb; assumption).
      constructor; [constructor; assumption|].
      constructor; [exact Hyx|].
      eapply List.Forall_impl; [|exact Hy]. intros z Hz. unfold change_ge in *.
      eapply leb_trans; eassumption.
Qed.

Lemma significant_change s min_change t :
  is_significant s min_change t = true ->
  exists change, pt_price_change_percent t = Some change /\
                 change_key t = PrimFloat.abs change /\
                 (min_change <=? PrimFloat.abs change)%float = true.
Proof.
  unfold is_significant, change_key, abs_change. intros H.
  apply andb_prop in H. destruct H as [_ H].
  destruct (pt_price_change_percent t) as [change|]; [|discriminate H].
  exists change. auto.
Qed.

Lemma recent_trends_sorted s price_trends min_change :
  StronglySorted change_ge (recent_trends s price_trends min_change).
Proof.
  unfold recent_trends.
  assert (H : List.Forall (fun t => is_number (change_key t))
                (List.filter (is_significant s min_change) price_trends)).
  { apply List.Forall_forall. intros t Ht. apply List.filter_In in Ht.
    destruct (significant_change _ _ _ (proj2 Ht)) as (change & _ & -> & Hmin).
    exact (leb_refl_right _ _ Hmin). }
  induction H as [|x l Hx Hl IH]; [constructor|].
  simpl. apply insert_by_change_sorted; [exact Hx| |exact IH].
  exact (Permutation_Forall (Permutation_sym (sort_by_change_perm l)) Hl).
Qed.

Lemma reports_change_value s t i : reports_change s t i -> value i = change_key t.
Proof.
  intros (change & phone_model & platform & Hc & _ & _ & _ & _ & _ & _ & Hv & _).
  unfold change_key, abs_change. rewrite Hc. exact Hv.
Qed.

(** The loop: one insight per trend with stored references, in the
    order of the trends, unless one of them has no current price. *)
Lemma change_insights_spec s (l : list PriceTrend) :
  List.Forall (fun t => is_Some (pt_price_change_percent t)) l ->
  match change_insights s l with
  | Returned r =>
      Forall2 (reports_change s)
              (List.filter (fun t => references_stored
                                       s (pt_phone_model_id t) (pt_platform_id t)) l) r /\
      List.Forall (fun t => references_stored
                              s (pt_phone_model_id t) (pt_platform_id t) = true ->
                            current_price_usd t <> None) l
  | TypeError =>
      exists t, In t l /\
        references_stored s (pt_phone_model_id t) (pt_platform_id t) = true /\
        current_price_usd t = None
  end.
Proof.
  induction 1 as [|t l [change Hc] Hl IH]; simpl; [split; constructor|].
  destruct (references_stored s (pt_phone_model_id t) (pt_platform_id t)) eqn:Erefs.
  - unfold references_stored in Erefs.
    destruct (phone_models s !! pt_phone_model_id t) as [phone_model|] eqn:Epm;
      [|discriminate Erefs].
    destruct (platforms s !! pt_platform_id t) as [platform|] eqn:Epf;
      [|discriminate Erefs].
    rewrite Hc. destruct (current_price_usd t) as [usd|] eqn:Eusd.
    + destruct (change_insights s l) as [more|].
      * destruct IH as [IH1 IH2]. split.
        -- constructor; [|exact IH1].
           exists change, phone_model, platform. simpl. repeat split; assumption.
        -- constructor; [|exact IH2]. intros _. rewrite Eusd. discriminate.
      * destruct IH as (t' & Hin & Hrefs & Hnone). exists t'. auto.
    + exists t. unfold references_stored. rewrite Epm, Epf. auto.
  - assert (Hskip :
      match change_insights s l with
      | Returned r =>
          Forall2 (reports_change s)
                  (List.filter (fun t => references_stored
                                           s (pt_phone_model_id t) (pt_platform_id t)) l) r /\
          List.Forall (fun t => references_stored
                                  s (pt_phone_model_id t) (pt_platform_id t) = true ->
                                current_price_usd t <> None) (t :: l)
      | TypeError =>
          exists t0, (t = t0 \/ In t0 l) /\
            references_stored s (pt_phone_model_id t0) (pt_platform_id t0) = true /\
            current_price_usd t0 = None
      end).
    { destruct (change_insights s l) as [more|].
      - destruct IH as [IH1 IH2]. split; [exact IH1|].
        constructor; [|exact IH2]. intros H. rewrite Erefs in H. discriminate H.
      - destruct IH as (t' & Hin & Hrefs & Hnone). exists t'. auto. }
    unfold references_stored in Erefs.
    destruct (phone_models s !! pt_phone_model_id t); [|exact Hskip].
    destruct (platforms s !! pt_platform_id t); [discriminate Erefs|exact Hskip].
Qed.

(** X14.  [find_significant_price_changes] raises [TypeError] exactly
    when a selected trend (weekly, dated within the last 7 days, with a
    change of at least the threshold in size) of a stored phone model and
    platform has no current price.  Otherwise it returns one insight per
    selected trend with stored references and nothing else: the value is
    the size of the change and is at least the threshold, the type is
    [price_drop] for a negative change and [price_increase] otherwise,
    the confidence is 0.9, and the list is ordered by value, highest
    first. *)
Theorem significant_changes_spec
        (s : Session) (price_trends : list PriceTrend) (min_change_percent : float) :
  (find_significant_price_changes s price_trends min_change_percent = TypeError <->
   exists t, In t price_trends /\
     is_reported_change s min_change_percent t = true /\
     current_price_usd t = None) /\
  forall insights,
    find_significant_price_changes s price_trends min_change_percent
    = Returned insights ->
    StronglySorted value_ge insights /\
    List.Forall (fun i => (min_change_percent <=? value i)%float = true) insights /\
    exists reported,
      Permutation reported
        (List.filter (is_reported_change s min_change_percent) price_trends) /\
      Forall2 (reports_change s) reported insights.
Proof.
  unfold find_significant_price_changes.
  pose proof (recent_trends_perm s price_trends min_change_percent) as Hperm.
  pose proof (recent_trends_sorted s price_trends min_change_percent) as Hsorted.
  set (trends := recent_trends s price_trends min_change_percent) in *.
  assert (Hin : forall t, In t trends <->
                  In t price_trends /\ is_significant s min_change_percent t = true).
  { intros t. rewrite <- List.filter_In. split; apply Permutation_in;
      [exact Hperm|exact (Permutation_sym Hperm)]. }
  assert (Hchange : List.Forall (fun t => is_Some (pt_price_change_percent t)) trends).
  { apply List.Forall_forall. intros t Ht. apply Hin in Ht.
    destruct (significant_change _ _ _ (proj2 Ht)) as (change & -> & _). eauto. }
  pose proof (change_insights_spec s trends Hchange) as Hspec.
  set (refs := fun t => references_stored s (pt_phone_model_id t) (pt_platform_id t))
    in *.
  split.
  - split.
    + intros E. rewrite E in Hspec. destruct Hspec as (t & Ht & Hrefs & Hnone).
      apply Hin in Ht. exists t. split; [tauto|]. split; [|exact Hnone].
      unfold is_reported_change. apply andb_true_intro.
      split; [tauto|exact Hrefs].
    + intros (t & Ht & Hrep & Hnone).
      unfold is_reported_change in Hrep. apply andb_prop in Hrep.
      destruct (change_insights s trends) as [r|]; [exfalso|reflexivity].
      destruct Hspec as [_ Hall]. rewrite List.Forall_forall in Hall.
      apply (Hall t); [apply Hin|apply Hrep|exact Hnone]. tauto.
  - intros insights E. rewrite E in Hspec. destruct Hspec as [Hrel _].
    assert (Hvalue : forall t i, In t (List.filter refs trends) ->
                       reports_change s t i ->
                       value i = change_key t /\
                       (min_change_percent <=? value i)%float = true).
    { intros t i Ht (change & phone_model & platform & Hc & _ & _ & _ & _ & _ & _ & Hv & _).
      apply List.filter_In in Ht. destruct Ht as [Ht _]. apply Hin in Ht.
      destruct (significant_change _ _ _ (proj2 Ht)) as (change' & Hc' & Hk & Hmin).
      rewrite Hc in Hc'. injection Hc' as Echange. subst change'.
      rewrite Hv, Hk. auto. }
    split; [|split].
    + apply (Forall2_StronglySorted change_ge value_ge (reports_change s)
               (List.filter refs trends) insights);
        [|exact Hrel|apply filter_StronglySorted; exact Hsorted].
      intros t t' i i' Hti Hti' Hge. unfold value_ge, change_ge in *.
      rewrite (reports_change_value _ _ _ Hti), (reports_change_value _ _ _ Hti').
      exact Hge.
    + clear E. induction Hrel as [|t i l r Hti Hrel IH]; [constructor|].
      constructor.
      * apply (Hvalue t i); [left; reflexivity|exact Hti].
      * apply IH. intros t' i' Hin'. apply Hvalue. right. exact Hin'.
    + exists (List.filter refs trends). split; [|exact Hrel].
      transitivity (List.filter refs
                      (List.filter (is_significant s min_change_percent) price_trends)).
      * apply filter_Permutation. exact Hperm.
      * clear. induction price_trends as [|t l IH]; [reflexivity|].
        unfold is_reported_change in *. simpl.
        destruct (is_significant s min_change_percent t); simpl; [|exact IH].
        fold (refs t). destruct (refs t); [apply perm_skip|]; exact IH.
Qed.

(** *** [find_best_deals] *)

Lemma fold_min_In (l : list float) (x : float) :
  fold_left (fun m y => if (y <? m)%float then y else m) l x = x \/
  In (fold_left (fun m y => if (y <? m)%float then y else m) l x) l.
Proof.
  revert x. induction l as [|y l IH]; intros x; simpl; [left; reflexivity|].
  destruct (y <? x)%float.
  - destruct (IH y) as [->|H]; auto.
  - destruct (IH x) as [->|H]; auto.
Qed.

Lemma fold_min_not_number (l : list float) (x : float) :
  (x <=? x)%float = false ->
  fold_left (fun m y => if (y <? m)%float then y else m) l x = x.
Proof.
  intros Hx. induction l as [|y l IH]; simpl; [reflexivity|].
  rewrite (ltb_not_number y x Hx). exact IH.
Qed.

Lemma fold_min_le (l : list float) (x : float) :
  is_number x ->
  is_number (fold_left (fun m y => if (y <? m)%float then y else m) l x) /\
  (fold_left (fun m y => if (y <? m)%float then y else m) l x <=? x)%float = true /\
  forall y, In y l -> is_number y ->
    (fold_left (fun m y => if (y <? m)%float then y else m) l x <=? y)%float = true.
Proof.
  revert x. induction l as [|y l IH]; intros x Hx; simpl.
  - repeat split; [exact Hx|exact Hx|]. intros y [].
  - destruct (y <? x)%float eqn:E.
    + assert (Hyx : (y <=? x)%float = true) by (apply ltb_leb; exact E).
      assert (Hy : is_number y) by exact (leb_refl_left _ _ Hyx).
      destruct (IH y Hy) as (Hm & Hmy & Hall). repeat split; [exact Hm| |].
      * eapply leb_trans; eassumption.
      * intros z [<-|Hz] Hnum; [exact Hmy|exact (Hall z Hz Hnum)].
    + destruct (IH x Hx) as (Hm & Hmx & Hall). repeat split; [exact Hm|exact Hmx|].
      intros z [<-|Hz] Hnum; [|exact (Hall z Hz Hnum)].
      eapply leb_trans; [exact Hmx|]. apply not_ltb_leb; assumption.
Qed.

Lemma usd_prices_In (l : list PriceRecord) (u : float) :
  In u (usd_prices l) <-> exists q, In q l /\ price_usd q = Some u.
Proof.
  unfold usd_prices. rewrite List.in_flat_map. split.
  - intros (q & Hq & Hu). exists q. split; [exact Hq|].
    destruct (price_usd q) as [v|]; [|destruct Hu].
    destruct Hu as [->|[]]. reflexivity.
  - intros (q & Hq & Hu). exists q. split; [exact Hq|]. rewrite Hu. left. reflexivity.
Qed.

(** The minimum of a group is the price of one of its recent offers and
    is at most every price of them that is a number. *)
Lemma min_price_spec s key m :
  min_price s key = Some m -> is_number m ->
  (exists q, In q (recent_offers s key) /\ price_usd q = Some m) /\
  (forall q u, In q (recent_offers s key) -> price_usd q = Some u ->
               is_number u -> (m <=? u)%float = true).
Proof.
  unfold min_price. fold (recent_offers s key).
  pose proof (usd_prices_In (recent_offers s key)) as Hin.
  destruct (usd_prices (recent_offers s key)) as [|x rest]; [discriminate|].
  intros [= <-] Hm.
  assert (Hx : is_number x).
  { unfold is_number. destruct (x <=? x)%float eqn:E; [reflexivity|].
    rewrite (fold_min_not_number rest x E) in Hm. unfold is_number in Hm. congruence. }
  destruct (fold_min_le rest x Hx) as (_ & Hmx & Hall). split.
  - apply Hin. destruct (fold_min_In rest x) as [->|H]; [left; reflexivity|right; exact H].
  - intros q u Hq Hu Hnum.
    assert (Hu' : In u (x :: rest)) by (apply Hin; eauto).
    destruct Hu' as [<-|Hu']; [exact Hmx|exact (Hall u Hu' Hnum)].
Qed.

Lemma insert_by_usd_perm x l : Permutation (insert_by_usd x l) (x :: l).
Proof.
  induction l as [|y l IH]; simpl; [reflexivity|].
  destruct (deal_price y <? deal_price x)%float; [|reflexivity].
  rewrite IH. apply perm_swap.
Qed.

Lemma sort_by_usd_perm l : Permutation (fold_right insert_by_usd [] l) l.
Proof.
  induction l as [|x l IH]; [reflexivity|].
  simpl. rewrite insert_by_usd_perm. apply perm_skip. exact IH.
Qed.

Lemma insert_by_usd_sorted x l :
  is_number (deal_price x) ->
  List.Forall (fun y => is_number (deal_price y)) l ->
  StronglySorted usd_le l ->
  StronglySorted usd_le (insert_by_usd x l).
Proof.
  intros Hx Hl Hs. induction Hs as [|y l Hs IH Hy]; simpl.
  - constructor; constructor.
  - inversion Hl as [|? ? Hyy Hl']; subst.
    destruct (deal_price y <? deal_price x)%float eqn:E.
    + constructor; [apply IH; exact Hl'|].
      apply (Permutation_Forall (Permutation_sym (insert_by_usd_perm x l))).
      constructor; [|exact Hy]. unfold usd_le. apply ltb_leb. exact E.
    + assert (Hxy : usd_le x y) by (apply not_ltb_leb; assumption).
      constructor; [constructor; assumption|].
      constructor; [exact Hxy|].
      eapply List.Forall_impl; [|exact Hy]. intros z Hz. unfold usd_le in *.
      eapply leb_trans; eassumption.
Qed.

Lemma sort_by_usd_sorted l :
  List.Forall (fun y => is_number (deal_price y)) l ->
  StronglySorted usd_le (fold_right insert_by_usd [] l).
Proof.
  induction 1 as [|x l Hx Hl IH]; [constructor|].
  simpl. apply insert_by_usd_sorted; [exact Hx| |exact IH].
  exact (Permutation_Forall (Permutation_sym (sort_by_usd_perm l)) Hl).
Qed.

Lemma best_deal_inv s p :
  is_best_deal s p = true ->
  exists m, min_price s (group_of p) = Some m /\
            price_usd p = Some (deal_price p) /\
            (deal_price p =? m)%float = true.
Proof.
  unfold is_best_deal, deal_price, group_of.
  destruct (min_price s (phone_model_id p, condition p)) as [m|]; [|discriminate].
  destruct (price_usd p) as [u|]; [|discriminate]. eauto.
Qed.

Lemma best_deals_In s top_n p :
  In p (best_deals s top_n) -> In p (price_records s) /\ is_best_deal s p = true.
Proof.
  unfold best_deals. intros H. apply firstn_incl in H.
  apply (Permutation_in _ (sort_by_usd_perm _)) in H.
  apply List.filter_In in H. exact H.
Qed.

Lemma best_deals_sorted s top_n : StronglySorted usd_le (best_deals s top_n).
Proof.
  unfold best_deals. apply firstn_StronglySorted, sort_by_usd_sorted.
  apply List.Forall_forall. intros p Hp. apply List.filter_In in Hp.
  destruct (best_deal_inv s p (proj2 Hp)) as (m & _ & _ & E).
  exact (eqb_is_number _ _ E).
Qed.

(** The loop: one insight per joined row that passes its tests, in the
    order of the rows. *)
Lemma deal_insights_spec s (l : list PriceRecord) :
  Forall2 (reports_deal s) (List.filter (is_reported_deal s) l)
          (flat_map (deal_insight s) l).
Proof.
  induction l as [|deal l IH]; [constructor|].
  cbn [List.filter flat_map]. unfold is_reported_deal at 1, deal_insight at 1.
  unfold references_stored.
  destruct (phone_models s !! phone_model_id deal) as [phone_model|] eqn:Epm;
    [|exact IH].
  destruct (platforms s !! platform_id deal) as [platform|] eqn:Epf; [|exact IH].
  cbn [andb].
  destruct (opt_truthy (avg_price s deal) && opt_truthy (price_usd deal)) eqn:E;
    [|exact IH].
  cbn [app]. constructor; [|exact IH].
  apply andb_prop in E. destruct E as [_ E].
  exists phone_model, platform. cbn.
  unfold deal_price. destruct (price_usd deal) as [u|]; [|discriminate E].
  repeat split; assumption.
Qed.

Lemma Forall2_In_l {A B} (rel : A -> B -> Prop) (l : list A) (r : list B) (a : A) :
  Forall2 rel l r -> In a l -> exists b, In b r /\ rel a b.
Proof.
  induction 1 as [|a' b l r Hab _ IH]; intros []; subst.
  - exists b. split; [left; reflexivity|exact Hab].
  - destruct (IH H) as (b' & Hb' & Hrel). exists b'. split; [right|]; assumption.
Qed.

Lemma Forall2_In_r {A B} (rel : A -> B -> Prop) (l : list A) (r : list B) (b : B) :
  Forall2 rel l r -> In b r -> exists a, In a l /\ rel a b.
Proof.
  induction 1 as [|a b' l r Hab _ IH]; intros []; subst.
  - exists a. split; [left; reflexivity|exact Hab].
  - destruct (IH H) as (a' & Ha' & Hrel). exists a'. split; [right|]; assumption.
Qed.

(** X15.  [find_best_deals] returns at most [top_n] insights, ordered by
    value, lowest first.  The value of each is the nonzero USD price of
    a stored record and equals the minimum of the recent available
    offers of the record's (phone model, condition): that minimum is the
    price of one of those offers and is at most every price of them. *)
Theorem best_deals_spec (s : Session) (top_n : nat) :
  (length (find_best_deals s top_n) <= top_n)%nat /\
  StronglySorted value_le (find_best_deals s top_n) /\
  List.Forall
    (fun i =>
       truthy (value i) = true /\
       exists deal m,
         In deal (price_records s) /\ reports_deal s deal i /\
         min_price s (group_of deal) = Some m /\
         (value i =? m)%float = true /\
         (exists q, In q (recent_offers s (group_of deal)) /\ price_usd q = Some m) /\
         (forall q u, In q (recent_offers s (group_of deal)) ->
                      price_usd q = Some u -> is_number u ->
                      (m <=? u)%float = true))
    (find_best_deals s top_n).
Proof.
  unfold find_best_deals.
  pose proof (deal_insights_spec s (best_deals s top_n)) as Hrel.
  split; [|split].
  - pose proof Hrel as Hlen. apply List.Forall2_length in Hlen. rewrite <- Hlen.
    etransitivity; [apply List.filter_length_le|].
    unfold best_deals. apply List.firstn_le_length.
  - eapply (Forall2_StronglySorted usd_le value_le (reports_deal s));
      [|exact Hrel|apply filter_StronglySorted, best_deals_sorted].
    intros d d' i i' (pm1 & pf1 & _ & _ & _ & _ & _ & _ & Hv & _)
           (pm2 & pf2 & _ & _ & _ & _ & _ & _ & Hv' & _).
    unfold usd_le, value_le, deal_price. rewrite Hv, Hv'. auto.
  - apply List.Forall_forall. intros i Hi.
    destruct (Forall2_In_r _ _ _ _ Hrel Hi) as (deal & Hdeal & Hrep).
    apply List.filter_In in Hdeal. destruct Hdeal as [Hdeal Hshown].
    apply best_deals_In in Hdeal. destruct Hdeal as [Hin Hbest].
    destruct (best_deal_inv s deal Hbest) as (m & Hmin & Hprice & E).
    assert (Hv : deal_price deal = value i).
    { destruct Hrep as (pm1 & pf1 & _ & _ & _ & _ & _ & _ & Hv & _).
      unfold deal_price. rewrite Hv. reflexivity. }
    rewrite Hv in E. split.
    + unfold is_reported_deal in Hshown. apply andb_prop in Hshown.
      destruct Hshown as [_ Ht]. rewrite Hprice, Hv in Ht. exact Ht.
    + exists deal, m. repeat split; try assumption.
      * apply (min_price_spec s _ m Hmin).
        apply eqb_leb in E. exact (leb_refl_right _ _ (proj1 E)).
      * apply (min_price_spec s _ m Hmin).
        apply eqb_leb in E. exact (leb_refl_right _ _ (proj1 E)).
Qed.

(** X17.  The join of [find_best_deals] looks at the price alone: a
    stored record of any age, available or not, whose USD price equals
    the minimum of the recent available offers of its (phone model,
    condition) is reported as a best deal, when its references are
    stored, its price and the 30-day average of its group are nonzero,
    and the joined rows fit within [top_n]. *)
Theorem best_deals_match_by_price_alone
        (s : Session) (top_n : nat) (p : PriceRecord) :
  In p (price_records s) ->
  is_best_deal s p = true ->
  is_reported_deal s p = true ->
  (length (List.filter (is_best_deal s) (price_records s)) <= top_n)%nat ->
  exists i, In i (find_best_deals s top_n) /\ reports_deal s p i.
Proof.
  intros Hin Hbest Hshown Hfit. unfold find_best_deals.
  apply (Forall2_In_l _ _ _ _ (deal_insights_spec s (best_deals s top_n))).
  apply List.filter_In. split; [|exact Hshown].
  unfold best_deals. rewrite List.firstn_all2.
  - apply (Permutation_in _ (Permutation_sym (sort_by_usd_perm _))).
    apply List.filter_In. auto.
  - rewrite (Permutation_length (sort_by_usd_perm _)). exact Hfit.
Qed.

Lemma best_deals_match_by_price_alone_witness :
  exists i, In i (find_best_deals stale_listing 10) /\
            reports_deal stale_listing (listing (45 * day) 500 false) i.
Proof.
  apply (best_deals_match_by_price_alone stale_listing 10).
  - left. reflexivity.
  - reflexivity.
  - reflexivity.
  - vm_compute. lia.
Defined.

(** *** The latest observation and the 7-day window *)

Lemma insert_by_timestamp_sorted x df :
  StronglySorted ts_le df -> StronglySorted ts_le (insert_by_timestamp x df).
Proof.
  induction 1 as [|y l Hs IH Hy]; simpl.
  - constructor; constructor.
  - destruct (Z.ltb_spec (fst y) (fst x)) as [Hlt|Hge].
    + constructor; [exact IH|].
      apply (Permutation_Forall (Permutation_sym (insert_by_timestamp_perm x l))).
      constructor; [unfold ts_le; lia|exact Hy].
    + constructor; [constructor; assumption|].
      constructor; [exact Hge|].
      eapply List.Forall_impl; [|exact Hy]. intros z Hz. unfold ts_le in *. lia.
Qed.

Lemma sort_values_sorted df : StronglySorted ts_le (sort_values df).
Proof.
  induction df as [|x df IH]; [constructor|].
  unfold sort_values in *. simpl. apply insert_by_timestamp_sorted. exact IH.
Qed.

Lemma sorted_snoc2 {A} (R : A -> A -> Prop) (l : list A) (a b : A) :
  StronglySorted R (l ++ [a; b]) ->
  List.Forall (fun x => R x a /\ R x b) l /\ R a b.
Proof.
  induction l as [|x l IH]; simpl; intros H;
    apply StronglySorted_inv in H; destruct H as [Hs Hx].
  - split; [constructor|]. inversion Hx; assumption.
  - destruct (IH Hs) as [Hl Hab]. split; [|exact Hab]. constructor; [|exact Hl].
    apply List.Forall_app in Hx. destruct Hx as [_ Hx].
    inversion Hx as [|? ? Ha Hx']; subst. inversion Hx'; subst. auto.
Qed.

(** The frame of an analysis ends in the rows of the previous and of
    the current price. *)
Lemma analysis_window_inv s pm pf cond days a :
  _analyze_single_combination s pm pf cond days = Some a ->
  exists front r1 r2,
    frame_of s pm pf cond days = (front ++ [r1; r2])%list /\
    current_price a = snd r2 /\
    previous_price a = Some (snd r1) /\
    price_change_amount a
    = (if truthy (snd r1) then (snd r2 - snd r1)%float else 0%float) /\
    min_price_7d a
    = series_min (price_column (since (frame_of s pm pf cond days)
                                      (utcnow s - timedelta_days 7))) (snd r2) /\
    max_price_7d a
    = series_max (price_column (since (frame_of s pm pf cond days)
                                      (utcnow s - timedelta_days 7))) (snd r2).
Proof.
  unfold _analyze_single_combination. fold (frame_of s pm pf cond days).
  rewrite (Permutation_length (order_by_desc_perm _)).
  destruct (length (qualifying s pm pf cond days) <? 2)%nat eqn:Hn; [discriminate|].
  apply Nat.ltb_ge in Hn. rewrite <- frame_length in Hn.
  destruct (phone_models s !! pm) as [phone_model|]; [|discriminate].
  destruct (platforms s !! pf) as [platform|]; [|discriminate].
  assert (Hlen : (1 <? length (frame_of s pm pf cond days))%nat = true)
    by (apply Nat.ltb_lt; lia).
  rewrite Hlen. unfold price_column at 1. rewrite <- List.map_rev.
  assert (Hdf : frame_of s pm pf cond days = rev (rev (frame_of s pm pf cond days)))
    by (symmetry; apply List.rev_involutive).
  rewrite <- (List.length_rev (frame_of s pm pf cond days)) in Hn.
  destruct (rev (frame_of s pm pf cond days)) as [|r2 [|r1 rfront]];
    [simpl in Hn; lia|simpl in Hn; lia|].
  cbn [List.map head]. intros [= <-]. cbn.
  exists (rev rfront), r1, r2. rewrite Hdf at 1. simpl.
  rewrite <- List.app_assoc. repeat split; reflexivity.
Qed.

Lemma fold_max_ge (l : list float) (x : float) :
  is_number x ->
  is_number (fold_left (fun m y => if (m <? y)%float then y else m) l x) /\
  (x <=? fold_left (fun m y => if (m <? y)%float then y else m) l x)%float = true /\
  forall y, In y l -> is_number y ->
    (y <=? fold_left (fun m y => if (m <? y)%float then y else m) l x)%float = true.
Proof.
  revert x. induction l as [|y l IH]; intros x Hx; simpl.
  - repeat split; [exact Hx|exact Hx|]. intros y [].
  - destruct (x <? y)%float eqn:E.
    + assert (Hxy : (x <=? y)%float = true) by (apply ltb_leb; exact E).
      assert (Hy : is_number y) by exact (leb_refl_right _ _ Hxy).
      destruct (IH y Hy) as (Hm & Hym & Hall). repeat split; [exact Hm| |].
      * eapply leb_trans; eassumption.
      * intros z [<-|Hz] Hnum; [exact Hym|exact (Hall z Hz Hnum)].
    + destruct (IH x Hx) as (Hm & Hxm & Hall). repeat split; [exact Hm|exact Hxm|].
      intros z [<-|Hz] Hnum; [|exact (Hall z Hz Hnum)].
      eapply leb_trans; [|exact Hxm]. apply not_ltb_leb; assumption.
Qed.

(** The minimum and the maximum of a window of numbers enclose the
    current price, which is in the window unless the window is empty. *)
Lemma series_bounds (l : list float) (current : float) :
  List.Forall is_number l -> is_number current ->
  (l <> [] -> In current l) ->
  (series_min l current <=? current)%float = true /\
  (current <=? series_max l current)%float = true.
Proof.
  intros Hl Hc Hin. destruct l as [|x rest]; [split; exact Hc|].
  inversion Hl as [|? ? Hx Hrest]; subst. rewrite List.Forall_forall in Hrest.
  unfold series_min, series_max.
  destruct (fold_min_le rest x Hx) as (_ & Hmx & Hmin).
  destruct (fold_max_ge rest x Hx) as (_ & Hxm & Hmax).
  destruct (Hin ltac:(discriminate)) as [<-|Hcur]; [split; assumption|].
  split; [apply Hmin|apply Hmax]; auto.
Qed.

(** X18.  In every analysis the current price is that of a newest
    observation of the window and the previous price that of a
    next-newest one; the change is measured against the previous price
    (0 when that price is zero); and, when the prices are numbers, the
    7-day minimum and maximum enclose the current price. *)
Theorem current_price_is_latest_observation
        (s : Session) (pm pf : Z) (cond : string) (days_back : Z)
        (a : PriceAnalysis) :
  _analyze_single_combination s pm pf cond days_back = Some a ->
  (exists front t1 previous t2,
     Permutation (front ++ [(t1, previous); (t2, current_price a)])%list
                 (to_frame (qualifying s pm pf cond days_back)) /\
     List.Forall (fun r => (fst r <= t1)%Z) front /\ (t1 <= t2)%Z /\
     previous_price a = Some previous /\
     price_change_amount a
     = (if truthy previous then (current_price a - previous)%float else 0%float)) /\
  ((forall q u, In q (qualifying s pm pf cond days_back) ->
                price_usd q = Some u -> is_number u) ->
   (min_price_7d a <=? current_price a)%float = true /\
   (current_price a <=? max_price_7d a)%float = true).
Proof.
  intros Ha.
  destruct (analysis_window_inv _ _ _ _ _ _ Ha)
    as (front & [t1 previous] & [t2 current] & Hdf & Hcur & Hprev & Hamount & Hmin & Hmax).
  simpl in *.
  pose proof (frame_perm s pm pf cond days_back) as Hperm.
  pose proof (sort_values_sorted
                (to_frame (order_by_desc (qualifying s pm pf cond days_back))))
    as Hsorted.
  fold (frame_of s pm pf cond days_back) in Hsorted.
  rewrite Hdf in Hsorted. apply sorted_snoc2 in Hsorted.
  destruct Hsorted as [Hfront H12]. unfold ts_le in Hfront, H12. simpl in Hfront, H12.
  split.
  - exists front, t1, previous, t2. rewrite Hcur.
    split; [rewrite <- Hdf; exact Hperm|].
    split; [eapply List.Forall_impl; [|exact Hfront]; intros r Hr; exact (proj1 Hr)|].
    auto.
  - intros Hnum. rewrite Hmin, Hmax, Hcur.
    set (cutoff := (utcnow s - timedelta_days 7)%Z).
    assert (Hrows : forall r, In r (frame_of s pm pf cond days_back) ->
                              is_number (snd r) /\ (fst r <= t2)%Z).
    { intros [t u] Hr. split.
      - apply (Permutation_in _ Hperm) in Hr. apply to_frame_In in Hr.
        destruct Hr as (q & Hq & _ & Hu). exact (Hnum q u Hq Hu).
      - rewrite Hdf in Hr. apply List.in_app_or in Hr.
        rewrite List.Forall_forall in Hfront.
        destruct Hr as [Hr|[Hr|[Hr|[]]]].
        + apply (Hfront _ Hr).
        + injection Hr as <- _. exact H12.
        + injection Hr as <- _. simpl. lia. }
    assert (Hlast : In (t2, current) (frame_of s pm pf cond days_back))
      by (rewrite Hdf; apply List.in_or_app; right; right; left; reflexivity).
    apply series_bounds.
    + apply List.Forall_forall. intros u Hu. unfold price_column in Hu.
      apply List.in_map_iff in Hu. destruct Hu as (r & <- & Hr).
      unfold since in Hr. apply List.filter_In in Hr. apply (Hrows r), Hr.
    + apply (Hrows (t2, current) Hlast).
    + intros Hne. unfold price_column. apply List.in_map_iff.
      exists (t2, current). split; [reflexivity|].
      unfold since. apply List.filter_In. split; [exact Hlast|]. simpl.
      destruct (since (frame_of s pm pf cond days_back) cutoff) as [|w W] eqn:EW;
        [exfalso; apply Hne; reflexivity|].
      assert (Hw : In w (since (frame_of s pm pf cond days_back) cutoff))
        by (rewrite EW; left; reflexivity).
      unfold since in Hw. apply List.filter_In in Hw. destruct Hw as [Hw Hg].
      apply Z.leb_le in Hg. apply Z.leb_le.
      destruct (Hrows w Hw) as [_ Hle]. lia.
Qed.

Lemma current_price_is_latest_observation_witness :
  exists a, _analyze_single_combination falling 1 1 "Good" 30 = Some a /\
            (min_price_7d a <=? current_price a)%float = true /\
            (current_price a <=? max_price_7d a)%float = true.
Proof.
  destruct (_analyze_single_combination falling 1 1 "Good" 30) as [a|] eqn:Ha;
    [|vm_compute in Ha; discriminate Ha].
  exists a. split; [reflexivity|].
  apply (current_price_is_latest_observation falling 1 1 "Good" 30 a Ha).
  intros q u Hq Hu. simpl in Hq.
  repeat (destruct Hq as [<-|Hq]; [injection Hu as <-; reflexivity|]).
  destruct Hq.
Defined.

Lemma cleanup_keeps_recent_analyses_witness :
  _analyze_single_combination (fst (cleanup_old_records falling 90)) 1 1 "Good" 30
  = _analyze_single_combination falling 1 1 "Good" 30.
Proof.
  apply (cleanup_keeps_recent_analyses falling 90 30 1 1 "Good"). lia.
Defined.

(** *** [generate_market_summary] *)

Section Counting.
Context {K : Type} `{EqDecision K}.

Lemma count_append_counted (key : K) (groups : list (K * nat)) :
  counted (count_append key groups) = S (counted groups).
Proof.
  induction groups as [|[k n] rest IH]; simpl; [reflexivity|].
  destruct (decide (k = key)); simpl; [reflexivity|]. rewrite IH. lia.
Qed.

Lemma count_append_keys (key : K) (groups : list (K * nat)) (k : K) :
  In k (List.map fst (count_append key groups)) <->
  k = key \/ In k (List.map fst groups).
Proof.
  induction groups as [|[k' n] rest IH]; simpl; [intuition (subst; auto)|].
  destruct (decide (k' = key)) as [->|Hne]; simpl; [intuition (subst; auto)|].
  rewrite IH. intuition (subst; auto).
Qed.

Lemma count_append_NoDup (key : K) (groups : list (K * nat)) :
  List.NoDup (List.map fst groups) ->
  List.NoDup (List.map fst (count_append key groups)).
Proof.
  induction groups as [|[k n] rest IH]; simpl; intros Hnd.
  - constructor; [intros []|constructor].
  - apply List.NoDup_cons_iff in Hnd. destruct Hnd as [Hk Hnd].
    destruct (decide (k = key)) as [->|Hne]; simpl.
    + constructor; assumption.
    + constructor; [|apply IH; exact Hnd].
      rewrite count_append_keys. intros [->|Hin]; [apply Hne; reflexivity|auto].
Qed.

Lemma count_append_positive (key : K) (groups : list (K * nat)) :
  List.Forall (fun g => (1 <= snd g)%nat) groups ->
  List.Forall (fun g => (1 <= snd g)%nat) (count_append key groups).
Proof.
  induction 1 as [|[k n] rest Hn Hrest IH]; simpl.
  - constructor; [simpl; lia|constructor].
  - destruct (decide (k = key)); constructor; simpl in *; try lia; assumption.
Qed.

Lemma group_count_spec (keys : list K) :
  counted (group_count keys) = length keys /\
  List.NoDup (List.map fst (group_count keys)) /\
  List.Forall (fun g => (1 <= snd g)%nat) (group_count keys).
Proof.
  unfold group_count.
  assert (Hgen : forall groups : list (K * nat),
            List.NoDup (List.map fst groups) ->
            List.Forall (fun g => (1 <= snd g)%nat) groups ->
            counted (fold_left (fun groups key => count_append key groups) keys groups)
            = (length keys + counted groups)%nat /\
            List.NoDup (List.map fst
              (fold_left (fun groups key => count_append key groups) keys groups)) /\
            List.Forall (fun g => (1 <= snd g)%nat)
              (fold_left (fun groups key => count_append key groups) keys groups)).
  { induction keys as [|key keys IH]; intros groups Hnd Hpos; simpl; [auto|].
    destruct (IH (count_append key groups)) as (Hc & Hn & Hp);
      [apply count_append_NoDup; exact Hnd|apply count_append_positive; exact Hpos|].
    rewrite count_append_counted in Hc. repeat split; [lia|exact Hn|exact Hp]. }
  destruct (Hgen [] (List.NoDup_nil _) (List.Forall_nil _)) as (Hc & Hn & Hp).
  simpl in Hc. rewrite Nat.add_0_r in Hc. auto.
Qed.

Lemma insert_by_count_perm (x : K * nat) l : Permutation (insert_by_count x l) (x :: l).
Proof.
  induction l as [|y l IH]; simpl; [reflexivity|].
  destruct (snd x <? snd y)%nat; [|reflexivity].
  rewrite IH. apply perm_swap.
Qed.

Lemma order_by_count_desc_perm (l : list (K * nat)) :
  Permutation (order_by_count_desc l) l.
Proof.
  induction l as [|x l IH]; [reflexivity|].
  unfold order_by_count_desc in *. simpl. rewrite insert_by_count_perm.
  apply perm_skip. exact IH.
Qed.

Lemma insert_by_count_sorted (x : K * nat) l :
  StronglySorted count_ge l -> StronglySorted count_ge (insert_by_count x l).
Proof.
  induction 1 as [|y l Hs IH Hy]; simpl.
  - constructor; constructor.
  - destruct (Nat.ltb_spec (snd x) (snd y)) as [Hlt|Hge].
    + constructor; [exact IH|].
      apply (Permutation_Forall (Permutation_sym (insert_by_count_perm x l))).
      constructor; [unfold count_ge; lia|exact Hy].
    + constructor; [constructor; assumption|].
      constructor; [exact Hge|].
      eapply List.Forall_impl; [|exact Hy]. intros z Hz. unfold count_ge in *. lia.
Qed.

Lemma order_by_count_desc_sorted (l : list (K * nat)) :
  StronglySorted count_ge (order_by_count_desc l).
Proof.
  induction l as [|x l IH]; [constructor|].
  unfold order_by_count_desc in *. simpl. apply insert_by_count_sorted. exact IH.
Qed.

Lemma counted_perm (l l' : list (K * nat)) :
  Permutation l l' -> counted l = counted l'.
Proof.
  induction 1 as [| |x y l|]; simpl; try lia.
Qed.

Lemma counted_firstn (n : nat) (l : list (K * nat)) :
  (counted (firstn n l) <= counted l)%nat.
Proof.
  revert n. induction l as [|x l IH]; intros [|n]; simpl; try lia.
  specialize (IH n). lia.
Qed.

End Counting.

(** X20.  The fields of the market summary agree with one another: the
    recent records are among the total; [platform_activity] lists each
    platform name once, with a count of at least 1, ordered by count,
    largest first, and its counts never exceed [recent_records] and add
    up to it when every record names a stored platform;
    [popular_models] has at most 5 rows, ordered the same way, and its
    counts do not exceed [recent_records]. *)
Theorem market_summary_is_consistent (s : Session) :
  let summary := generate_market_summary s in
  (recent_records summary <= total_records summary)%nat /\
  List.NoDup (List.map fst (platform_activity summary)) /\
  List.Forall (fun g => (1 <= snd g)%nat) (platform_activity summary) /\
  StronglySorted count_ge (platform_activity summary) /\
  (counted (platform_activity summary) <= recent_records summary)%nat /\
  (length (popular_models summary) <= 5)%nat /\
  StronglySorted count_ge (popular_models summary) /\
  (counted (popular_models summary) <= recent_records summary)%nat /\
  (referential_integrity s ->
   counted (platform_activity summary) = recent_records summary).
Proof.
  unfold generate_market_summary.
  cbn [total_records recent_records popular_models platform_activity].
  set (names := flat_map (fun p => match platforms s !! platform_id p with
                                   | Some platform => [name platform]
                                   | None => []
                                   end) (last_week s)).
  set (models := flat_map (fun p => match phone_models s !! phone_model_id p with
                                    | Some phone_model =>
                                        [(brand phone_model, model_name phone_model)]
                                    | None => []
                                    end) (last_week s)).
  destruct (group_count_spec names) as (Hc & Hn & Hp).
  destruct (group_count_spec models) as (Hc' & _ & _).
  pose proof (order_by_count_desc_perm (group_count names)) as Hperm.
  assert (Hnames : (length names <= length (last_week s))%nat).
  { unfold names. clear. induction (last_week s) as [|p l IH]; [reflexivity|]. simpl.
    destruct (platforms s !! platform_id p); simpl; lia. }
  assert (Hmodels : (length models <= length (last_week s))%nat).
  { unfold models. clear. induction (last_week s) as [|p l IH]; [reflexivity|]. simpl.
    destruct (phone_models s !! phone_model_id p); simpl; lia. }
  split; [unfold last_week; apply List.filter_length_le|].
  split; [exact (Permutation_NoDup
                   (Permutation_map fst (Permutation_sym Hperm)) Hn)|].
  split; [exact (Permutation_Forall (Permutation_sym Hperm) Hp)|].
  split; [apply order_by_count_desc_sorted|].
  split; [rewrite (counted_perm _ _ Hperm), Hc; exact Hnames|].
  split; [apply List.firstn_le_length|].
  split; [apply firstn_StronglySorted, order_by_count_desc_sorted|].
  split.
  - etransitivity; [apply counted_firstn|].
    rewrite (counted_perm _ _ (order_by_count_desc_perm _)), Hc'. exact Hmodels.
  - intros Href. rewrite (counted_perm _ _ Hperm), Hc. unfold names.
    clear -Href. assert (H : forall p, In p (last_week s) ->
                                       is_Some (platforms s !! platform_id p)).
    { intros p Hp. apply List.filter_In in Hp. apply (Href p), Hp. }
    induction (last_week s) as [|p l IH]; [reflexivity|]. simpl.
    destruct (H p (or_introl eq_refl)) as [f ->]. simpl. f_equal.
    apply IH. intros q Hq. apply H. right. exact Hq.
Qed.

End InsightsFacts.

(* ------------------------------------------------------------------ *)
(** ** Facts about storing scraped prices *)

Module IngestFacts.
Import Currency Analyzer Ingest Spec InsightsSpec CurrencyFacts.
Local Open Scope conv_scope.

Lemma first_row_lookup {T} (rows : gmap Z T) (matches : T -> bool) k v :
  first_row rows matches = Some (k, v) -> rows !! k = Some v /\ matches v = true.
Proof.
  unfold first_row. intros H.
  destruct (List.filter (fun kv => matches (snd kv)) (map_to_list rows))
    as [|x l] eqn:E; [discriminate H|].
  injection H as ->.
  assert (Hin : In (k, v) (List.filter (fun kv => matches (snd kv)) (map_to_list rows)))
    by (rewrite E; left; reflexivity).
  apply List.filter_In in Hin. destruct Hin as [Hin Hm]. split; [|exact Hm].
  apply elem_of_map_to_list, list_elem_of_In. exact Hin.
Qed.

(** [main.py] always has a USD price to store: the converted amount when
    it is nonzero, the raw price otherwise. *)
Lemma main_price_usd_some (price0 : float) (cur : string) (c : Converter) :
  exists usd c',
    main_price_usd price0 cur c = (Ok (Some usd), c') /\
    (Py.truthy price0 = true -> Py.truthy usd = true) /\
    (cur = "USD" -> usd = price0).
Proof.
  unfold main_price_usd.
  destruct (String.eqb_spec cur "USD") as [->|Hne]; simpl.
  - exists price0, c. auto.
  - destruct (get_exchange_rate_spec cur "USD") as [Hret _].
    destruct (Hret c) as (rate & c' & E).
    rewrite (bind_Ok _ _ _ _ _ (convert_after_resolution price0 cur c c' rate Hne E)).
    destruct (apply_rate price0 rate) as [converted|] eqn:Ec; simpl.
    + destruct (Py.truthy converted) eqn:T.
      * exists converted, c'. split; [reflexivity|].
        split; [intros _; exact T|intros H; contradiction].
      * exists price0, c'. split; [reflexivity|].
        split; [auto|intros H; contradiction].
    + exists price0, c'. split; [reflexivity|].
      split; [auto|intros H; contradiction].
Qed.

Lemma build_records_spec (s : Session) (price_data : list PriceData) :
  forall c, exists added c',
    build_records s price_data c = (Ok added, c') /\
    Forall2 (stored_for s) (List.filter (is_known s) price_data) added.
Proof.
  induction price_data as [|price_item rest IH]; intros c.
  - exists [], c. split; [reflexivity|constructor].
  - cbn [build_records List.filter]. unfold is_known at 1.
    destruct (find_phone_model s price_item) as [[pm m]|] eqn:Epm; [|apply IH].
    destruct (find_platform s price_item) as [[pf f]|] eqn:Epf; [|apply IH].
    destruct (main_price_usd_some (pd_price price_item) (pd_currency price_item) c)
      as (usd & c1 & E1 & Htruthy & Husd).
    destruct (IH c1) as (added & c2 & E2 & Hrel).
    eexists _, c2. split.
    + rewrite (bind_Ok _ _ _ _ _ E1), (bind_Ok _ _ _ _ _ E2). reflexivity.
    + constructor; [|exact Hrel].
      unfold stored_for. cbn. repeat split; eauto.
Qed.

(** X19.  [_save_price_data] of [main.py] always returns.  It adds one
    record per item whose phone model and platform are found, in the
    order of the items, and returns their number; it leaves the stored
    records, phone models and platforms as they are.  Each added record
    names the rows found for its item and carries a USD price that is
    never null: the price itself for USD, and nonzero whenever the
    price is nonzero.  So the store keeps its referential integrity. *)
Theorem save_price_data_keeps_store_consistent
        (s : Session) (price_data : list PriceData) (c : Converter) :
  exists s' added c',
    _save_price_data s price_data c = (Ok (s', length added), c') /\
    price_records s' = (price_records s ++ added)%list /\
    phone_models s' = phone_models s /\
    platforms s' = platforms s /\
    Forall2 (stored_for s) (List.filter (is_known s) price_data) added /\
    (referential_integrity s -> referential_integrity s').
Proof.
  destruct (build_records_spec s price_data c) as (added & c' & E & Hrel).
  assert (Hint : forall s', price_records s' = (price_records s ++ added)%list ->
                   phone_models s' = phone_models s ->
                   platforms s' = platforms s ->
                   referential_integrity s -> referential_integrity s').
  { intros s' Hrec Hpm Hpf Href p Hp. rewrite Hrec in Hp. rewrite Hpm, Hpf.
    apply List.in_app_or in Hp. destruct Hp as [Hp|Hp]; [exact (Href p Hp)|].
    destruct (InsightsFacts.Forall2_In_r _ _ _ _ Hrel Hp) as (item & _ & Hst).
    destruct Hst as ((m & Hm) & (f & Hf) & _).
    apply first_row_lookup in Hm, Hf. split; eexists; [apply Hm|apply Hf]. }
  unfold _save_price_data. rewrite (bind_Ok _ _ _ _ _ E).
  destruct added as [|p added].
  - exists s, [], c'.
    split; [reflexivity|]. split; [symmetry; apply List.app_nil_r|].
    split; [reflexivity|]. split; [reflexivity|]. split; [exact Hrel|].
    apply Hint; [symmetry; apply List.app_nil_r|reflexivity|reflexivity].
  - exists (save_price_records s (p :: added)), (p :: added), c'.
    split; [reflexivity|]. split; [reflexivity|].
    split; [reflexivity|]. split; [reflexivity|]. split; [exact Hrel|].
    apply Hint; reflexivity.
Qed.



End IngestFacts.
